(** * CSAO data simulator: the session generator of [data_simulator.py]

    A shallow embedding of [generate_sessions] and of the helpers it calls,
    followed by the properties of the cart-building engine.

    Conventions of the embedding:
    - Python floats are idealised as rationals ([Q]); comparisons and
      products are the exact ones.
    - Python dicts are association lists in insertion order (the order of
      the keys is observable: [all_item_ids] is handed to the generator).
    - The NumPy generator is an interface ([Generator]); its state is
      threaded explicitly, and a raised exception ends the run.
    - The iteration order of a Python [set] of strings is a parameter
      ([SetOrder]): it is fixed by the interpreter's string hashing and not
      by any argument of [generate_sessions]. *)

From Stdlib Require Import String Ascii List Bool Arith ZArith QArith Qround.
From Stdlib Require Import Lia Lqa Permutation DecimalString.
From Stdlib Require DecimalNat DecimalFacts Sorted.
Import ListNotations.

Open Scope string_scope.
Open Scope Q_scope.

(* ================================================================== *)
(** ** Numbers *)

Definition Qltb (x y : Q) : bool := negb (Qle_bool y x).

(** Python's [min(a, b)] and [max(a, b)]: the first argument wins ties. *)
Definition py_min (a b : Q) : Q := if Qltb b a then b else a.
Definition py_max (a b : Q) : Q := if Qltb a b then b else a.

Definition Qsum (l : list Q) : Q := fold_left Qplus l 0.

(** [round(x, ndigits)]: nearest multiple of [10^-ndigits], ties to even. *)
Definition py_round (x : Q) (ndigits : nat) : Q :=
  let scale := inject_Z (10 ^ Z.of_nat ndigits) in
  let s := x * scale in
  let f := Qfloor s in
  let r := s - inject_Z f in
  let n := if Qltb r (1 # 2) then f
           else if Qltb (1 # 2) r then (f + 1)%Z
           else if Z.even f then f else (f + 1)%Z in
  Qred (inject_Z n / scale).

(* ================================================================== *)
(** ** Exceptions *)

Inductive exn : Type :=
| KeyError (key : string)
| IndexError (msg : string)
| ValueError (msg : string)
| OverflowError (msg : string).

(* ================================================================== *)
(** ** Dictionaries with string keys, in insertion order *)

Definition dict (V : Type) : Type := list (string * V).

Fixpoint dict_get {V} (k : string) (d : dict V) : option V :=
  match d with
  | [] => None
  | (k', v) :: d' => if String.eqb k k' then Some v else dict_get k d'
  end.

(** [d[k] = v]: an existing key keeps its position. *)
Fixpoint dict_set {V} (k : string) (v : V) (d : dict V) : dict V :=
  match d with
  | [] => [(k, v)]
  | (k', v') :: d' =>
      if String.eqb k k' then (k', v) :: d' else (k', v') :: dict_set k v d'
  end.

Definition dict_keys {V} (d : dict V) : list string := map fst d.

(** [k in d] *)
Definition dict_mem {V} (k : string) (d : dict V) : bool :=
  match dict_get k d with Some _ => true | None => false end.

(** [d.get(k, default)] *)
Definition dict_get_default {V} (k : string) (default : V) (d : dict V) : V :=
  match dict_get k d with Some v => v | None => default end.

(** [d[k]] *)
Definition dict_index {V} (k : string) (d : dict V) : exn + V :=
  match dict_get k d with Some v => inr v | None => inl (KeyError k) end.

(** [x in l] for a list of strings *)
Definition str_in (x : string) (l : list string) : bool :=
  existsb (String.eqb x) l.

(** The distinct elements of [l], in order of first occurrence. *)
Fixpoint dedup (l : list string) : list string :=
  match l with
  | [] => []
  | x :: l' => x :: filter (fun y => negb (String.eqb y x)) (dedup l')
  end.

(* ================================================================== *)
(** ** Data model *)

Module MenuItem.
Record t : Type := mk {
  item_id : string;
  name : string;
  category : string;
  cuisine : string;
  is_veg : bool;
  price : Q;
  meal_role : string;
  meal_times : list string;
  description : string;
  popularity_score : Q
}.
End MenuItem.

Module UserProfile.
Record t : Type := mk {
  user_id : string;
  city : string;
  segment : string;
  veg_preference : Q;
  price_sensitivity : Q;
  adventurousness : Q;
  preferred_cuisines : list string;
  num_orders : nat
}.
End UserProfile.

Module MealTemplate.
Record t : Type := mk {
  anchors : list string;
  complements : list string;
  addons : list string;
  finishers : list string;
  completion_prob : dict Q
}.
End MealTemplate.

(** [datetime]: the date as its proleptic Gregorian ordinal
    ([date.toordinal()]), and the time-of-day fields. *)
Module datetime.
Record t : Type := mk {
  ordinal : Z;
  hour : Z;
  minute : Z;
  second : Z;
  microsecond : Z
}.

(** The ordinals of [datetime.min] and [datetime.max]: 0001-01-01 and
    9999-12-31. *)
Definition MINORDINAL : Z := 1.
Definition MAXORDINAL : Z := 3652059.

(** [timedelta(days=d)]: the number of days is limited in magnitude. *)
Definition timedelta_days (d : Z) : exn + Z :=
  if (Z.abs d <=? 999999999)%Z then inr d
  else inl (OverflowError
              ("days=" ++ NilZero.string_of_int (Z.to_int d)
               ++ "; must have magnitude <= 999999999")).

(** The date [d] days from [dt], when there is one. *)
Definition shift (dt : t) (d : Z) : t :=
  mk (ordinal dt + d) (hour dt) (minute dt) (second dt) (microsecond dt).

(** [d] days from [dt] is a date of the calendar. *)
Definition in_range (dt : t) (d : Z) : bool :=
  (Z.abs d <=? 999999999)%Z
  && (MINORDINAL <=? ordinal dt + d)%Z && (ordinal dt + d <=? MAXORDINAL)%Z.

(** [dt + timedelta(days=d)]: raises [OverflowError] when the number of
    days is too large for a [timedelta], or when the sum lies before
    0001-01-01 or after 9999-12-31. *)
Definition add_days (dt : t) (d : Z) : exn + t :=
  match timedelta_days d with
  | inl e => inl e
  | inr days =>
      if (MINORDINAL <=? ordinal dt + days)%Z
         && (ordinal dt + days <=? MAXORDINAL)%Z
      then inr (shift dt days)
      else inl (OverflowError "date value out of range")
  end.

(** [dt.replace(hour=h, minute=m, second=s)] *)
Definition replace (dt : t) (h m s : Z) : t :=
  mk (ordinal dt) h m s (microsecond dt).

(** [dt.weekday()]: 0 = Monday ... 6 = Sunday; ordinal 1 is a Monday. *)
Definition weekday (dt : t) : Z := ((ordinal dt + 6) mod 7)%Z.
End datetime.

(** The dict appended to [events] for each evaluated candidate. *)
Module Event.
Record t : Type := mk {
  session_id : string;
  user_id : string;
  city : string;
  user_segment : string;
  user_veg_preference : Q;
  user_price_sensitivity : Q;
  timestamp : datetime.t;
  meal_time : string;
  day_of_week : Z;
  hour_of_day : Z;
  is_weekend : Z;
  cart_items : list string;
  cart_item_count : Z;
  cart_total_price : Q;
  cart_veg_ratio : Q;
  last_item_added : string;
  last_item_category : string;
  last_item_cuisine : string;
  cart_categories : list string;
  cart_cuisines : list string;
  candidate_item_id : string;
  candidate_category : string;
  candidate_cuisine : string;
  candidate_price : Q;
  candidate_is_veg : Z;
  candidate_meal_role : string;
  candidate_popularity : Q;
  candidate_accepted : Z;
  meal_template : string;
  is_abandoned : Z
}.

(** [e["is_abandoned"] = v] *)
Definition set_is_abandoned (v : Z) (e : t) : t :=
  mk (session_id e) (user_id e) (city e) (user_segment e)
     (user_veg_preference e) (user_price_sensitivity e) (timestamp e)
     (meal_time e) (day_of_week e) (hour_of_day e) (is_weekend e)
     (cart_items e) (cart_item_count e) (cart_total_price e)
     (cart_veg_ratio e) (last_item_added e) (last_item_category e)
     (last_item_cuisine e) (cart_categories e) (cart_cuisines e)
     (candidate_item_id e) (candidate_category e) (candidate_cuisine e)
     (candidate_price e) (candidate_is_veg e) (candidate_meal_role e)
     (candidate_popularity e) (candidate_accepted e) (meal_template e) v.
End Event.

(* ================================================================== *)
(** ** Configuration and constants *)

Definition RANDOM_SEED : nat := 42.

Definition MEAL_TEMPLATES : dict MealTemplate.t :=
  [ ("biryani_meal",
     MealTemplate.mk
       ["ITEM_001"; "ITEM_002"; "ITEM_003"; "ITEM_011"]
       ["ITEM_033"; "ITEM_034"; "ITEM_035"]
       ["ITEM_040"; "ITEM_041"; "ITEM_044"]
       ["ITEM_050"; "ITEM_051"; "ITEM_064"; "ITEM_063"]
       [("complement", 0.65); ("addon", 0.25); ("finisher", 0.50)]);
    ("north_indian_curry",
     MealTemplate.mk
       ["ITEM_004"; "ITEM_005"; "ITEM_006"; "ITEM_007"]
       ["ITEM_030"; "ITEM_031"; "ITEM_032"]
       ["ITEM_040"; "ITEM_041"; "ITEM_035"; "ITEM_072"]
       ["ITEM_050"; "ITEM_052"; "ITEM_062"; "ITEM_064"]
       [("complement", 0.80); ("addon", 0.20); ("finisher", 0.45)]);
    ("south_indian_breakfast",
     MealTemplate.mk
       ["ITEM_009"; "ITEM_010"; "ITEM_012"; "ITEM_013"]
       ["ITEM_038"; "ITEM_039"]
       ["ITEM_073"]
       ["ITEM_066"; "ITEM_060"]
       [("complement", 0.70); ("addon", 0.15); ("finisher", 0.55)]);
    ("chinese_meal",
     MealTemplate.mk
       ["ITEM_014"; "ITEM_015"; "ITEM_016"; "ITEM_017"]
       ["ITEM_043"; "ITEM_044"]
       ["ITEM_037"]
       ["ITEM_064"; "ITEM_061"; "ITEM_053"]
       [("complement", 0.45); ("addon", 0.30); ("finisher", 0.40)]);
    ("street_food_snack",
     MealTemplate.mk
       ["ITEM_018"; "ITEM_019"; "ITEM_020"; "ITEM_008"]
       []
       ["ITEM_037"; "ITEM_035"]
       ["ITEM_060"; "ITEM_064"; "ITEM_065"]
       [("complement", 0.10); ("addon", 0.20); ("finisher", 0.50)]);
    ("continental_meal",
     MealTemplate.mk
       ["ITEM_021"; "ITEM_022"; "ITEM_023"]
       ["ITEM_037"; "ITEM_036"]
       ["ITEM_042"; "ITEM_045"]
       ["ITEM_053"; "ITEM_061"; "ITEM_064"]
       [("complement", 0.55); ("addon", 0.30); ("finisher", 0.45)]) ].

Definition MEALTIME_TEMPLATE_WEIGHTS : dict (dict Q) :=
  [ ("breakfast",
     [("south_indian_breakfast", 0.5); ("street_food_snack", 0.3);
      ("continental_meal", 0.2)]);
    ("lunch",
     [("biryani_meal", 0.25); ("north_indian_curry", 0.30);
      ("chinese_meal", 0.15); ("south_indian_breakfast", 0.10);
      ("continental_meal", 0.10); ("street_food_snack", 0.10)]);
    ("snacks",
     [("street_food_snack", 0.5); ("chinese_meal", 0.2);
      ("continental_meal", 0.2); ("south_indian_breakfast", 0.1)]);
    ("dinner",
     [("biryani_meal", 0.30); ("north_indian_curry", 0.30);
      ("chinese_meal", 0.20); ("continental_meal", 0.15);
      ("street_food_snack", 0.05)]);
    ("late_night",
     [("chinese_meal", 0.35); ("continental_meal", 0.35);
      ("street_food_snack", 0.20); ("biryani_meal", 0.10)]) ].

(** The roles of the cart-building loop, in the order of the source's
    [for role in ["complement", "addon", "finisher"]]. *)
Definition ROLES : list string := ["complement"; "addon"; "finisher"].

(* ================================================================== *)
(** ** [_get_meal_time] *)

Definition _get_meal_time (hour : Z) : string :=
  if ((6 <=? hour) && (hour <? 10))%Z then "breakfast"
  else if ((10 <=? hour) && (hour <? 15))%Z then "lunch"
  else if ((15 <=? hour) && (hour <? 18))%Z then "snacks"
  else if ((18 <=? hour) && (hour <? 22))%Z then "dinner"
  else "late_night".

(** [MEALTIME_TEMPLATE_WEIGHTS.get(meal_time, MEALTIME_TEMPLATE_WEIGHTS["lunch"])] *)
Definition template_weights_for (meal_time : string) : exn + dict Q :=
  match dict_index "lunch" MEALTIME_TEMPLATE_WEIGHTS with
  | inl e => inl e
  | inr fallback =>
      inr (dict_get_default meal_time fallback MEALTIME_TEMPLATE_WEIGHTS)
  end.

(* ================================================================== *)
(** ** The NumPy generator and the interpreter's set order *)

(** The operations of [numpy.random.Generator] that the simulator calls.
    Each one returns its sample and the advanced generator state. *)
Class Generator (G : Type) : Type := {
  (** [np.random.default_rng(seed)] *)
  default_rng : nat -> G;
  (** [rng.random()] *)
  random : G -> Q * G;
  (** [rng.normal(loc, scale)] *)
  normal : Q -> Q -> G -> Q * G;
  (** [rng.choice(n, size=size, replace=True)] *)
  choice_int : Z -> nat -> G -> list Z * G;
  (** [rng.choice(a, p=p)] *)
  choice_p : list string -> list Q -> G -> string * G;
  (** [rng.choice(a, size=size, replace=False).tolist()] *)
  choice_noreplace : list string -> nat -> G -> list string * G
}.

(** What NumPy documents about the two [choice] forms the cart engine
    relies on: a sample is an entry of the population, and sampling
    without replacement returns [size] distinct entries. *)
Class GeneratorLaws (G : Type) `{Generator G} : Prop := {
  choice_p_In : forall a p g, a <> [] -> In (fst (choice_p a p g)) a;
  choice_noreplace_NoDup : forall a size g,
    NoDup a -> (size <= length a)%nat ->
    NoDup (fst (choice_noreplace a size g));
  choice_noreplace_incl : forall a size g,
    (size <= length a)%nat -> incl (fst (choice_noreplace a size g)) a;
  choice_noreplace_length : forall a size g,
    (size <= length a)%nat ->
    length (fst (choice_noreplace a size g)) = size
}.

(** [list(set(xs))]: the iteration order of a set of strings. *)
Definition SetOrder : Type := list string -> list string.

(** Two iteration orders that string hashing can produce. *)
Definition insertion_order : SetOrder := dedup.
Definition reverse_order : SetOrder := fun xs => rev (dedup xs).

(* ================================================================== *)
(** ** The monad of the simulator: generator state and exceptions *)

Definition M (G A : Type) : Type := G -> exn + (A * G).

Definition ret {G A} (a : A) : M G A := fun g => inr (a, g).

Definition bind {G A B} (c : M G A) (k : A -> M G B) : M G B :=
  fun g => match c g with
           | inl e => inl e
           | inr (a, g') => k a g'
           end.

(** A computation that may raise but does not touch the generator. *)
Definition lift {G A} (r : exn + A) : M G A :=
  fun g => match r with inl e => inl e | inr a => inr (a, g) end.

Definition ebind {A B} (r : exn + A) (k : A -> exn + B) : exn + B :=
  match r with inl e => inl e | inr a => k a end.

Declare Scope sim_scope.
Delimit Scope sim_scope with sim.
Notation "x <- c ;; k" := (bind c (fun x => k))
  (at level 61, c at next level, right associativity) : sim_scope.
Notation "' pat <- c ;; k" := (bind c (fun x => match x with pat => k end))
  (at level 61, pat pattern, c at next level, right associativity) : sim_scope.
Notation "x <-? r ;; k" := (ebind r (fun x => k))
  (at level 61, r at next level, right associativity) : sim_scope.
Open Scope sim_scope.

Fixpoint emapM {A B} (f : A -> exn + B) (l : list A) : exn + list B :=
  match l with
  | [] => inr []
  | x :: l' => y <-? f x ;; ys <-? emapM f l' ;; inr (y :: ys)
  end.

(* ================================================================== *)
(** ** Pure helpers of [generate_sessions] *)

Definition is_nil {A} (l : list A) : bool :=
  match l with [] => true | _ => false end.

(** [np.clip(x, lo, hi)] *)
Definition np_clip (x lo hi : Q) : Q :=
  if Qltb x lo then lo else if Qltb hi x then hi else x.

(** [probs /= probs.sum()] *)
Definition normalize (probs : list Q) : list Q :=
  let s := Qsum probs in map (fun x => x / s) probs.

(** [sorted(xs)] on integers *)
Fixpoint insert_sorted (x : Z) (l : list Z) : list Z :=
  match l with
  | [] => [x]
  | y :: l' => if (x <? y)%Z then x :: l else y :: insert_sorted x l'
  end.

Definition sorted (l : list Z) : list Z := fold_right insert_sorted [] l.

(** [f"S{n:07d}"] *)
Definition format_07d (n : nat) : string :=
  let s := NilZero.string_of_uint (Nat.to_uint n) in
  let fix zeros (k : nat) : string :=
    match k with O => "" | S k' => String "0" (zeros k') end in
  (zeros (7 - String.length s)%nat ++ s)%string.

(** [item_lookup = {item.item_id: item for item in catalog}] *)
Definition build_item_lookup (catalog : list MenuItem.t) : dict MenuItem.t :=
  fold_left (fun d item => dict_set (MenuItem.item_id item) item d) catalog [].

(** [[item_lookup[i] for i in ids if i in item_lookup]] *)
Definition lookup_present (item_lookup : dict MenuItem.t) (ids : list string)
  : list MenuItem.t :=
  flat_map (fun i => match dict_get i item_lookup with
                     | Some it => [it]
                     | None => []
                     end) ids.

(** [len(set(cuisines of the template's anchors) & set(preferred))] *)
Definition cuisine_overlap (item_lookup : dict MenuItem.t)
    (template : MealTemplate.t) (preferred : list string) : nat :=
  let anchor_cuisines :=
    dedup (map MenuItem.cuisine
               (lookup_present item_lookup (MealTemplate.anchors template))) in
  length (filter (fun c => str_in c preferred) anchor_cuisines).

(** The loop [for j, tname in enumerate(template_names)] that rescales
    [template_probs] in place. *)
Fixpoint adjust_template_probs (item_lookup : dict MenuItem.t)
    (user : UserProfile.t) (weights : dict Q) : exn + list Q :=
  match weights with
  | [] => inr []
  | (tname, w) :: rest =>
      template <-? dict_index tname MEAL_TEMPLATES ;;
      let overlap :=
        cuisine_overlap item_lookup template
                        (UserProfile.preferred_cuisines user) in
      ps <-? adjust_template_probs item_lookup user rest ;;
      inr (w * (1.0 + 0.3 * inject_Z (Z.of_nat overlap)) :: ps)
  end.

(** [valid_anchors = [aid for aid in template["anchors"] if aid in item_lookup]] *)
Definition valid_anchors (item_lookup : dict MenuItem.t)
    (template : MealTemplate.t) : list string :=
  filter (fun aid => dict_mem aid item_lookup) (MealTemplate.anchors template).

Definition veg_match (user : UserProfile.t) (item : MenuItem.t) : Q :=
  if (MenuItem.is_veg item && Qltb 0.5 (UserProfile.veg_preference user))
     || (negb (MenuItem.is_veg item)
         && Qle_bool (UserProfile.veg_preference user) 0.5)
  then 1.0 else 0.3.

Definition price_match (user : UserProfile.t) (item : MenuItem.t) : Q :=
  py_max 0.1 (1.0 - UserProfile.price_sensitivity user
                    * (MenuItem.price item / 400.0)).

(** The second component of an entry of [scored_anchors]. *)
Definition anchor_score (user : UserProfile.t) (item : MenuItem.t) : Q :=
  veg_match user item * price_match user item * MenuItem.popularity_score item.

Definition scored_anchors (item_lookup : dict MenuItem.t)
    (user : UserProfile.t) (valid : list string) : exn + list (string * Q) :=
  emapM (fun aid => item <-? dict_index aid item_lookup ;;
                    inr (aid, anchor_score user item)) valid.

(** [template.get(key)] for the list-valued keys of a template dict. *)
Definition template_get (key : string) (template : MealTemplate.t)
  : option (list string) :=
  if String.eqb key "anchors" then Some (MealTemplate.anchors template)
  else if String.eqb key "complements" then Some (MealTemplate.complements template)
  else if String.eqb key "addons" then Some (MealTemplate.addons template)
  else if String.eqb key "finishers" then Some (MealTemplate.finishers template)
  else None.

(** [template.get(f"{role}s", template.get(role, []))] *)
Definition role_items_of (template : MealTemplate.t) (role : string)
  : list string :=
  match template_get (role ++ "s") template with
  | Some l => l
  | None => match template_get role template with
            | Some l => l
            | None => []
            end
  end.

Definition SEGMENT_MULTIPLIER : dict Q :=
  [("new", 0.7); ("regular", 1.0); ("power", 1.3)].

(** The value of [accept_prob] when the candidate loop of a role starts
    (source lines 568-576). *)
Definition role_accept_prob (template : MealTemplate.t) (role : string)
    (user : UserProfile.t) (timestamp : datetime.t) : exn + Q :=
  let base_accept_prob :=
    dict_get_default role 0.3 (MealTemplate.completion_prob template) in
  segment_multiplier <-?
    dict_index (UserProfile.segment user) SEGMENT_MULTIPLIER ;;
  let accept_prob := py_min 0.95 (base_accept_prob * segment_multiplier) in
  let accept_prob :=
    if (5 <=? datetime.weekday timestamp)%Z
    then py_min 0.95 (accept_prob * 1.15)
    else accept_prob in
  inr accept_prob.

(** [[cid for cid in role_items if cid in item_lookup and cid not in cart]] *)
Definition valid_candidates_of (item_lookup : dict MenuItem.t)
    (role_items cart : list string) : list string :=
  filter (fun cid => dict_mem cid item_lookup && negb (str_in cid cart))
         role_items.

(** The population the noise candidates are drawn from. *)
Definition noise_population (all_item_ids cart valid_candidates : list string)
  : list string :=
  filter (fun iid => negb (str_in iid cart) && negb (str_in iid valid_candidates))
         all_item_ids.

(** [min(3, len(all_item_ids) - len(cart) - len(valid_candidates))] *)
Definition noise_size (all_item_ids cart valid_candidates : list string) : Z :=
  Z.min 3 (Z.of_nat (length all_item_ids) - Z.of_nat (length cart)
           - Z.of_nat (length valid_candidates)).

(** The value of [cand_accept] when the label is drawn (source lines
    594-612). *)
Definition candidate_accept_prob (accept_prob : Q) (cand_id : string)
    (cand_item : MenuItem.t) (noise_candidates : list string)
    (user : UserProfile.t) (meal_time : string) : Q :=
  let cand_accept := accept_prob in
  let cand_accept :=
    if str_in cand_id noise_candidates then cand_accept * 0.08
    else cand_accept in
  let cand_accept :=
    if MenuItem.is_veg cand_item && Qltb (UserProfile.veg_preference user) 0.3
    then cand_accept * 0.6
    else if negb (MenuItem.is_veg cand_item)
            && Qltb 0.7 (UserProfile.veg_preference user)
    then cand_accept * 0.05
    else cand_accept in
  let cand_accept :=
    if Qltb 200 (MenuItem.price cand_item)
       && Qltb 0.7 (UserProfile.price_sensitivity user)
    then cand_accept * 0.4
    else cand_accept in
  let cand_accept :=
    if negb (str_in meal_time (MenuItem.meal_times cand_item))
    then cand_accept * 0.15
    else cand_accept in
  cand_accept.

(** [1 if u < cand_accept else 0] *)
Definition accept_label (u cand_accept : Q) : Z :=
  if Qltb u cand_accept then 1%Z else 0%Z.

(** [events[-1]["is_abandoned"] = 1] *)
Fixpoint mark_last_abandoned (events : list Event.t) : list Event.t :=
  match events with
  | [] => []
  | [e] => [Event.set_is_abandoned 1 e]
  | e :: rest => e :: mark_last_abandoned rest
  end.

(** The last statement of a session's body (source lines 660-661), given
    the value [u] of its [rng.random()]. *)
Definition abandon_override (u : Q) (events : list Event.t) : list Event.t :=
  if Qltb u 0.05 && (0 <? length events)%nat
  then mark_last_abandoned events
  else events.

(* ================================================================== *)
(** ** The stateful part of [generate_sessions] *)

(** The variables of a session's body that the role loop reads. *)
Record SessionEnv : Type := {
  env_item_lookup : dict MenuItem.t;
  env_all_item_ids : list string;
  env_session_id : string;
  env_user : UserProfile.t;
  env_timestamp : datetime.t;
  env_meal_time : string;
  env_template_name : string;
  env_template : MealTemplate.t;
  env_is_abandoned : bool
}.

(** [cart[-1]] *)
Definition cart_last (cart : list string) : exn + string :=
  match rev cart with
  | [] => inl (IndexError "list index out of range")
  | x :: _ => inr x
  end.

Definition bool_to_int (b : bool) : Z := if b then 1%Z else 0%Z.

Section Simulator.

Context {G : Type} `{Generator G}.

(** [list(set(...))] as the running interpreter orders it. *)
Variable set_to_list : SetOrder.

(** *** Generator calls, with the argument checks NumPy performs *)

Definition rng_random : M G Q := fun g => inr (random g).

Definition rng_normal (loc scale : Q) : M G Q :=
  fun g => inr (normal loc scale g).

Definition rng_choice_int (n : Z) (size : nat) : M G (list Z) :=
  fun g =>
    if (n <=? 0)%Z && negb (size =? 0)%nat
    then inl (ValueError "a must be a positive integer unless no samples are taken")
    else inr (choice_int n size g).

(** [p] must be a probability vector over the entries of [a]. *)
Definition valid_probabilities (a : list string) (p : list Q) : bool :=
  negb (is_nil a) && (length a =? length p)%nat
  && forallb (Qle_bool 0) p && Qeq_bool (Qsum p) 1.

Definition rng_choice_p (a : list string) (p : list Q) : M G string :=
  fun g =>
    if valid_probabilities a p then inr (choice_p a p g)
    else inl (ValueError "invalid probabilities").

Definition rng_choice_noreplace (a : list string) (size : Z)
  : M G (list string) :=
  fun g =>
    if (size <? 0)%Z
    then inl (ValueError "negative dimensions are not allowed")
    else if (Z.of_nat (length a) <? size)%Z
    then inl (ValueError "Cannot take a larger sample than population when replace is False")
    else inr (choice_noreplace a (Z.to_nat size) g).

(** *** [_sample_timestamp] *)

Definition _sample_timestamp (base_date : datetime.t) : M G datetime.t :=
  peak_choice <- rng_random ;;
  hour <- (if Qltb peak_choice 0.35 then rng_normal 12.5 1.2
           else if Qltb peak_choice 0.70 then rng_normal 19.5 1.5
           else if Qltb peak_choice 0.82 then rng_normal 8.0 0.8
           else if Qltb peak_choice 0.92 then rng_normal 16.0 0.8
           else rng_normal 23.0 1.0) ;;
  let hour := np_clip hour 0 23.99 in
  let minutes := Qfloor ((hour - inject_Z (Qfloor hour)) * 60) in
  ret (datetime.replace base_date (Qfloor hour) minutes 0).

(** *** Template and anchor selection (source lines 519-557) *)

Definition choose_template (item_lookup : dict MenuItem.t)
    (user : UserProfile.t) (meal_time : string)
  : M G (string * MealTemplate.t) :=
  template_weights <- lift (template_weights_for meal_time) ;;
  let template_names := dict_keys template_weights in
  template_probs <- lift (adjust_template_probs item_lookup user template_weights) ;;
  let template_probs := normalize template_probs in
  chosen_template_name <- rng_choice_p template_names template_probs ;;
  template <- lift (dict_index chosen_template_name MEAL_TEMPLATES) ;;
  ret (chosen_template_name, template).

Definition select_anchor (item_lookup : dict MenuItem.t)
    (user : UserProfile.t) (valid : list string) : M G string :=
  scored <- lift (scored_anchors item_lookup user valid) ;;
  let anchor_ids := map fst scored in
  let anchor_probs := normalize (map snd scored) in
  rng_choice_p anchor_ids anchor_probs.

(** *** The event of one candidate (source lines 616-651) *)

Definition make_event (env : SessionEnv) (cart : list string)
    (cand_id : string) (cand_item : MenuItem.t) (accepted : Z)
  : exn + Event.t :=
  let item_lookup := env_item_lookup env in
  let user := env_user env in
  let timestamp := env_timestamp env in
  cart_records <-? emapM (fun cid => dict_index cid item_lookup) cart ;;
  let cart_prices := Qsum (map MenuItem.price cart_records) in
  let cart_veg_count := length (filter MenuItem.is_veg cart_records) in
  last_id <-? cart_last cart ;;
  last_item <-? dict_index last_id item_lookup ;;
  inr (Event.mk
         (env_session_id env)
         (UserProfile.user_id user)
         (UserProfile.city user)
         (UserProfile.segment user)
         (py_round (UserProfile.veg_preference user) 3)
         (py_round (UserProfile.price_sensitivity user) 3)
         timestamp
         (env_meal_time env)
         (datetime.weekday timestamp)
         (datetime.hour timestamp)
         (bool_to_int (5 <=? datetime.weekday timestamp)%Z)
         cart
         (Z.of_nat (length cart))
         cart_prices
         (if is_nil cart then 0.0
          else py_round (inject_Z (Z.of_nat cart_veg_count)
                         / inject_Z (Z.of_nat (length cart))) 2)
         last_id
         (MenuItem.category last_item)
         (MenuItem.cuisine last_item)
         (set_to_list (map MenuItem.category cart_records))
         (set_to_list (map MenuItem.cuisine cart_records))
         cand_id
         (MenuItem.category cand_item)
         (MenuItem.cuisine cand_item)
         (MenuItem.price cand_item)
         (bool_to_int (MenuItem.is_veg cand_item))
         (MenuItem.meal_role cand_item)
         (MenuItem.popularity_score cand_item)
         accepted
         (env_template_name env)
         (bool_to_int (env_is_abandoned env))).

(** *** The candidate loop of a role (source lines 590-656) *)

Fixpoint candidate_loop (env : SessionEnv) (accept_prob : Q)
    (noise_candidates : list string) (all_candidates : list string)
    (cart : list string) (events : list Event.t)
  : M G (list string * list Event.t) :=
  match all_candidates with
  | [] => ret (cart, events)
  | cand_id :: rest =>
      cand_item <- lift (dict_index cand_id (env_item_lookup env)) ;;
      let cand_accept :=
        candidate_accept_prob accept_prob cand_id cand_item noise_candidates
                              (env_user env) (env_meal_time env) in
      u <- rng_random ;;
      let accepted := accept_label u cand_accept in
      event <- lift (make_event env cart cand_id cand_item accepted) ;;
      let events := (events ++ [event])%list in
      let cart := if (accepted =? 1)%Z then (cart ++ [cand_id])%list else cart in
      candidate_loop env accept_prob noise_candidates rest cart events
  end.

(** *** One iteration of [for role in ...] (source lines 563-656) *)

Definition role_step (env : SessionEnv) (role : string)
    (cart : list string) (events : list Event.t)
  : M G (list string * list Event.t) :=
  let role_items := role_items_of (env_template env) role in
  if is_nil role_items then ret (cart, events)
  else
    accept_prob <- lift (role_accept_prob (env_template env) role
                                          (env_user env) (env_timestamp env)) ;;
    let valid_candidates :=
      valid_candidates_of (env_item_lookup env) role_items cart in
    noise_candidates <-
      rng_choice_noreplace
        (noise_population (env_all_item_ids env) cart valid_candidates)
        (noise_size (env_all_item_ids env) cart valid_candidates) ;;
    let all_candidates := (valid_candidates ++ noise_candidates)%list in
    candidate_loop env accept_prob noise_candidates all_candidates cart events.

Fixpoint roles_loop (env : SessionEnv) (roles : list string)
    (cart : list string) (events : list Event.t)
  : M G (list string * list Event.t) :=
  match roles with
  | [] => ret (cart, events)
  | role :: roles' =>
      '(cart, events) <- role_step env role cart events ;;
      roles_loop env roles' cart events
  end.

(** *** The body of [for order_idx, day_offset in enumerate(order_dates)] *)

(** Up to the choice of the template (source lines 513-534). *)
Definition session_prelude (item_lookup : dict MenuItem.t)
    (start_date : datetime.t) (user : UserProfile.t) (day_offset : Z)
  : M G (datetime.t * string * string * MealTemplate.t) :=
  base_date <- lift (datetime.add_days start_date day_offset) ;;
  timestamp <- _sample_timestamp base_date ;;
  let meal_time := _get_meal_time (datetime.hour timestamp) in
  '(chosen_template_name, template) <- choose_template item_lookup user meal_time ;;
  ret (timestamp, meal_time, chosen_template_name, template).

(** The state carried from one session to the next is the list [events]
    and [session_counter]. *)
Definition session (item_lookup : dict MenuItem.t) (all_item_ids : list string)
    (start_date : datetime.t) (user : UserProfile.t) (day_offset : Z)
    (events : list Event.t) (session_counter : nat)
  : M G (list Event.t * nat) :=
  let session_counter := S session_counter in
  let session_id := ("S" ++ format_07d session_counter)%string in
  '(timestamp, meal_time, chosen_template_name, template) <-
    session_prelude item_lookup start_date user day_offset ;;
  let valid := valid_anchors item_lookup template in
  if is_nil valid then ret (events, session_counter)
  else
    anchor_id <- select_anchor item_lookup user valid ;;
    let cart := [anchor_id] in
    u <- rng_random ;;
    let is_abandoned := Qltb u 0.08 in
    let env := {| env_item_lookup := item_lookup;
                  env_all_item_ids := all_item_ids;
                  env_session_id := session_id;
                  env_user := user;
                  env_timestamp := timestamp;
                  env_meal_time := meal_time;
                  env_template_name := chosen_template_name;
                  env_template := template;
                  env_is_abandoned := is_abandoned |} in
    '(cart, events) <- roles_loop env ROLES cart events ;;
    u <- rng_random ;;
    ret (abandon_override u events, session_counter).

Fixpoint sessions_loop (item_lookup : dict MenuItem.t)
    (all_item_ids : list string) (start_date : datetime.t)
    (user : UserProfile.t) (order_dates : list Z)
    (events : list Event.t) (session_counter : nat)
  : M G (list Event.t * nat) :=
  match order_dates with
  | [] => ret (events, session_counter)
  | day_offset :: rest =>
      '(events, session_counter) <-
        session item_lookup all_item_ids start_date user day_offset
                events session_counter ;;
      sessions_loop item_lookup all_item_ids start_date user rest
                    events session_counter
  end.

Fixpoint users_loop (item_lookup : dict MenuItem.t)
    (all_item_ids : list string) (n_days : Z) (start_date : datetime.t)
    (users : list UserProfile.t)
    (events : list Event.t) (session_counter : nat)
  : M G (list Event.t * nat) :=
  match users with
  | [] => ret (events, session_counter)
  | user :: rest =>
      order_dates <- rng_choice_int n_days (UserProfile.num_orders user) ;;
      let order_dates := sorted order_dates in
      '(events, session_counter) <-
        sessions_loop item_lookup all_item_ids start_date user order_dates
                      events session_counter ;;
      users_loop item_lookup all_item_ids n_days start_date rest
                 events session_counter
  end.

(** *** [generate_sessions] *)

Definition generate_sessions (users : list UserProfile.t)
    (catalog : list MenuItem.t) (n_days : Z) (start_date : datetime.t)
    (rng : option G) : exn + list Event.t :=
  let rng := match rng with Some g => g | None => default_rng RANDOM_SEED end in
  let item_lookup := build_item_lookup catalog in
  let all_item_ids := dict_keys item_lookup in
  match users_loop item_lookup all_item_ids n_days start_date users [] 0%nat rng with
  | inl e => inl e
  | inr ((events, _), _) => inr events
  end.

End Simulator.

Arguments generate_sessions {G _} set_to_list users catalog n_days start_date rng.

(* ================================================================== *)
(** ** A generator for running the simulator: samples read off a tape

    [TapeGen] answers every call from a finite tape of uniform samples
    (0 once the tape is exhausted).  It is not NumPy's bit generator; it
    is a generator that meets [GeneratorLaws], used to execute
    [generate_sessions] on concrete inputs. *)

Definition tape : Type := list Q.

Definition tape_next (g : tape) : Q * tape :=
  match g with
  | [] => (0, [])
  | u :: g' => (u, g')
  end.

Definition tape_normal (loc scale : Q) (g : tape) : Q * tape :=
  let (u, g') := tape_next g in (loc + scale * (2 * u - 1), g').

Fixpoint tape_choice_int (n : Z) (size : nat) (g : tape) : list Z * tape :=
  match size with
  | O => ([], g)
  | S k =>
      let (u, g') := tape_next g in
      let (r, g'') := tape_choice_int n k g' in
      (Qfloor (u * inject_Z n) :: r, g'')
  end.

(** Inverse-CDF selection; the last entry absorbs what is left. *)
Fixpoint pick_cdf (a : list string) (p : list Q) (u : Q) : string :=
  match a with
  | [] => ""
  | [x] => x
  | x :: a' =>
      match p with
      | [] => x
      | q :: p' => if Qltb u q then x else pick_cdf a' p' (u - q)
      end
  end.

Definition tape_choice_p (a : list string) (p : list Q) (g : tape)
  : string * tape :=
  let (u, g') := tape_next g in (pick_cdf a p u, g').

(** The index [floor(u * len(a))], kept inside the list. *)
Definition pick_index (u : Q) (a : list string) : nat :=
  Nat.min (Z.to_nat (Qfloor (u * inject_Z (Z.of_nat (length a)))))
          (length a - 1).

Fixpoint tape_choice_noreplace (a : list string) (size : nat) (g : tape)
  : list string * tape :=
  match size with
  | O => ([], g)
  | S k =>
      match a with
      | [] => ([], g)
      | _ :: _ =>
          let (u, g') := tape_next g in
          let i := pick_index u a in
          let (r, g'') :=
            tape_choice_noreplace (firstn i a ++ skipn (S i) a)%list k g' in
          (nth i a "" :: r, g'')
      end
  end.

#[export] Instance TapeGen : Generator tape := {
  default_rng := fun _ => [];
  random := tape_next;
  normal := tape_normal;
  choice_int := tape_choice_int;
  choice_p := tape_choice_p;
  choice_noreplace := tape_choice_noreplace
}.

(* ================================================================== *)
(** ** A small population for running the simulator

    The items are entries of [build_menu_catalog]. *)

Definition ITEM_014 : MenuItem.t :=
  MenuItem.mk "ITEM_014" "Chicken Fried Rice" "Main" "Chinese" false 199
    "anchor" ["lunch"; "dinner"; "late_night"]
    "Wok-tossed rice with chicken, egg, and vegetables" 0.5.

Definition ITEM_037 : MenuItem.t :=
  MenuItem.mk "ITEM_037" "French Fries" "Side" "Continental" true 99
    "complement" ["lunch"; "dinner"; "snacks"; "late_night"]
    "Golden crispy potato fries with seasoning" 0.65.

Definition ITEM_043 : MenuItem.t :=
  MenuItem.mk "ITEM_043" "Spring Rolls" "Starter" "Chinese" true 149
    "addon" ["lunch"; "dinner"; "snacks"]
    "Crispy rolls stuffed with mixed vegetables and glass noodles" 0.45.

Definition ITEM_044 : MenuItem.t :=
  MenuItem.mk "ITEM_044" "Manchow Soup" "Starter" "Chinese" true 119
    "addon" ["lunch"; "dinner"]
    "Spicy vegetable soup topped with crispy fried noodles" 0.4.

Definition ITEM_064 : MenuItem.t :=
  MenuItem.mk "ITEM_064" "Thumbs Up / Cola" "Drink" "Continental" true 40
    "finisher" ["lunch"; "dinner"; "late_night"]
    "Chilled cola — classic meal companion" 0.65.

Definition small_catalog : list MenuItem.t :=
  [ITEM_014; ITEM_037; ITEM_043; ITEM_044; ITEM_064].

Definition user_regular : UserProfile.t :=
  UserProfile.mk "U00001" "Mumbai" "regular" 0.4 0.3 0.2 ["Chinese"] 1.

(** [datetime(2025, 1, 1)], a Wednesday. *)
Definition start_2025 : datetime.t := datetime.mk 739252 0 0 0 0.

(** A one-session run: day 15, a 12:30 lunch, the template
    ["chinese_meal"], the anchor ITEM_014, then the three roles. *)
Definition tape_run : tape :=
  [0.5; 0.1; 0.5; 0.6; 0.0; 0.9;
   0.0; 0.0; 0.1; 0.9; 0.9; 0.9;
   0.0; 0.9; 0.9; 0.0; 0.9;
   0.9; 0.01].

(** The same start, but the template drawn is ["north_indian_curry"],
    none of whose anchors is in [small_catalog]. *)
Definition tape_skip : tape := [0.1; 0.5; 0.3].

(** The draws of the role loop alone. *)
Definition tape_roles : tape :=
  [0.0; 0.0; 0.1; 0.9; 0.9; 0.9;
   0.0; 0.9; 0.9; 0.0; 0.9;
   0.9; 0.01].

Definition small_lookup : dict MenuItem.t := build_item_lookup small_catalog.

Definition chinese_meal : MealTemplate.t :=
  MealTemplate.mk
    ["ITEM_014"; "ITEM_015"; "ITEM_016"; "ITEM_017"]
    ["ITEM_043"; "ITEM_044"]
    ["ITEM_037"]
    ["ITEM_064"; "ITEM_061"; "ITEM_053"]
    [("complement", 0.45); ("addon", 0.30); ("finisher", 0.40)].

(** 16 January 2025, 12:30, a Thursday. *)
Definition lunch_time : datetime.t := datetime.mk 739267 12 30 0 0.

Definition lunch_env : SessionEnv :=
  {| env_item_lookup := small_lookup;
     env_all_item_ids := dict_keys small_lookup;
     env_session_id := "S0000001";
     env_user := user_regular;
     env_timestamp := lunch_time;
     env_meal_time := "lunch";
     env_template_name := "chinese_meal";
     env_template := chinese_meal;
     env_is_abandoned := false |}.

(** The draws of the session of [tape_run], after the order date. *)
Definition tape_session : tape :=
  [0.1; 0.5; 0.6; 0.0; 0.9;
   0.0; 0.0; 0.1; 0.9; 0.9; 0.9;
   0.0; 0.9; 0.9; 0.0; 0.9;
   0.9; 0.01].

(* ================================================================== *)
(** ** The acceptance model in the words of the specification

    [spec_role_prob] and [spec_accept_prob] follow the specification's
    sentences (one clamp after all scalings; one factor per rule); they
    are compared below with [role_accept_prob] and
    [candidate_accept_prob], which follow the source. *)

Definition spec_role_prob (completion_prob segment_multiplier : Q)
    (weekend : bool) : Q :=
  py_min 0.95 (completion_prob * segment_multiplier
               * (if weekend then 1.15 else 1)).

Definition spec_accept_prob (accept_prob : Q) (from_noise : bool)
    (cand_item : MenuItem.t) (user : UserProfile.t) (meal_time : string) : Q :=
  let veg := MenuItem.is_veg cand_item in
  let veg_pref := UserProfile.veg_preference user in
  accept_prob
  * (if from_noise then 0.08 else 1)
  * (if veg && Qltb veg_pref 0.3 then 0.6 else 1)
  * (if negb veg && Qltb 0.7 veg_pref then 0.05 else 1)
  * (if Qltb 200 (MenuItem.price cand_item)
        && Qltb 0.7 (UserProfile.price_sensitivity user) then 0.4 else 1)
  * (if str_in meal_time (MenuItem.meal_times cand_item) then 1 else 0.15).

(** The first [n] values of [rng.random()] from state [g]. *)
Fixpoint uniforms {G} `{Generator G} (n : nat) (g : G) : list Q :=
  match n with
  | O => []
  | S n' => let (u, g') := random g in u :: uniforms n' g'
  end.

(** The five meal-time buckets. *)
Definition MEAL_TIME_BUCKETS : list string :=
  ["breakfast"; "lunch"; "snacks"; "dinner"; "late_night"].

(** Two events that agree on every key but ["is_abandoned"]. *)
Definition same_but_is_abandoned (e e' : Event.t) : Prop :=
  Event.session_id e' = Event.session_id e
  /\ Event.user_id e' = Event.user_id e
  /\ Event.city e' = Event.city e
  /\ Event.user_segment e' = Event.user_segment e
  /\ Event.user_veg_preference e' = Event.user_veg_preference e
  /\ Event.user_price_sensitivity e' = Event.user_price_sensitivity e
  /\ Event.timestamp e' = Event.timestamp e
  /\ Event.meal_time e' = Event.meal_time e
  /\ Event.day_of_week e' = Event.day_of_week e
  /\ Event.hour_of_day e' = Event.hour_of_day e
  /\ Event.is_weekend e' = Event.is_weekend e
  /\ Event.cart_items e' = Event.cart_items e
  /\ Event.cart_item_count e' = Event.cart_item_count e
  /\ Event.cart_total_price e' = Event.cart_total_price e
  /\ Event.cart_veg_ratio e' = Event.cart_veg_ratio e
  /\ Event.last_item_added e' = Event.last_item_added e
  /\ Event.last_item_category e' = Event.last_item_category e
  /\ Event.last_item_cuisine e' = Event.last_item_cuisine e
  /\ Event.cart_categories e' = Event.cart_categories e
  /\ Event.cart_cuisines e' = Event.cart_cuisines e
  /\ Event.candidate_item_id e' = Event.candidate_item_id e
  /\ Event.candidate_category e' = Event.candidate_category e
  /\ Event.candidate_cuisine e' = Event.candidate_cuisine e
  /\ Event.candidate_price e' = Event.candidate_price e
  /\ Event.candidate_is_veg e' = Event.candidate_is_veg e
  /\ Event.candidate_meal_role e' = Event.candidate_meal_role e
  /\ Event.candidate_popularity e' = Event.candidate_popularity e
  /\ Event.candidate_accepted e' = Event.candidate_accepted e
  /\ Event.meal_template e' = Event.meal_template e.

(** The cart snapshots of the events of one candidate loop: each event
    carries the cart as it was when its candidate was evaluated, and the
    cart then grows by that candidate exactly when it was accepted. *)
Fixpoint cart_chain (cart : list string) (new : list Event.t)
    (cart' : list string) : Prop :=
  match new with
  | [] => cart' = cart
  | e :: rest =>
      Event.cart_items e = cart
      /\ cart_chain (if (Event.candidate_accepted e =? 1)%Z
                     then (cart ++ [Event.candidate_item_id e])%list
                     else cart) rest cart'
  end.

(** What holds of every template of [MEAL_TEMPLATES]: the role lists hold
    no item twice, each role has its completion probability, every
    completion probability lies in [0, 1], and the addon list is not
    empty. *)
Fixpoint nodupb (l : list string) : bool :=
  match l with
  | [] => true
  | x :: l' => negb (str_in x l') && nodupb l'
  end.

Definition template_ok (t : MealTemplate.t) : bool :=
  nodupb (MealTemplate.anchors t) && nodupb (MealTemplate.complements t)
  && nodupb (MealTemplate.addons t) && nodupb (MealTemplate.finishers t)
  && forallb (fun role => dict_mem role (MealTemplate.completion_prob t)) ROLES
  && forallb (fun kv => Qle_bool 0 (snd kv) && Qle_bool (snd kv) 1)
             (MealTemplate.completion_prob t)
  && negb (is_nil (MealTemplate.addons t)).

(** The event [e] records candidate [c] and the label drawn for it with
    the uniform sample [u], starting from the role's [accept_prob]. *)
Definition labelled (env : SessionEnv) (accept_prob : Q)
    (noise_candidates : list string) (cu : string * Q) (e : Event.t) : Prop :=
  exists cand_item,
    dict_get (fst cu) (env_item_lookup env) = Some cand_item
    /\ Event.candidate_item_id e = fst cu
    /\ Event.candidate_accepted e
       = accept_label (snd cu)
           (candidate_accept_prob accept_prob (fst cu) cand_item
              noise_candidates (env_user env) (env_meal_time env)).

(** The fields of an event that stay fixed during a session. *)
Definition event_of_session (env : SessionEnv) (e : Event.t) : Prop :=
  Event.session_id e = env_session_id env
  /\ Event.user_id e = UserProfile.user_id (env_user env)
  /\ Event.meal_template e = env_template_name env
  /\ Event.is_abandoned e = bool_to_int (env_is_abandoned env).

(** An event whose candidate is new to the cart it was shown against. *)
Definition fresh_candidate (e : Event.t) : Prop :=
  ~ In (Event.candidate_item_id e) (Event.cart_items e)
  /\ NoDup (Event.cart_items e).

(** The environment [session] builds for its role loop. *)
Definition session_env (item_lookup : dict MenuItem.t)
    (all_item_ids : list string) (session_counter : nat)
    (user : UserProfile.t) (timestamp : datetime.t) (meal_time : string)
    (chosen_template_name : string) (template : MealTemplate.t)
    (is_abandoned : bool) : SessionEnv :=
  {| env_item_lookup := item_lookup;
     env_all_item_ids := all_item_ids;
     env_session_id := ("S" ++ format_07d session_counter)%string;
     env_user := user;
     env_timestamp := timestamp;
     env_meal_time := meal_time;
     env_template_name := chosen_template_name;
     env_template := template;
     env_is_abandoned := is_abandoned |}.

(** What holds of every entry of [MEALTIME_TEMPLATE_WEIGHTS]: it is not
    empty, it names templates of [MEAL_TEMPLATES], and its weights are
    positive. *)
Definition weights_ok (w : dict Q) : bool :=
  negb (is_nil w)
  && forallb (fun kv => dict_mem (fst kv) MEAL_TEMPLATES && Qltb 0 (snd kv)) w.

(** An iteration order of sets: it lists the distinct elements. *)
Definition set_order_ok (set_to_list : SetOrder) : Prop :=
  forall xs, Permutation (set_to_list xs) (dedup xs).

(** Two events that agree on every key, the two set-valued keys being
    compared as sets. *)
Definition agree_up_to_set_order (e1 e2 : Event.t) : Prop :=
  Permutation (Event.cart_categories e1) (Event.cart_categories e2)
  /\ Permutation (Event.cart_cuisines e1) (Event.cart_cuisines e2)
  /\ Event.session_id e1 = Event.session_id e2
  /\ Event.user_id e1 = Event.user_id e2
  /\ Event.city e1 = Event.city e2
  /\ Event.user_segment e1 = Event.user_segment e2
  /\ Event.user_veg_preference e1 = Event.user_veg_preference e2
  /\ Event.user_price_sensitivity e1 = Event.user_price_sensitivity e2
  /\ Event.timestamp e1 = Event.timestamp e2
  /\ Event.meal_time e1 = Event.meal_time e2
  /\ Event.day_of_week e1 = Event.day_of_week e2
  /\ Event.hour_of_day e1 = Event.hour_of_day e2
  /\ Event.is_weekend e1 = Event.is_weekend e2
  /\ Event.cart_items e1 = Event.cart_items e2
  /\ Event.cart_item_count e1 = Event.cart_item_count e2
  /\ Event.cart_total_price e1 = Event.cart_total_price e2
  /\ Event.cart_veg_ratio e1 = Event.cart_veg_ratio e2
  /\ Event.last_item_added e1 = Event.last_item_added e2
  /\ Event.last_item_category e1 = Event.last_item_category e2
  /\ Event.last_item_cuisine e1 = Event.last_item_cuisine e2
  /\ Event.candidate_item_id e1 = Event.candidate_item_id e2
  /\ Event.candidate_category e1 = Event.candidate_category e2
  /\ Event.candidate_cuisine e1 = Event.candidate_cuisine e2
  /\ Event.candidate_price e1 = Event.candidate_price e2
  /\ Event.candidate_is_veg e1 = Event.candidate_is_veg e2
  /\ Event.candidate_meal_role e1 = Event.candidate_meal_role e2
  /\ Event.candidate_popularity e1 = Event.candidate_popularity e2
  /\ Event.candidate_accepted e1 = Event.candidate_accepted e2
  /\ Event.meal_template e1 = Event.meal_template e2
  /\ Event.is_abandoned e1 = Event.is_abandoned e2.

(** Two runs that end alike: the same exception, or related values and
    the same generator state. *)
Definition rel_result {G A} (R : A -> A -> Prop) (r1 r2 : exn + (A * G))
  : Prop :=
  match r1, r2 with
  | inl e1, inl e2 => e1 = e2
  | inr (x1, g1), inr (x2, g2) => R x1 x2 /\ g1 = g2
  | _, _ => False
  end.

(** The state of the loops of a session, compared up to set order. *)
Definition agree_cart_events (s1 s2 : list string * list Event.t) : Prop :=
  fst s1 = fst s2 /\ Forall2 agree_up_to_set_order (snd s1) (snd s2).

Definition agree_events_counter (s1 s2 : list Event.t * nat) : Prop :=
  Forall2 agree_up_to_set_order (fst s1) (fst s2) /\ snd s1 = snd s2.

(* ================================================================== *)
(** ** The rest of the module: constants, catalog and user generator *)

Definition CITIES : list string :=
  ["Mumbai"; "Delhi"; "Bangalore"; "Hyderabad"; "Chennai"; "Kolkata"].

(** [MEAL_TIMES]: bucket -> (first hour, end hour); ["late_night"] wraps
    around midnight. *)
Definition MEAL_TIMES : dict (Z * Z) :=
  [ ("breakfast", (6, 10)%Z);
    ("lunch", (11, 14)%Z);
    ("snacks", (15, 17)%Z);
    ("dinner", (18, 22)%Z);
    ("late_night", (22, 2)%Z) ].

Module UserSegment.
Record t : Type := mk {
  order_range : Z * Z;
  fraction : Q
}.
End UserSegment.

Definition USER_SEGMENTS : dict UserSegment.t :=
  [ ("new", UserSegment.mk (1, 3)%Z 0.40);
    ("regular", UserSegment.mk (4, 20)%Z 0.45);
    ("power", UserSegment.mk (21, 60)%Z 0.15) ].

Definition CITY_CUISINE_AFFINITY : dict (dict Q) :=
  [ ("Mumbai",
     [("North Indian", 0.7); ("South Indian", 0.4); ("Chinese", 0.6);
      ("Street Food", 0.9); ("Mughlai", 0.5); ("Continental", 0.5);
      ("Desserts", 0.6)]);
    ("Delhi",
     [("North Indian", 0.9); ("South Indian", 0.3); ("Chinese", 0.6);
      ("Street Food", 0.8); ("Mughlai", 0.9); ("Continental", 0.4);
      ("Desserts", 0.7)]);
    ("Bangalore",
     [("North Indian", 0.5); ("South Indian", 0.9); ("Chinese", 0.5);
      ("Street Food", 0.5); ("Mughlai", 0.3); ("Continental", 0.7);
      ("Desserts", 0.5)]);
    ("Hyderabad",
     [("North Indian", 0.5); ("South Indian", 0.6); ("Chinese", 0.4);
      ("Street Food", 0.5); ("Mughlai", 0.9); ("Continental", 0.3);
      ("Desserts", 0.6)]);
    ("Chennai",
     [("North Indian", 0.3); ("South Indian", 0.95); ("Chinese", 0.4);
      ("Street Food", 0.6); ("Mughlai", 0.2); ("Continental", 0.4);
      ("Desserts", 0.5)]);
    ("Kolkata",
     [("North Indian", 0.5); ("South Indian", 0.3); ("Chinese", 0.7);
      ("Street Food", 0.8); ("Mughlai", 0.6); ("Continental", 0.4);
      ("Desserts", 0.8)]) ].

(** [build_menu_catalog()]; an item given without a popularity score has
    the dataclass default 0.5. *)
Definition build_menu_catalog : list MenuItem.t :=
  [ MenuItem.mk "ITEM_001" "Chicken Biryani" "Main" "Mughlai" false 299 "anchor"
      ["lunch"; "dinner"]
      "Fragrant basmati rice layered with spiced chicken, slow-cooked dum style" 0.5;
    MenuItem.mk "ITEM_002" "Mutton Biryani" "Main" "Mughlai" false 399 "anchor"
      ["lunch"; "dinner"]
      "Rich mutton biryani with saffron-infused rice and whole spices" 0.45;
    MenuItem.mk "ITEM_003" "Veg Biryani" "Main" "Mughlai" true 229 "anchor"
      ["lunch"; "dinner"]
      "Mixed vegetable biryani with paneer and aromatic spices" 0.55;
    MenuItem.mk "ITEM_004" "Butter Chicken" "Main" "North Indian" false 279 "anchor"
      ["lunch"; "dinner"]
      "Creamy tomato-based curry with tender tandoori chicken pieces" 0.5;
    MenuItem.mk "ITEM_005" "Paneer Butter Masala" "Main" "North Indian" true 249 "anchor"
      ["lunch"; "dinner"]
      "Rich and creamy paneer curry in buttery tomato gravy" 0.6;
    MenuItem.mk "ITEM_006" "Dal Makhani" "Main" "North Indian" true 199 "anchor"
      ["lunch"; "dinner"]
      "Slow-cooked black lentils in creamy buttery sauce" 0.65;
    MenuItem.mk "ITEM_007" "Chicken Tikka Masala" "Main" "North Indian" false 289 "anchor"
      ["lunch"; "dinner"]
      "Grilled chicken tikka in spiced onion-tomato masala" 0.5;
    MenuItem.mk "ITEM_008" "Chole Bhature" "Main" "North Indian" true 179 "anchor"
      ["breakfast"; "lunch"]
      "Spicy chickpea curry with deep-fried puffed bread" 0.6;
    MenuItem.mk "ITEM_009" "Masala Dosa" "Main" "South Indian" true 149 "anchor"
      ["breakfast"; "lunch"; "snacks"]
      "Crispy rice crepe filled with spiced potato masala" 0.7;
    MenuItem.mk "ITEM_010" "Idli Sambar" "Main" "South Indian" true 99 "anchor"
      ["breakfast"]
      "Steamed rice cakes served with lentil sambar and chutneys" 0.65;
    MenuItem.mk "ITEM_011" "Hyderabadi Dum Biryani" "Main" "Mughlai" false 349 "anchor"
      ["lunch"; "dinner"]
      "Authentic Hyderabadi-style dum biryani with tender meat and fried onions" 0.55;
    MenuItem.mk "ITEM_012" "Medu Vada" "Main" "South Indian" true 89 "anchor"
      ["breakfast"; "snacks"]
      "Crispy lentil fritters served with sambar and coconut chutney" 0.5;
    MenuItem.mk "ITEM_013" "Uttapam" "Main" "South Indian" true 129 "anchor"
      ["breakfast"; "lunch"]
      "Thick rice pancake topped with onions, tomatoes, and chilies" 0.4;
    MenuItem.mk "ITEM_014" "Chicken Fried Rice" "Main" "Chinese" false 199 "anchor"
      ["lunch"; "dinner"; "late_night"]
      "Wok-tossed rice with chicken, egg, and vegetables" 0.5;
    MenuItem.mk "ITEM_015" "Veg Hakka Noodles" "Main" "Chinese" true 169 "anchor"
      ["lunch"; "dinner"; "late_night"]
      "Stir-fried noodles with mixed vegetables in soy sauce" 0.55;
    MenuItem.mk "ITEM_016" "Chicken Manchurian" "Main" "Chinese" false 219 "anchor"
      ["lunch"; "dinner"]
      "Deep-fried chicken in tangy Manchurian sauce with bell peppers" 0.5;
    MenuItem.mk "ITEM_017" "Paneer Chilli" "Main" "Chinese" true 209 "anchor"
      ["lunch"; "dinner"]
      "Crispy paneer tossed in spicy chilli garlic sauce" 0.5;
    MenuItem.mk "ITEM_018" "Pav Bhaji" "Main" "Street Food" true 149 "anchor"
      ["lunch"; "snacks"; "dinner"]
      "Spiced mashed vegetable curry with buttered bread rolls" 0.65;
    MenuItem.mk "ITEM_019" "Vada Pav" "Main" "Street Food" true 59 "anchor"
      ["breakfast"; "lunch"; "snacks"]
      "Mumbai's iconic spiced potato fritter in a bun" 0.7;
    MenuItem.mk "ITEM_020" "Pani Puri" "Starter" "Street Food" true 79 "addon"
      ["snacks"]
      "Crispy hollow puris filled with spiced water and potato" 0.6;
    MenuItem.mk "ITEM_021" "Margherita Pizza" "Main" "Continental" true 249 "anchor"
      ["lunch"; "dinner"; "late_night"]
      "Classic pizza with fresh mozzarella and basil on tomato sauce" 0.55;
    MenuItem.mk "ITEM_022" "Chicken Burger" "Main" "Continental" false 179 "anchor"
      ["lunch"; "dinner"; "late_night"]
      "Grilled chicken patty with lettuce, cheese, and mayo in a sesame bun" 0.5;
    MenuItem.mk "ITEM_023" "Veg Pasta" "Main" "Continental" true 199 "anchor"
      ["lunch"; "dinner"]
      "Penne in creamy white sauce with mushrooms and broccoli" 0.45;
    MenuItem.mk "ITEM_030" "Garlic Naan" "Side" "North Indian" true 59 "complement"
      ["lunch"; "dinner"]
      "Soft tandoor-baked bread with roasted garlic butter" 0.75;
    MenuItem.mk "ITEM_031" "Butter Naan" "Side" "North Indian" true 49 "complement"
      ["lunch"; "dinner"]
      "Fluffy naan bread brushed with melted butter" 0.7;
    MenuItem.mk "ITEM_032" "Tandoori Roti" "Side" "North Indian" true 29 "complement"
      ["lunch"; "dinner"]
      "Whole wheat flatbread baked in clay tandoor oven" 0.6;
    MenuItem.mk "ITEM_033" "Raita" "Side" "North Indian" true 49 "complement"
      ["lunch"; "dinner"]
      "Cool yogurt with cucumber, onion, and cumin — perfect biryani companion" 0.65;
    MenuItem.mk "ITEM_034" "Mirchi Ka Salan" "Side" "Mughlai" true 99 "complement"
      ["lunch"; "dinner"]
      "Tangy peanut-sesame gravy with green chilies — classic biryani side" 0.5;
    MenuItem.mk "ITEM_035" "Papad" "Side" "North Indian" true 25 "addon"
      ["lunch"; "dinner"]
      "Crispy lentil wafer, roasted or fried" 0.6;
    MenuItem.mk "ITEM_036" "Green Salad" "Side" "Continental" true 69 "addon"
      ["lunch"; "dinner"]
      "Fresh cucumber, tomato, onion salad with lemon dressing" 0.35;
    MenuItem.mk "ITEM_037" "French Fries" "Side" "Continental" true 99 "complement"
      ["lunch"; "dinner"; "snacks"; "late_night"]
      "Golden crispy potato fries with seasoning" 0.65;
    MenuItem.mk "ITEM_038" "Coconut Chutney" "Side" "South Indian" true 29 "complement"
      ["breakfast"; "lunch"; "snacks"]
      "Fresh ground coconut chutney with tempered mustard seeds" 0.55;
    MenuItem.mk "ITEM_039" "Sambar" "Side" "South Indian" true 49 "complement"
      ["breakfast"; "lunch"]
      "Tangy lentil stew with drumstick, tomato, and tamarind" 0.6;
    MenuItem.mk "ITEM_040" "Chicken Tikka" "Starter" "North Indian" false 199 "addon"
      ["lunch"; "dinner"]
      "Smoky chargrilled chicken marinated in yogurt and spices" 0.55;
    MenuItem.mk "ITEM_041" "Paneer Tikka" "Starter" "North Indian" true 189 "addon"
      ["lunch"; "dinner"]
      "Grilled cottage cheese cubes with bell peppers in tandoori marinade" 0.5;
    MenuItem.mk "ITEM_042" "Chicken Wings" "Starter" "Continental" false 229 "addon"
      ["dinner"; "late_night"]
      "Crispy fried chicken wings tossed in hot sauce" 0.45;
    MenuItem.mk "ITEM_043" "Spring Rolls" "Starter" "Chinese" true 149 "addon"
      ["lunch"; "dinner"; "snacks"]
      "Crispy rolls stuffed with mixed vegetables and glass noodles" 0.45;
    MenuItem.mk "ITEM_044" "Manchow Soup" "Starter" "Chinese" true 119 "addon"
      ["lunch"; "dinner"]
      "Spicy vegetable soup topped with crispy fried noodles" 0.4;
    MenuItem.mk "ITEM_045" "Tomato Soup" "Starter" "Continental" true 99 "addon"
      ["lunch"; "dinner"]
      "Classic creamy tomato soup with croutons and herbs" 0.35;
    MenuItem.mk "ITEM_050" "Gulab Jamun" "Dessert" "North Indian" true 89 "finisher"
      ["lunch"; "dinner"]
      "Soft milk-solid dumplings soaked in rose-cardamom syrup" 0.65;
    MenuItem.mk "ITEM_051" "Rasmalai" "Dessert" "North Indian" true 109 "finisher"
      ["lunch"; "dinner"]
      "Flattened paneer discs soaked in sweetened saffron milk" 0.5;
    MenuItem.mk "ITEM_052" "Kheer" "Dessert" "North Indian" true 79 "finisher"
      ["lunch"; "dinner"]
      "Creamy rice pudding with cardamom, nuts, and saffron" 0.45;
    MenuItem.mk "ITEM_053" "Brownie with Ice Cream" "Dessert" "Continental" true 149 "finisher"
      ["lunch"; "dinner"; "late_night"]
      "Warm chocolate brownie topped with vanilla ice cream" 0.5;
    MenuItem.mk "ITEM_054" "Kulfi" "Dessert" "North Indian" true 69 "finisher"
      ["lunch"; "dinner"; "snacks"]
      "Traditional Indian ice cream with pistachio and cardamom" 0.55;
    MenuItem.mk "ITEM_055" "Payasam" "Dessert" "South Indian" true 79 "finisher"
      ["lunch"; "dinner"]
      "South Indian milk pudding with vermicelli, cashews, and raisins" 0.4;
    MenuItem.mk "ITEM_060" "Masala Chai" "Drink" "North Indian" true 39 "finisher"
      ["breakfast"; "snacks"]
      "Strong spiced tea with ginger and cardamom" 0.7;
    MenuItem.mk "ITEM_061" "Cold Coffee" "Drink" "Continental" true 99 "finisher"
      ["lunch"; "snacks"; "late_night"]
      "Blended iced coffee with milk and chocolate drizzle" 0.5;
    MenuItem.mk "ITEM_062" "Mango Lassi" "Drink" "North Indian" true 79 "finisher"
      ["lunch"; "dinner"]
      "Creamy yogurt smoothie with Alphonso mango pulp" 0.55;
    MenuItem.mk "ITEM_063" "Buttermilk (Chaas)" "Drink" "North Indian" true 39 "finisher"
      ["lunch"; "dinner"]
      "Spiced salted buttermilk with cumin and mint — digestive cooler" 0.6;
    MenuItem.mk "ITEM_064" "Thumbs Up / Cola" "Drink" "Continental" true 40 "finisher"
      ["lunch"; "dinner"; "late_night"]
      "Chilled cola — classic meal companion" 0.65;
    MenuItem.mk "ITEM_065" "Fresh Lime Soda" "Drink" "Continental" true 59 "finisher"
      ["lunch"; "dinner"; "snacks"]
      "Refreshing lime soda, sweet or salted" 0.5;
    MenuItem.mk "ITEM_066" "Filter Coffee" "Drink" "South Indian" true 49 "finisher"
      ["breakfast"; "snacks"]
      "Traditional South Indian filter-drip coffee with frothy milk" 0.6;
    MenuItem.mk "ITEM_067" "Jaljeera" "Drink" "North Indian" true 49 "finisher"
      ["lunch"; "dinner"]
      "Tangy cumin-mint cooler — traditional Indian digestive drink" 0.4;
    MenuItem.mk "ITEM_068" "Water Bottle" "Drink" "Continental" true 20 "finisher"
      ["breakfast"; "lunch"; "dinner"; "snacks"; "late_night"]
      "Packaged drinking water 500ml" 0.3;
    MenuItem.mk "ITEM_070" "Extra Gravy" "Side" "North Indian" true 49 "addon"
      ["lunch"; "dinner"]
      "Extra portion of rich curry gravy" 0.3;
    MenuItem.mk "ITEM_071" "Egg (Boiled/Fried)" "Side" "Continental" false 25 "addon"
      ["breakfast"; "lunch"; "dinner"]
      "Boiled or fried egg — quick protein add-on" 0.35;
    MenuItem.mk "ITEM_072" "Pickle (Achar)" "Side" "North Indian" true 19 "addon"
      ["lunch"; "dinner"]
      "Spicy mango or mixed pickle" 0.3;
    MenuItem.mk "ITEM_073" "Curd (Dahi)" "Side" "North Indian" true 35 "addon"
      ["lunch"; "dinner"]
      "Fresh plain yogurt — cooling accompaniment for spicy meals" 0.45 ].

(** *** [generate_users] *)

(** The two further operations of [numpy.random.Generator] that
    [generate_users] calls. *)
Class ProfileGenerator (G : Type) `{Generator G} : Type := {
  (** [rng.integers(low, high)] *)
  integers : Z -> Z -> G -> Z * G;
  (** [rng.beta(a, b)] *)
  beta : Q -> Q -> G -> Q * G
}.

(** What NumPy documents about [choice] over [range(n)]: it returns
    [size] values, each of them in the range. *)
Class ChoiceLaws (G : Type) `{Generator G} : Prop := {
  choice_int_length : forall n size g,
    length (fst (choice_int n size g)) = size;
  choice_int_range : forall n size g,
    (0 < n)%Z -> Forall (fun d => (0 <= d < n)%Z) (fst (choice_int n size g))
}.

(** What NumPy documents about the ranges of [integers] and [beta]:
    a value of [low, high), and a value of [0, 1]. *)
Class SamplerLaws (G : Type) `{ProfileGenerator G} : Prop := {
  integers_range : forall low high g,
    (low < high)%Z -> (low <= fst (integers low high g) < high)%Z;
  beta_range : forall a b g, 0 <= fst (beta a b g) <= 1
}.

Definition city_veg_beta_params : dict (Q * Q) :=
  [ ("Mumbai", (2.0, 2.5));
    ("Delhi", (2.5, 2.5));
    ("Bangalore", (3.0, 2.0));
    ("Hyderabad", (1.8, 3.0));
    ("Chennai", (3.5, 2.0));
    ("Kolkata", (2.0, 2.8)) ].

(** [city_weights] before it is normalised. *)
Definition CITY_WEIGHTS : list Q := [0.25; 0.25; 0.18; 0.15; 0.10; 0.07].

(** The scan [for seg_name, seg_info in USER_SEGMENTS.items()] with its
    [break]; [segment] is the value the variable holds if no fraction is
    reached. *)
Fixpoint scan_segments (seg_roll cumulative : Q)
    (segments : dict UserSegment.t) (segment : string) : string :=
  match segments with
  | [] => segment
  | (seg_name, seg_info) :: rest =>
      let cumulative := cumulative + UserSegment.fraction seg_info in
      if Qle_bool seg_roll cumulative then seg_name
      else scan_segments seg_roll cumulative rest segment
  end.

(** [max(d, key=d.get)]: the first key whose value is the largest. *)
Definition py_max_key (d : dict Q) : exn + string :=
  match d with
  | [] => inl (ValueError "max() arg is an empty sequence")
  | kv :: rest =>
      inr (fst (fold_left (fun best kv' =>
                             if Qltb (snd best) (snd kv') then kv' else best)
                          rest kv))
  end.

(** [f"U{n:05d}"] *)
Definition format_05d (n : nat) : string :=
  let s := NilZero.string_of_uint (Nat.to_uint n) in
  let fix zeros (k : nat) : string :=
    match k with O => "" | S k' => String "0" (zeros k') end in
  (zeros (5 - String.length s)%nat ++ s)%string.

Section Users.

Context {G : Type} `{ProfileGenerator G}.

Definition rng_integers (low high : Z) : M G Z :=
  fun g =>
    if (high <=? low)%Z then inl (ValueError "low >= high")
    else inr (integers low high g).

Definition rng_beta (a b : Q) : M G Q :=
  fun g =>
    if Qle_bool a 0 || Qle_bool b 0 then inl (ValueError "a <= 0 or b <= 0")
    else inr (beta a b g).

(** [[c for c, score in city_affinities.items() if rng.random() < score * 0.8]] *)
Fixpoint sample_preferred (city_affinities : dict Q) : M G (list string) :=
  match city_affinities with
  | [] => ret []
  | (c, score) :: rest =>
      u <- rng_random ;;
      preferred <- sample_preferred rest ;;
      ret (if Qltb u (score * 0.8) then c :: preferred else preferred)
  end.

(** The body of [for i in range(n_users)]. *)
Definition generate_user (city_weights : list Q) (i : nat)
  : M G UserProfile.t :=
  city <- rng_choice_p CITIES city_weights ;;
  '(alpha_v, beta_v) <- lift (dict_index city city_veg_beta_params) ;;
  seg_roll <- rng_random ;;
  let segment := scan_segments seg_roll 0.0 USER_SEGMENTS "new" in
  seg_info <- lift (dict_index segment USER_SEGMENTS) ;;
  let '(lo, hi) := UserSegment.order_range seg_info in
  num_orders <- rng_integers lo (hi + 1) ;;
  city_affinities <- lift (dict_index city CITY_CUISINE_AFFINITY) ;;
  preferred <- sample_preferred city_affinities ;;
  preferred <- (if is_nil preferred
                then best <- lift (py_max_key city_affinities) ;; ret [best]
                else ret preferred) ;;
  veg_preference <- rng_beta alpha_v beta_v ;;
  price_sensitivity <- rng_beta 2 3 ;;
  adventurousness <- rng_beta 2 5 ;;
  ret (UserProfile.mk ("U" ++ format_05d (S i))%string city segment
         veg_preference price_sensitivity adventurousness preferred
         (Z.to_nat num_orders)).

Fixpoint users_from (city_weights : list Q) (indices : list nat)
  : M G (list UserProfile.t) :=
  match indices with
  | [] => ret []
  | i :: rest =>
      user <- generate_user city_weights i ;;
      users <- users_from city_weights rest ;;
      ret (user :: users)
  end.

(** [generate_users(n_users, rng)]; [num_orders], a count, is kept as a
    natural number. *)
Definition generate_users (n_users : Z) (rng : option G)
  : exn + (list UserProfile.t * G) :=
  let rng := match rng with Some g => g | None => default_rng RANDOM_SEED end in
  let city_weights := normalize CITY_WEIGHTS in
  users_from city_weights (seq 0 (Z.to_nat n_users)) rng.

End Users.

Arguments generate_users {G _ _} n_users rng.

(* ================================================================== *)
(** ** A generator whose samples are in range

    [unit_tape] reads the samples of a tape clamped to [0, 1) (a value
    outside reads as 0) and derives every sampler from them, so that it
    meets [GeneratorLaws], [ChoiceLaws] and [SamplerLaws] in every
    state.  It is not NumPy's bit generator; it is used to execute
    [generate_users] and [generate_sessions] on concrete inputs. *)

Record unit_tape : Type := UnitTape { unit_draws : tape }.

Definition clamp_unit (u : Q) : Q :=
  if Qltb u 0 then 0 else if Qltb u 1 then u else 0.

Definition on_tape {A} (f : tape -> A * tape) (t : unit_tape)
  : A * unit_tape :=
  let (a, g) := f (map clamp_unit (unit_draws t)) in (a, UnitTape g).

Definition tape_integers (low high : Z) (g : tape) : Z * tape :=
  let (u, g') := tape_next g in
  ((low + Z.max 0 (Z.min (high - low - 1)
                         (Qfloor (u * inject_Z (high - low)))))%Z, g').

Definition tape_beta (a b : Q) (g : tape) : Q * tape :=
  let (u, g') := tape_next g in (np_clip u 0 1, g').

#[export] Instance UnitTapeGen : Generator unit_tape := {
  default_rng := fun _ => UnitTape [];
  random := on_tape tape_next;
  normal := fun loc scale => on_tape (tape_normal loc scale);
  choice_int := fun n size => on_tape (tape_choice_int n size);
  choice_p := fun a p => on_tape (tape_choice_p a p);
  choice_noreplace := fun a size => on_tape (tape_choice_noreplace a size)
}.

#[export] Instance UnitTapeProfileGen : ProfileGenerator unit_tape := {
  integers := fun low high => on_tape (tape_integers low high);
  beta := fun a b => on_tape (tape_beta a b)
}.

(** Reading a decimal numeral back. *)
Definition parse_decimal (s : string) : option nat :=
  option_map Nat.of_uint (NilEmpty.uint_of_string s).

(** [k] zeros in front of [s]. *)
Fixpoint zero_pad (k : nat) (s : string) : string :=
  match k with
  | O => s
  | S k' => String "0" (zero_pad k' s)
  end.

(* ================================================================== *)
(** ** Where an event of the output comes from *)

(** [e'] is [e], or [e] with [is_abandoned] overwritten by 1. *)
Definition override_of (e e' : Event.t) : Prop :=
  e' = e \/ e' = Event.set_is_abandoned 1 e.

(** [e] is the event the candidate loop of a session built for some
    candidate of the catalog, against a cart that starts with the
    session's anchor; the loop is only reached once the user's segment
    has been looked up. *)
Definition made_in (set_to_list : SetOrder) (env : SessionEnv)
    (anchor_id : string) (e : Event.t) : Prop :=
  exists cart cand_id cand_item accepted,
    make_event set_to_list env cart cand_id cand_item accepted = inr e
    /\ hd_error cart = Some anchor_id
    /\ dict_get cand_id (env_item_lookup env) = Some cand_item
    /\ (accepted = 0 \/ accepted = 1)%Z
    /\ dict_mem (UserProfile.segment (env_user env)) SEGMENT_MULTIPLIER = true.

(** [ts] is a time of day on the date of [base_date]. *)
Definition sampled_on (base_date ts : datetime.t) : Prop :=
  exists h m,
    ts = datetime.replace base_date h m 0
    /\ (0 <= h <= 23)%Z /\ (0 <= m <= 59)%Z.

(** The environment of the session numbered [k] of [user], on the day
    [day_offset] after [start_date], with the anchor selected for it. *)
Definition session_of {G : Type} `{Generator G}
    (item_lookup : dict MenuItem.t)
    (all_item_ids : list string) (start_date : datetime.t)
    (user : UserProfile.t) (day_offset : Z) (k : nat)
    (env : SessionEnv) (anchor_id : string) : Prop :=
  exists ts name t ab (g0 g1 g2 : G),
    env = session_env item_lookup all_item_ids k user ts
                      (_get_meal_time (datetime.hour ts)) name t ab
    /\ datetime.in_range start_date day_offset = true
    /\ sampled_on (datetime.shift start_date day_offset) ts
    /\ choose_template item_lookup user (_get_meal_time (datetime.hour ts)) g0
       = inr ((name, t), g1)
    /\ dict_get name MEAL_TEMPLATES = Some t
    /\ select_anchor item_lookup user (valid_anchors item_lookup t) g1
       = inr (anchor_id, g2).

(** The fields of an event that are computed once per session. *)
Definition session_fields (e : Event.t)
  : string * string * string * Q * Q * datetime.t * string * Z * Z * Z * string :=
  (Event.user_id e, Event.city e, Event.user_segment e,
   Event.user_veg_preference e, Event.user_price_sensitivity e,
   Event.timestamp e, Event.meal_time e, Event.day_of_week e,
   Event.hour_of_day e, Event.is_weekend e, Event.meal_template e).

(** The number a session id was formatted from. *)
Definition session_number (session_id : string) : option nat :=
  match session_id with
  | String "S" digits => parse_decimal digits
  | _ => None
  end.

(** [sum(u.num_orders for u in users)] *)
Definition total_orders (users : list UserProfile.t) : nat :=
  fold_right (fun u n => (UserProfile.num_orders u + n)%nat) 0%nat users.

(** What the fields of one event say about each other. *)
Definition event_consistent (e : Event.t) : Prop :=
  Event.cart_items e <> []
  /\ Event.cart_item_count e = Z.of_nat (length (Event.cart_items e))
  /\ cart_last (Event.cart_items e) = inr (Event.last_item_added e)
  /\ Event.day_of_week e = datetime.weekday (Event.timestamp e)
  /\ (0 <= Event.day_of_week e <= 6)%Z
  /\ Event.hour_of_day e = datetime.hour (Event.timestamp e)
  /\ (0 <= Event.hour_of_day e <= 23)%Z
  /\ (0 <= datetime.minute (Event.timestamp e) <= 59)%Z
  /\ datetime.second (Event.timestamp e) = 0%Z
  /\ Event.is_weekend e = (if (5 <=? Event.day_of_week e)%Z then 1 else 0)%Z
  /\ Event.meal_time e = _get_meal_time (Event.hour_of_day e)
  /\ 0 <= Event.cart_veg_ratio e <= 1
  /\ (Event.candidate_accepted e = 0 \/ Event.candidate_accepted e = 1)%Z
  /\ (Event.candidate_is_veg e = 0 \/ Event.candidate_is_veg e = 1)%Z
  /\ (Event.is_abandoned e = 0 \/ Event.is_abandoned e = 1)%Z.

(** The user fields of [e] are those of [user]. *)
Definition event_of_user (user : UserProfile.t) (e : Event.t) : Prop :=
  Event.user_id e = UserProfile.user_id user
  /\ Event.city e = UserProfile.city user
  /\ Event.user_segment e = UserProfile.segment user
  /\ Event.user_veg_preference e
     = py_round (UserProfile.veg_preference user) 3
  /\ Event.user_price_sensitivity e
     = py_round (UserProfile.price_sensitivity user) 3.

(** The candidate fields of [e] are those of [cand_item]. *)
Definition candidate_is (cand_item : MenuItem.t) (e : Event.t) : Prop :=
  Event.candidate_item_id e = MenuItem.item_id cand_item
  /\ Event.candidate_category e = MenuItem.category cand_item
  /\ Event.candidate_cuisine e = MenuItem.cuisine cand_item
  /\ Event.candidate_price e = MenuItem.price cand_item
  /\ Event.candidate_is_veg e = bool_to_int (MenuItem.is_veg cand_item)
  /\ Event.candidate_meal_role e = MenuItem.meal_role cand_item
  /\ Event.candidate_popularity e = MenuItem.popularity_score cand_item.

(** The last item of [catalog] whose id is [k]. *)
Definition last_with_id (k : string) (catalog : list MenuItem.t)
  : option MenuItem.t :=
  find (fun item => String.eqb (MenuItem.item_id item) k) (rev catalog).

(** The candidate, the cart and the last item of [e] are read off the
    catalog: the item an id stands for is the last one of the catalog
    carrying that id. *)
Definition event_joins_catalog (set_to_list : SetOrder)
    (catalog : list MenuItem.t) (e : Event.t) : Prop :=
  (exists cand_item,
      last_with_id (Event.candidate_item_id e) catalog = Some cand_item
      /\ candidate_is cand_item e)
  /\ (exists cart_records,
         Forall2 (fun cid item => last_with_id cid catalog = Some item)
                 (Event.cart_items e) cart_records
         /\ Event.cart_total_price e = Qsum (map MenuItem.price cart_records)
         /\ Event.cart_categories e
            = set_to_list (map MenuItem.category cart_records)
         /\ Event.cart_cuisines e
            = set_to_list (map MenuItem.cuisine cart_records))
  /\ (exists last_item,
         last_with_id (Event.last_item_added e) catalog = Some last_item
         /\ Event.last_item_category e = MenuItem.category last_item
         /\ Event.last_item_cuisine e = MenuItem.cuisine last_item).

(** The template of [e] is a template of [MEAL_TEMPLATES] that is
    weighted for the meal time of [e], and the cart of [e] starts with
    one of its anchors. *)
Definition event_of_template (e : Event.t) : Prop :=
  exists t w anchor_id rest,
    dict_get (Event.meal_template e) MEAL_TEMPLATES = Some t
    /\ dict_get (Event.meal_time e) MEALTIME_TEMPLATE_WEIGHTS = Some w
    /\ dict_mem (Event.meal_template e) w = true
    /\ Event.cart_items e = anchor_id :: rest
    /\ In anchor_id (MealTemplate.anchors t).

(** Input on which [generate_sessions] does not raise: every user's
    segment has a multiplier, and every popularity score is positive. *)
Definition known_segment (user : UserProfile.t) : bool :=
  dict_mem (UserProfile.segment user) SEGMENT_MULTIPLIER.

Definition positive_popularity (item : MenuItem.t) : bool :=
  Qltb 0 (MenuItem.popularity_score item).

(** No anchor of any template is an item of [catalog]. *)
Definition no_anchor_in (catalog : list MenuItem.t) : bool :=
  forallb (fun entry =>
             is_nil (valid_anchors (build_item_lookup catalog) (snd entry)))
          MEAL_TEMPLATES.

(** [u.num_orders == 0] *)
Definition no_orders (user : UserProfile.t) : bool :=
  (UserProfile.num_orders user =? 0)%nat.

(** A user whose segment is none of the three the simulator knows. *)
Definition user_vip : UserProfile.t :=
  UserProfile.mk "U00002" "Mumbai" "vip" 0.4 0.3 0.2 ["Chinese"] 1.

(** The sides and the drinks of [small_catalog]: no anchor. *)
Definition sides_catalog : list MenuItem.t := [ITEM_037; ITEM_064].

(** [ITEM_014] with a popularity score of zero. *)
Definition ITEM_014_unpopular : MenuItem.t :=
  MenuItem.mk "ITEM_014" "Chicken Fried Rice" "Main" "Chinese" false 199
    "anchor" ["lunch"; "dinner"; "late_night"]
    "Wok-tossed rice with chicken, egg, and vegetables" 0.

(** The anchor [aid] is an item of the lookup with popularity zero. *)
Definition zero_popularity (item_lookup : dict MenuItem.t) (aid : string)
  : bool :=
  match dict_get aid item_lookup with
  | Some item => Qeq_bool (MenuItem.popularity_score item) 0
  | None => false
  end.

Definition unpopular_lookup : dict MenuItem.t :=
  build_item_lookup [ITEM_014_unpopular; ITEM_037].

(** What [generate_users] promises of a profile: a city of [CITIES], a
    segment of [USER_SEGMENTS] with a number of orders in the segment's
    range, at least one preferred cuisine, all of them cuisines of the
    city's affinity table and none of them twice, and the three
    preference scores in [0, 1]. *)
Definition user_well_formed (u : UserProfile.t) : Prop :=
  In (UserProfile.city u) CITIES
  /\ (exists seg_info,
         dict_get (UserProfile.segment u) USER_SEGMENTS = Some seg_info
         /\ (fst (UserSegment.order_range seg_info)
             <= Z.of_nat (UserProfile.num_orders u)
             <= snd (UserSegment.order_range seg_info))%Z)
  /\ (exists city_affinities,
         dict_get (UserProfile.city u) CITY_CUISINE_AFFINITY
         = Some city_affinities
         /\ UserProfile.preferred_cuisines u <> []
         /\ incl (UserProfile.preferred_cuisines u)
                 (dict_keys city_affinities)
         /\ NoDup (UserProfile.preferred_cuisines u))
  /\ 0 <= UserProfile.veg_preference u <= 1
  /\ 0 <= UserProfile.price_sensitivity u <= 1
  /\ 0 <= UserProfile.adventurousness u <= 1.

(** The number a user id was formatted from. *)
Definition user_number (user_id : string) : option nat :=
  match user_id with
  | String "U" digits => parse_decimal digits
  | _ => None
  end.

(** Draws for three users. *)
Definition tape_users : tape :=
  [0.1; 0.3; 0.5; 0.2; 0.9; 0.1; 0.9; 0.2; 0.9; 0.9; 0.4; 0.3; 0.2;
   0.6; 0.9; 0.7; 0.9; 0.9; 0.9; 0.9; 0.9; 0.9; 0.9; 0.5; 0.5; 0.5].

(* ================================================================== *)
(** ** The main program, steps 1 to 3

    [catalog = build_menu_catalog()], [users = generate_users(n_users,
    rng)], [generate_sessions(users, catalog, n_days, rng=rng)]: the
    sessions are drawn with the generator the users left, from the
    default [start_date].  The program runs it with 5000 users, 30 days
    and [default_rng(RANDOM_SEED)]. *)
Definition simulate {G : Type} `{ProfileGenerator G}
    (set_to_list : SetOrder) (n_users n_days : Z) (rng : G)
  : exn + list Event.t :=
  let catalog := build_menu_catalog in
  match generate_users n_users (Some rng) with
  | inl e => inl e
  | inr (users, rng) =>
      generate_sessions set_to_list users catalog n_days start_2025 (Some rng)
  end.

(** [in_meal_range lo hi hour]: [hour] lies in the range [(lo, hi)] of
    [MEAL_TIMES], read from [lo] up to but not including [hi], around
    midnight when [hi] is below [lo]. *)
Definition in_meal_range (lo hi hour : Z) : bool :=
  if (lo <=? hi)%Z then (lo <=? hour)%Z && (hour <? hi)%Z
  else (lo <=? hour)%Z || (hour <? hi)%Z.

(** The day of an event, and what the order of the output says about
    two events [p] and [q] (user id and day) of which [p] comes first:
    if they are of the same user, [q] is not on an earlier day. *)
Definition event_date (e : Event.t) : Z :=
  datetime.ordinal (Event.timestamp e).

Definition user_and_date (e : Event.t) : string * Z :=
  (Event.user_id e, event_date e).

Definition date_ordered (p q : string * Z) : Prop :=
  fst p = fst q -> (snd p <= snd q)%Z.

(** Every template of [MEAL_TEMPLATES] has an anchor in [catalog]. *)
Definition every_template_has_anchor (catalog : list MenuItem.t) : bool :=
  forallb (fun entry =>
             negb (is_nil (valid_anchors (build_item_lookup catalog)
                                         (snd entry))))
          MEAL_TEMPLATES.

(** The user of the session numbered [k] (from 1): the sessions are
    numbered user by user, [num_orders] numbers for each. *)
Fixpoint session_owner (users : list UserProfile.t) (k : nat)
  : option UserProfile.t :=
  match users with
  | [] => None
  | user :: rest =>
      if (k <=? UserProfile.num_orders user)%nat then Some user
      else session_owner rest (k - UserProfile.num_orders user)
  end.

(** The [n_days] days that start with [start_date] are dates of the
    calendar: [start_date] is one, and the last of the days is not
    after 9999-12-31. *)
Definition window_in_calendar (start_date : datetime.t) (n_days : Z) : bool :=
  (datetime.MINORDINAL <=? datetime.ordinal start_date)%Z
  && (datetime.ordinal start_date + n_days - 1 <=? datetime.MAXORDINAL)%Z.

(** A catalog with two anchors of ["chinese_meal"], and the draws of a
    session that selects the second one. *)
Definition ITEM_015 : MenuItem.t :=
  MenuItem.mk "ITEM_015" "Veg Hakka Noodles" "Main" "Chinese" true 169
    "anchor" ["lunch"; "dinner"; "late_night"]
    "Stir-fried noodles with mixed vegetables in soy sauce" 0.55.

Definition noodle_catalog : list MenuItem.t := ITEM_015 :: small_catalog.

Definition noodle_lookup : dict MenuItem.t := build_item_lookup noodle_catalog.

Definition tape_second_anchor : tape :=
  [0.1; 0.5; 0.6; 0.9; 0.9;
   0.0; 0.0; 0.1; 0.9; 0.9; 0.9;
   0.0; 0.9; 0.9; 0.0; 0.9;
   0.9; 0.01].

(** [datetime(9999, 12, 17)]: fifteen days later is not a date. *)
Definition late_9999 : datetime.t := datetime.mk 3652045 0 0 0 0.

(* ================================================================== *)
(** * Properties *)

(** ** Numbers *)

Lemma Qltb_true (x y : Q) : Qltb x y = true <-> x < y.
Proof.
  unfold Qltb. rewrite negb_true_iff. split; intro Hxy.
  - apply Qnot_le_lt. intro Hle. apply Qle_bool_iff in Hle. congruence.
  - destruct (Qle_bool y x) eqn:E; [|reflexivity].
    apply Qle_bool_iff in E. exfalso. exact (Qlt_not_le _ _ Hxy E).
Qed.

Lemma Qltb_false (x y : Q) : Qltb x y = false <-> y <= x.
Proof.
  unfold Qltb. rewrite negb_false_iff. apply Qle_bool_iff.
Qed.

Lemma py_min_le_l (a b : Q) : py_min a b <= a.
Proof.
  unfold py_min. destruct (Qltb b a) eqn:E.
  - apply Qltb_true in E. lra.
  - lra.
Qed.

Lemma py_min_glb (a b c : Q) : c <= a -> c <= b -> c <= py_min a b.
Proof. unfold py_min. destruct (Qltb b a); auto. Qed.

Lemma py_max_ge_l (a b : Q) : a <= py_max a b.
Proof.
  unfold py_max. destruct (Qltb a b) eqn:E.
  - apply Qltb_true in E. lra.
  - lra.
Qed.

(** ** Strings and dictionaries *)

Lemma str_in_In (x : string) (l : list string) : str_in x l = true <-> In x l.
Proof.
  unfold str_in. rewrite existsb_exists. split.
  - intros (y & Hy & E). apply String.eqb_eq in E. now subst.
  - intro Hx. exists x. split; [assumption | apply String.eqb_refl].
Qed.

Lemma str_in_not_In (x : string) (l : list string) :
  str_in x l = false <-> ~ In x l.
Proof.
  rewrite <- str_in_In. destruct (str_in x l); split; congruence.
Qed.

Lemma dict_get_In_keys {V} (k : string) (d : dict V) (v : V) :
  dict_get k d = Some v -> In k (dict_keys d).
Proof.
  induction d as [|[k' v'] d IH]; simpl; [discriminate|].
  destruct (String.eqb k k') eqn:E.
  - apply String.eqb_eq in E. auto.
  - auto.
Qed.

Lemma dict_get_In {V} (k : string) (d : dict V) (v : V) :
  dict_get k d = Some v -> In (k, v) d.
Proof.
  induction d as [|[k' v'] d IH]; simpl; [discriminate|].
  destruct (String.eqb k k') eqn:E.
  - apply String.eqb_eq in E. intros [= <-]. subst. auto.
  - auto.
Qed.

Lemma In_keys_dict_get {V} (k : string) (d : dict V) :
  In k (dict_keys d) -> exists v, dict_get k d = Some v.
Proof.
  induction d as [|[k' v'] d IH]; simpl; [contradiction|].
  intros [E | Hin].
  - subst. rewrite String.eqb_refl. eauto.
  - destruct (String.eqb k k'); eauto.
Qed.

Lemma dict_mem_In_keys {V} (k : string) (d : dict V) :
  dict_mem k d = true <-> In k (dict_keys d).
Proof.
  unfold dict_mem. split.
  - destruct (dict_get k d) eqn:E; [|discriminate].
    intros _. eapply dict_get_In_keys; eauto.
  - intro Hin. destruct (In_keys_dict_get k d Hin) as [v ->]. reflexivity.
Qed.

Lemma dict_keys_set {V} (k : string) (v : V) (d : dict V) :
  dict_keys (dict_set k v d)
  = if str_in k (dict_keys d) then dict_keys d else (dict_keys d ++ [k])%list.
Proof.
  induction d as [|[k' v'] d IH]; simpl; [reflexivity|].
  destruct (String.eqb k k') eqn:E; simpl; [reflexivity|].
  unfold dict_keys in *. rewrite IH. unfold str_in.
  destruct (existsb (String.eqb k) (map fst d)); reflexivity.
Qed.

Lemma dict_set_keys_NoDup {V} (k : string) (v : V) (d : dict V) :
  NoDup (dict_keys d) -> NoDup (dict_keys (dict_set k v d)).
Proof.
  intro Hnd. rewrite dict_keys_set.
  destruct (str_in k (dict_keys d)) eqn:E; [assumption|].
  apply str_in_not_In in E.
  apply NoDup_app; [assumption | repeat constructor; simpl; tauto |].
  intros x Hx [<- | []]. contradiction.
Qed.

(** The keys of [item_lookup] (that is, [all_item_ids]) are distinct. *)
Lemma build_item_lookup_NoDup (catalog : list MenuItem.t) :
  NoDup (dict_keys (build_item_lookup catalog)).
Proof.
  unfold build_item_lookup.
  assert (Hgen : forall d, NoDup (dict_keys d) ->
            NoDup (dict_keys (fold_left
              (fun d item => dict_set (MenuItem.item_id item) item d) catalog d))).
  { induction catalog as [|it catalog IH]; simpl; intros d Hd; [assumption|].
    apply IH. now apply dict_set_keys_NoDup. }
  apply Hgen. constructor.
Qed.

(** ** Meal-time buckets *)

(** C10. For every integer hour [_get_meal_time] returns one of the five
    bucket names (and each of the five is returned for some hour); the
    five names are exactly the keys of [MEALTIME_TEMPLATE_WEIGHTS], so
    the weight-table lookup of [generate_sessions] always finds the
    bucket's own entry and never falls back to the ["lunch"] default. *)
Theorem get_meal_time_bucket_has_weights :
  (forall hour : Z, In (_get_meal_time hour) MEAL_TIME_BUCKETS)
  /\ (forall b, In b MEAL_TIME_BUCKETS -> exists hour : Z, _get_meal_time hour = b)
  /\ dict_keys MEALTIME_TEMPLATE_WEIGHTS = MEAL_TIME_BUCKETS
  /\ (forall hour : Z, exists w,
        dict_get (_get_meal_time hour) MEALTIME_TEMPLATE_WEIGHTS = Some w
        /\ template_weights_for (_get_meal_time hour) = inr w).
Proof.
  assert (Hcases : forall hour : Z,
            _get_meal_time hour = "breakfast" \/ _get_meal_time hour = "lunch"
            \/ _get_meal_time hour = "snacks" \/ _get_meal_time hour = "dinner"
            \/ _get_meal_time hour = "late_night").
  { intro hour. unfold _get_meal_time.
    destruct ((6 <=? hour) && (hour <? 10))%Z; [tauto|].
    destruct ((10 <=? hour) && (hour <? 15))%Z; [tauto|].
    destruct ((15 <=? hour) && (hour <? 18))%Z; [tauto|].
    destruct ((18 <=? hour) && (hour <? 22))%Z; tauto. }
  repeat split.
  - intro hour. unfold MEAL_TIME_BUCKETS. simpl.
    destruct (Hcases hour) as [E | [E | [E | [E | E]]]]; rewrite E; tauto.
  - intros b Hb. unfold MEAL_TIME_BUCKETS in Hb. simpl in Hb.
    destruct Hb as [<- | [<- | [<- | [<- | [<- | []]]]]].
    + now exists 6%Z.
    + now exists 10%Z.
    + now exists 15%Z.
    + now exists 18%Z.
    + now exists 22%Z.
  - intro hour.
    destruct (Hcases hour) as [E | [E | [E | [E | E]]]]; rewrite E;
      eexists; split; reflexivity.
Qed.

(** ** The acceptance probabilities *)

Ltac case_Qltb :=
  repeat match goal with
         | |- context [Qltb ?a ?b] =>
             let E := fresh "E" in
             destruct (Qltb a b) eqn:E;
             [apply Qltb_true in E | apply Qltb_false in E]
         end.

(** The source clamps before and after the weekend scaling; the result is
    the single clamp of the specification. *)
Lemma double_clamp (x : Q) (weekend : bool) :
  (if weekend then py_min 0.95 (py_min 0.95 x * 1.15) else py_min 0.95 x)
  == py_min 0.95 (x * (if weekend then 1.15 else 1)).
Proof.
  unfold py_min.
  destruct (Qltb x 0.95) eqn:Ex;
    [apply Qltb_true in Ex | apply Qltb_false in Ex];
    destruct weekend; case_Qltb; lra.
Qed.

Lemma segment_multiplier_cases (segment : string) (m : Q) :
  dict_get segment SEGMENT_MULTIPLIER = Some m ->
  (segment = "new" /\ m = 0.7) \/ (segment = "regular" /\ m = 1.0)
  \/ (segment = "power" /\ m = 1.3).
Proof.
  unfold SEGMENT_MULTIPLIER. simpl.
  destruct (String.eqb segment "new") eqn:E1.
  { apply String.eqb_eq in E1. intros [= <-]. auto. }
  destruct (String.eqb segment "regular") eqn:E2.
  { apply String.eqb_eq in E2. intros [= <-]. auto. }
  destruct (String.eqb segment "power") eqn:E3.
  { apply String.eqb_eq in E3. intros [= <-]. auto. }
  discriminate.
Qed.

Lemma role_accept_prob_inv (template : MealTemplate.t) (role : string)
    (user : UserProfile.t) (timestamp : datetime.t) (p : Q) :
  role_accept_prob template role user timestamp = inr p ->
  exists m,
    dict_get (UserProfile.segment user) SEGMENT_MULTIPLIER = Some m
    /\ p == spec_role_prob
              (dict_get_default role 0.3 (MealTemplate.completion_prob template))
              m (5 <=? datetime.weekday timestamp)%Z.
Proof.
  unfold role_accept_prob, dict_index, ebind.
  destruct (dict_get (UserProfile.segment user) SEGMENT_MULTIPLIER) as [m|] eqn:E;
    [|discriminate].
  intros [= <-]. exists m. split; [reflexivity|].
  unfold spec_role_prob.
  set (x := dict_get_default role 0.3 (MealTemplate.completion_prob template) * m).
  rewrite (double_clamp x (5 <=? datetime.weekday timestamp)%Z).
  reflexivity.
Qed.

(** The branch-by-branch updates of the source multiply the same factors
    as the specification's five rules. *)
Lemma candidate_accept_prob_spec (accept_prob : Q) (cand_id : string)
    (cand_item : MenuItem.t) (noise : list string) (user : UserProfile.t)
    (meal_time : string) :
  candidate_accept_prob accept_prob cand_id cand_item noise user meal_time
  == spec_accept_prob accept_prob (str_in cand_id noise) cand_item user meal_time.
Proof.
  unfold candidate_accept_prob, spec_accept_prob.
  destruct (str_in cand_id noise);
    destruct (MenuItem.is_veg cand_item);
    destruct (Qltb (UserProfile.veg_preference user) 0.3);
    destruct (Qltb 0.7 (UserProfile.veg_preference user));
    destruct (Qltb 200 (MenuItem.price cand_item));
    destruct (Qltb 0.7 (UserProfile.price_sensitivity user));
    destruct (str_in meal_time (MenuItem.meal_times cand_item));
    simpl; ring.
Qed.

Lemma candidate_accept_prob_bounds (accept_prob : Q) (cand_id : string)
    (cand_item : MenuItem.t) (noise : list string) (user : UserProfile.t)
    (meal_time : string) :
  0 <= accept_prob <= 0.95 ->
  0 <= candidate_accept_prob accept_prob cand_id cand_item noise user meal_time
  /\ candidate_accept_prob accept_prob cand_id cand_item noise user meal_time
     <= accept_prob.
Proof.
  intros [Hlo Hhi]. unfold candidate_accept_prob.
  destruct (str_in cand_id noise);
    destruct (MenuItem.is_veg cand_item);
    destruct (Qltb (UserProfile.veg_preference user) 0.3);
    destruct (Qltb 0.7 (UserProfile.veg_preference user));
    destruct (Qltb 200 (MenuItem.price cand_item));
    destruct (Qltb 0.7 (UserProfile.price_sensitivity user));
    destruct (str_in meal_time (MenuItem.meal_times cand_item));
    simpl; lra.
Qed.

Lemma accept_label_morph (u a b : Q) : a == b -> accept_label u a = accept_label u b.
Proof.
  intro E. unfold accept_label.
  destruct (Qltb u a) eqn:Ea; destruct (Qltb u b) eqn:Eb; try reflexivity.
  - apply Qltb_true in Ea. apply Qltb_false in Eb. rewrite E in Ea. lra.
  - apply Qltb_false in Ea. apply Qltb_true in Eb. rewrite E in Ea. lra.
Qed.

Lemma MEAL_TEMPLATES_ok (name : string) (t : MealTemplate.t) :
  dict_get name MEAL_TEMPLATES = Some t -> template_ok t = true.
Proof.
  unfold MEAL_TEMPLATES. simpl.
  repeat match goal with
         | |- context [String.eqb name ?k] => destruct (String.eqb name k)
         end;
    intros [= <-]; reflexivity.
Qed.

(** ** The monad *)

Lemma bind_inr {G A B} (c : M G A) (k : A -> M G B) (g : G) (r : B * G) :
  bind c k g = inr r -> exists a g1, c g = inr (a, g1) /\ k a g1 = inr r.
Proof.
  unfold bind. destruct (c g) as [e | [a g1]]; [discriminate|]. eauto.
Qed.

Lemma bind_inr_eq {G A B} (c : M G A) (k : A -> M G B) (g : G) (a : A) (g1 : G) :
  c g = inr (a, g1) -> bind c k g = k a g1.
Proof. unfold bind. now intros ->. Qed.

Lemma lift_inr {G A} (r : exn + A) (g g' : G) (a : A) :
  lift r g = inr (a, g') -> r = inr a /\ g' = g.
Proof.
  unfold lift. destruct r; [discriminate|]. intros [= -> ->]. auto.
Qed.

Lemma ebind_inr {A B} (r : exn + A) (k : A -> exn + B) (b : B) :
  ebind r k = inr b -> exists a, r = inr a /\ k a = inr b.
Proof. unfold ebind. destruct r; [discriminate|]. eauto. Qed.

Lemma dict_index_inr {V} (k : string) (d : dict V) (v : V) :
  dict_index k d = inr v <-> dict_get k d = Some v.
Proof.
  unfold dict_index. destruct (dict_get k d); split; congruence.
Qed.

Section SimulatorFacts.

Context {G : Type} `{Generator G}.
Variable set_to_list : SetOrder.

(** ** One event *)

Lemma make_event_fields (env : SessionEnv) (cart : list string)
    (cand_id : string) (cand_item : MenuItem.t) (accepted : Z) (e : Event.t) :
  make_event set_to_list env cart cand_id cand_item accepted = inr e ->
  Event.cart_items e = cart
  /\ Event.candidate_item_id e = cand_id
  /\ Event.candidate_accepted e = accepted
  /\ event_of_session env e.
Proof.
  unfold make_event. intro Hm.
  apply ebind_inr in Hm. destruct Hm as (records & _ & Hm).
  apply ebind_inr in Hm. destruct Hm as (last_id & _ & Hm).
  apply ebind_inr in Hm. destruct Hm as (last_item & _ & Hm).
  injection Hm as <-. unfold event_of_session. simpl.
  repeat split; reflexivity.
Qed.

(** ** The candidate loop *)

Lemma candidate_loop_spec (env : SessionEnv) (p : Q) (noise : list string) :
  forall cands cart events g cart' events' g',
    candidate_loop set_to_list env p noise cands cart events g
    = inr ((cart', events'), g') ->
    exists new,
      events' = (events ++ new)%list
      /\ Forall2 (labelled env p noise)
                 (combine cands (uniforms (length cands) g)) new
      /\ cart_chain cart new cart'
      /\ Forall (event_of_session env) new.
Proof.
  induction cands as [|cand_id rest IH]; intros cart events g cart' events' g' Hrun.
  - simpl in Hrun. unfold ret in Hrun. injection Hrun as <- <- <-.
    exists []. rewrite app_nil_r. simpl. auto.
  - simpl in Hrun.
    apply bind_inr in Hrun as (item & g1 & Hitem & Hrun).
    apply lift_inr in Hitem as [Hitem ->].
    apply dict_index_inr in Hitem.
    apply bind_inr in Hrun as (u & g2 & Hu & Hrun).
    unfold rng_random in Hu. injection Hu as Hu.
    apply bind_inr in Hrun as (e & g3 & He & Hrun).
    apply lift_inr in He as [He ->].
    apply make_event_fields in He. destruct He as (Hc & Hid & Hacc & Hsess).
    apply IH in Hrun. destruct Hrun as (new & -> & Hlab & Hchain & Hall).
    exists (e :: new). rewrite <- app_assoc. simpl.
    rewrite Hu.
    repeat split; try assumption.
    + constructor; [|assumption].
      exists item. simpl. rewrite Hacc. auto.
    + rewrite Hacc, Hid. exact Hchain.
    + constructor; assumption.
Qed.

End SimulatorFacts.

(** ** Carts never repeat an item *)

Lemma nodupb_NoDup (l : list string) : nodupb l = true -> NoDup l.
Proof.
  induction l as [|x l IH]; simpl; intro Hb; constructor.
  - apply andb_prop in Hb. destruct Hb as [Hx _].
    apply negb_true_iff in Hx. now apply str_in_not_In.
  - apply andb_prop in Hb. tauto.
Qed.

Lemma template_get_cases (key : string) (t : MealTemplate.t) (l : list string) :
  template_get key t = Some l ->
  l = MealTemplate.anchors t \/ l = MealTemplate.complements t
  \/ l = MealTemplate.addons t \/ l = MealTemplate.finishers t.
Proof.
  unfold template_get.
  repeat match goal with
         | |- context [String.eqb key ?k] => destruct (String.eqb key k)
         end; intros [= <-]; auto.
Qed.

Lemma role_items_NoDup (t : MealTemplate.t) (role : string) :
  template_ok t = true -> NoDup (role_items_of t role).
Proof.
  unfold template_ok. intro Hok.
  repeat (apply andb_prop in Hok; destruct Hok as [Hok ?]).
  assert (Hall : forall key l, template_get key t = Some l -> NoDup l).
  { intros key l Hl.
    destruct (template_get_cases _ _ _ Hl) as [-> | [-> | [-> | ->]]];
      now apply nodupb_NoDup. }
  unfold role_items_of.
  destruct (template_get (role ++ "s") t) eqn:E1; [eauto|].
  destruct (template_get role t) eqn:E2; [eauto|]. constructor.
Qed.

Lemma uniforms_length {G} `{Generator G} (n : nat) (g : G) :
  length (uniforms n g) = n.
Proof.
  revert g. induction n as [|n IH]; intro g; simpl; [reflexivity|].
  destruct (random g) as [u g1]. simpl. now rewrite IH.
Qed.

Lemma labelled_candidates (env : SessionEnv) (p : Q) (noise : list string) :
  forall cands us new,
    length us = length cands ->
    Forall2 (labelled env p noise) (combine cands us) new ->
    map Event.candidate_item_id new = cands.
Proof.
  induction cands as [|c cands IH]; intros us new Hlen Hall.
  - simpl in Hall. inversion Hall. reflexivity.
  - destruct us as [|u us]; [discriminate|]. simpl in Hall.
    inversion Hall as [|cu e l l' Hce Hrest]; subst. simpl.
    destruct Hce as (item & _ & Hid & _). simpl in Hid. rewrite Hid.
    f_equal. apply (IH us); [simpl in Hlen; lia | assumption].
Qed.

(** Along a chain of snapshots whose candidates are distinct and absent
    from the starting cart, no event proposes an item of its own cart, and
    the cart only grows, by candidates, without ever repeating an item. *)
Lemma cart_chain_fresh :
  forall new cart cart',
    cart_chain cart new cart' ->
    NoDup (map Event.candidate_item_id new) ->
    (forall c, In c (map Event.candidate_item_id new) -> ~ In c cart) ->
    NoDup cart ->
    Forall fresh_candidate new
    /\ NoDup cart'
    /\ (exists added, cart' = (cart ++ added)%list
                      /\ incl added (map Event.candidate_item_id new)).
Proof.
  induction new as [|e new IH]; intros cart cart' Hchain Hnd Hout Hcart.
  - simpl in Hchain. subst. repeat split; [constructor | assumption |].
    exists []. rewrite app_nil_r. split; [reflexivity | intros x []].
  - simpl in Hchain. destruct Hchain as [Hsnap Hchain].
    simpl in Hnd. inversion Hnd as [|c l Hc Hnd']; subst c l.
    assert (Hfresh : ~ In (Event.candidate_item_id e) cart).
    { apply Hout. simpl. auto. }
    apply IH in Hchain; try assumption.
    + destruct Hchain as (Hall & Hnd1 & added & Hadd & Hincl).
      repeat split; try assumption.
      * constructor; [|assumption]. unfold fresh_candidate.
        rewrite Hsnap. auto.
      * destruct (Event.candidate_accepted e =? 1)%Z.
        -- exists (Event.candidate_item_id e :: added).
           rewrite Hadd, <- app_assoc. simpl. split; [reflexivity|].
           intros x [<- | Hx]; simpl; auto.
        -- exists added. split; [assumption|].
           intros x Hx. simpl. auto.
    + intros c Hin.
      destruct (Event.candidate_accepted e =? 1)%Z.
      * intro Hc'. apply in_app_or in Hc'. destruct Hc' as [Hc' | [<- | []]].
        -- revert Hc'. apply Hout. simpl. auto.
        -- contradiction.
      * apply Hout. simpl. auto.
    + destruct (Event.candidate_accepted e =? 1)%Z; [|assumption].
      apply NoDup_app; [assumption | repeat constructor; simpl; tauto |].
      intros x Hx [<- | []]. contradiction.
Qed.

Lemma cart_chain_app :
  forall n1 n2 c1 c2 c3,
    cart_chain c1 n1 c2 -> cart_chain c2 n2 c3 ->
    cart_chain c1 (n1 ++ n2)%list c3.
Proof.
  induction n1 as [|e n1 IH]; intros n2 c1 c2 c3 H1 H2; simpl in *.
  - now subst.
  - destruct H1 as [Hs H1]. split; [assumption|]. eapply IH; eauto.
Qed.

Section RoleLoopFacts.

Context {G : Type} `{GeneratorLaws G}.
Variable set_to_list : SetOrder.

Lemma rng_choice_noreplace_inv (a : list string) (size : Z) (g g1 : G)
    (noise : list string) :
  rng_choice_noreplace a size g = inr (noise, g1) ->
  (0 <= size <= Z.of_nat (length a))%Z
  /\ choice_noreplace a (Z.to_nat size) g = (noise, g1).
Proof.
  unfold rng_choice_noreplace.
  destruct (size <? 0)%Z eqn:E1; [discriminate|].
  destruct (Z.of_nat (length a) <? size)%Z eqn:E2; [discriminate|].
  intros [= E]. split; [lia | assumption].
Qed.

(** The noise candidates of a role: distinct items of the population, as
    many as asked for. *)
Lemma noise_candidates_spec (a : list string) (size : Z) (g g1 : G)
    (noise : list string) :
  NoDup a ->
  rng_choice_noreplace a size g = inr (noise, g1) ->
  NoDup noise /\ incl noise a /\ length noise = Z.to_nat size.
Proof.
  intros Hnd Hrun. apply rng_choice_noreplace_inv in Hrun.
  destruct Hrun as [Hsize Hrun].
  assert (Hle : (Z.to_nat size <= length a)%nat) by lia.
  pose proof (choice_noreplace_NoDup a (Z.to_nat size) g Hnd Hle) as H1.
  pose proof (choice_noreplace_incl a (Z.to_nat size) g Hle) as H2.
  pose proof (choice_noreplace_length a (Z.to_nat size) g Hle) as H3.
  rewrite Hrun in H1, H2, H3. simpl in H1, H2, H3. auto.
Qed.

Lemma role_step_inv (env : SessionEnv) (role : string) (cart : list string)
    (events : list Event.t) (g : G) (cart' : list string)
    (events' : list Event.t) (g' : G) :
  role_step set_to_list env role cart events g = inr ((cart', events'), g') ->
  (role_items_of (env_template env) role = []
   /\ cart' = cart /\ events' = events /\ g' = g)
  \/ (role_items_of (env_template env) role <> []
      /\ exists p noise g1,
          let valid := valid_candidates_of (env_item_lookup env)
                         (role_items_of (env_template env) role) cart in
          role_accept_prob (env_template env) role (env_user env)
                           (env_timestamp env) = inr p
          /\ rng_choice_noreplace
               (noise_population (env_all_item_ids env) cart valid)
               (noise_size (env_all_item_ids env) cart valid) g
             = inr (noise, g1)
          /\ candidate_loop set_to_list env p noise (valid ++ noise)%list
                            cart events g1
             = inr ((cart', events'), g')).
Proof.
  unfold role_step.
  destruct (role_items_of (env_template env) role) as [|r0 items] eqn:Eitems.
  - simpl. intros [= -> -> ->]. left. auto.
  - simpl is_nil. cbv iota. intro Hrun. right. split; [discriminate|].
    apply bind_inr in Hrun as (p & g0 & Hp & Hrun).
    apply lift_inr in Hp as [Hp ->].
    apply bind_inr in Hrun as (noise & g1 & Hnoise & Hrun).
    exists p, noise, g1. auto.
Qed.

(** The candidates of a role are distinct and none of them is in the cart
    the role starts from. *)
Lemma role_candidates_fresh (all_item_ids role_items cart : list string)
    (item_lookup : dict MenuItem.t) (g g1 : G) (noise : list string) :
  NoDup all_item_ids -> NoDup role_items ->
  let valid := valid_candidates_of item_lookup role_items cart in
  rng_choice_noreplace (noise_population all_item_ids cart valid)
                       (noise_size all_item_ids cart valid) g
  = inr (noise, g1) ->
  NoDup (valid ++ noise)%list
  /\ (forall c, In c (valid ++ noise)%list -> ~ In c cart)
  /\ (forall c, In c noise -> ~ In c valid).
Proof.
  intros Hall Hitems valid Hrun.
  apply noise_candidates_spec in Hrun;
    [|unfold noise_population; now apply NoDup_filter].
  destruct Hrun as (Hnd & Hincl & _).
  assert (Hpop : forall c, In c noise -> ~ In c cart /\ ~ In c valid).
  { intros c Hc. apply Hincl in Hc. unfold noise_population in Hc.
    apply filter_In in Hc. destruct Hc as [_ Hc].
    apply andb_prop in Hc. destruct Hc as [H1 H2].
    apply negb_true_iff in H1, H2.
    split; now apply str_in_not_In. }
  assert (Hval : forall c, In c valid -> ~ In c cart).
  { intros c Hc. unfold valid, valid_candidates_of in Hc.
    apply filter_In in Hc. destruct Hc as [_ Hc].
    apply andb_prop in Hc. destruct Hc as [_ Hc].
    apply negb_true_iff in Hc. now apply str_in_not_In. }
  repeat split.
  - apply NoDup_app; [now apply NoDup_filter | assumption |].
    intros c Hv Hn. now apply (Hpop c Hn).
  - intros c Hc. apply in_app_or in Hc. destruct Hc as [Hc | Hc].
    + now apply Hval.
    + now apply Hpop.
  - intros c Hc. now apply Hpop.
Qed.

Lemma role_step_fresh (env : SessionEnv) (role : string) (cart : list string)
    (events : list Event.t) (g : G) (cart' : list string)
    (events' : list Event.t) (g' : G) :
  NoDup (env_all_item_ids env) ->
  template_ok (env_template env) = true ->
  NoDup cart ->
  role_step set_to_list env role cart events g = inr ((cart', events'), g') ->
  exists new,
    events' = (events ++ new)%list
    /\ Forall fresh_candidate new
    /\ Forall (event_of_session env) new
    /\ NoDup cart'
    /\ cart_chain cart new cart'.
Proof.
  intros Hall Hok Hcart Hrun.
  apply role_step_inv in Hrun.
  destruct Hrun as [(_ & -> & -> & ->) | (_ & p & noise & g1 & Hp & Hnoise & Hloop)].
  - exists []. rewrite app_nil_r. repeat split; auto.
  - apply candidate_loop_spec in Hloop.
    destruct Hloop as (new & -> & Hlab & Hchain & Hsess).
    apply labelled_candidates in Hlab; [|apply uniforms_length].
    apply role_candidates_fresh in Hnoise;
      [|assumption | now apply role_items_NoDup].
    destruct Hnoise as (Hnd & Hout & _).
    pose proof Hchain as Hchain'.
    apply cart_chain_fresh in Hchain'; try assumption; rewrite ?Hlab; try assumption.
    destruct Hchain' as (Hfresh & Hnd' & _).
    exists new. repeat split; eauto.
Qed.

Lemma roles_loop_fresh (env : SessionEnv) :
  NoDup (env_all_item_ids env) ->
  template_ok (env_template env) = true ->
  forall roles cart events g cart' events' g',
    NoDup cart ->
    roles_loop set_to_list env roles cart events g = inr ((cart', events'), g') ->
    exists new,
      events' = (events ++ new)%list
      /\ Forall fresh_candidate new
      /\ Forall (event_of_session env) new
      /\ NoDup cart'
      /\ cart_chain cart new cart'.
Proof.
  intros Hall Hok.
  induction roles as [|role roles IH]; intros cart events g cart' events' g' Hcart Hrun.
  - simpl in Hrun. unfold ret in Hrun. injection Hrun as <- <- <-.
    exists []. rewrite app_nil_r. repeat split; auto.
  - simpl in Hrun.
    apply bind_inr in Hrun as ([cart1 events1] & g1 & Hstep & Hrun).
    apply role_step_fresh in Hstep; try assumption.
    destruct Hstep as (new1 & -> & Hf1 & Hs1 & Hnd1 & Hc1).
    apply IH in Hrun; [|assumption].
    destruct Hrun as (new2 & -> & Hf2 & Hs2 & Hnd2 & Hc2).
    exists (new1 ++ new2)%list. rewrite !app_assoc.
    repeat split; try assumption.
    + apply Forall_app. auto.
    + apply Forall_app. auto.
    + eapply cart_chain_app; eauto.
Qed.

End RoleLoopFacts.

(** ** The abandonment override *)

Lemma set_is_abandoned_same (v : Z) (e : Event.t) :
  same_but_is_abandoned e (Event.set_is_abandoned v e)
  /\ Event.is_abandoned (Event.set_is_abandoned v e) = v.
Proof. unfold same_but_is_abandoned. simpl. repeat split; reflexivity. Qed.

Lemma mark_last_abandoned_app (front : list Event.t) (e : Event.t) :
  mark_last_abandoned (front ++ [e])%list
  = (front ++ [Event.set_is_abandoned 1 e])%list.
Proof.
  induction front as [|x front IH]; [reflexivity|].
  destruct front as [|f front]; [reflexivity|].
  change (mark_last_abandoned ((x :: f :: front) ++ [e])%list)
    with (x :: mark_last_abandoned ((f :: front) ++ [e])%list).
  rewrite IH. reflexivity.
Qed.

Lemma list_last_cases {A} (l : list A) :
  l = [] \/ exists front x, l = (front ++ [x])%list.
Proof.
  destruct l as [|a l]; [now left|]. right.
  destruct (@exists_last A (a :: l)) as (front & x & E); [discriminate|].
  eauto.
Qed.

(** The override either leaves the list as it is, or replaces its last
    event by the same event with ["is_abandoned"] set to 1. *)
Lemma abandon_override_cases (u : Q) (events : list Event.t) :
  (abandon_override u events = events
   /\ (Qltb u 0.05 = false \/ events = []))
  \/ (Qltb u 0.05 = true
      /\ exists front e,
          events = (front ++ [e])%list
          /\ abandon_override u events
             = (front ++ [Event.set_is_abandoned 1 e])%list).
Proof.
  unfold abandon_override.
  destruct (Qltb u 0.05); simpl; [|left; auto].
  destruct (list_last_cases events) as [-> | (front & e & ->)].
  - simpl. left. auto.
  - right. split; [reflexivity|]. exists front, e.
    rewrite length_app. simpl.
    replace (0 <? length front + 1)%nat with true
      by (symmetry; apply Nat.ltb_lt; lia).
    split; [reflexivity | apply mark_last_abandoned_app].
Qed.

Lemma abandon_override_Forall (P : Event.t -> Prop) (u : Q)
    (events : list Event.t) :
  (forall v e, P e -> P (Event.set_is_abandoned v e)) ->
  Forall P events -> Forall P (abandon_override u events).
Proof.
  intros Hset Hall.
  destruct (abandon_override_cases u events)
    as [[-> _] | (_ & front & e & -> & ->)]; [assumption|].
  apply Forall_app in Hall. destruct Hall as [Hfront He].
  apply Forall_app. split; [assumption|].
  inversion He; subst. constructor; auto.
Qed.

(** ** The body of a session *)

Section SessionFacts.

Context {G : Type} `{GeneratorLaws G}.
Variable set_to_list : SetOrder.

Lemma add_days_inr (dt : datetime.t) (d : Z) (base : datetime.t) :
  datetime.add_days dt d = inr base ->
  base = datetime.shift dt d /\ datetime.in_range dt d = true.
Proof.
  unfold datetime.add_days, datetime.timedelta_days, datetime.in_range.
  destruct (Z.abs d <=? 999999999)%Z; [|discriminate].
  destruct ((datetime.MINORDINAL <=? datetime.ordinal dt + d)%Z
            && (datetime.ordinal dt + d <=? datetime.MAXORDINAL)%Z) eqn:E;
    [|discriminate].
  intros [= <-]. split; [reflexivity|].
  apply andb_prop in E as [E1 E2]. now rewrite E1, E2.
Qed.

Lemma add_days_in_range (dt : datetime.t) (d : Z) :
  datetime.in_range dt d = true ->
  datetime.add_days dt d = inr (datetime.shift dt d).
Proof.
  unfold datetime.add_days, datetime.timedelta_days, datetime.in_range.
  intro Hr. apply andb_prop in Hr as [Hr H3]. apply andb_prop in Hr as [H1 H2].
  now rewrite H1, H2, H3.
Qed.

Lemma add_days_out_of_range (dt : datetime.t) (d : Z) :
  datetime.in_range dt d = false ->
  exists msg, datetime.add_days dt d = inl (OverflowError msg).
Proof.
  unfold datetime.add_days, datetime.timedelta_days, datetime.in_range.
  destruct (Z.abs d <=? 999999999)%Z; [|eauto].
  simpl. intros ->. eauto.
Qed.

Lemma choose_template_inv (item_lookup : dict MenuItem.t)
    (user : UserProfile.t) (meal_time name : string) (t : MealTemplate.t)
    (g g' : G) :
  choose_template item_lookup user meal_time g = inr ((name, t), g') ->
  dict_get name MEAL_TEMPLATES = Some t.
Proof.
  unfold choose_template. intro Hrun.
  apply bind_inr in Hrun as (w & g1 & _ & Hrun).
  apply bind_inr in Hrun as (ps & g2 & _ & Hrun).
  apply bind_inr in Hrun as (chosen & g3 & _ & Hrun).
  apply bind_inr in Hrun as (t' & g4 & Ht & Hrun).
  apply lift_inr in Ht as [Ht ->].
  unfold ret in Hrun. injection Hrun as <- <- <-.
  now apply dict_index_inr.
Qed.

Lemma session_prelude_inv (item_lookup : dict MenuItem.t)
    (start_date : datetime.t) (user : UserProfile.t) (day_offset : Z)
    (ts : datetime.t) (mt name : string) (t : MealTemplate.t) (g g' : G) :
  session_prelude item_lookup start_date user day_offset g
  = inr ((ts, mt, name, t), g') ->
  dict_get name MEAL_TEMPLATES = Some t
  /\ mt = _get_meal_time (datetime.hour ts).
Proof.
  unfold session_prelude. intro Hrun.
  apply bind_inr in Hrun as (base & g0 & _ & Hrun).
  apply bind_inr in Hrun as (ts' & g1 & _ & Hrun).
  apply bind_inr in Hrun as ([name' t'] & g2 & Hch & Hrun).
  unfold ret in Hrun. injection Hrun as <- <- <- <- <-.
  split; [eapply choose_template_inv; eauto | reflexivity].
Qed.

(** A session either stops at the anchor check, leaving [events] as it
    was, or selects an anchor, runs the role loop from the one-item cart
    and ends with the override. *)
Lemma session_inv (item_lookup : dict MenuItem.t) (all_item_ids : list string)
    (start_date : datetime.t) (user : UserProfile.t) (day_offset : Z)
    (events : list Event.t) (session_counter : nat) (g : G)
    (events' : list Event.t) (counter' : nat) (g' : G) :
  session set_to_list item_lookup all_item_ids start_date user day_offset
          events session_counter g
  = inr ((events', counter'), g') ->
  counter' = S session_counter
  /\ exists ts mt name t g1,
      session_prelude item_lookup start_date user day_offset g
      = inr ((ts, mt, name, t), g1)
      /\ ((valid_anchors item_lookup t = [] /\ events' = events /\ g' = g1)
          \/ (valid_anchors item_lookup t <> []
              /\ exists anchor_id g2 cart' events1 g3,
                  select_anchor item_lookup user
                                (valid_anchors item_lookup t) g1
                  = inr (anchor_id, g2)
                  /\ roles_loop set_to_list
                       (session_env item_lookup all_item_ids
                          (S session_counter) user ts mt name t
                          (Qltb (fst (random g2)) 0.08))
                       ROLES [anchor_id] events (snd (random g2))
                     = inr ((cart', events1), g3)
                  /\ events' = abandon_override (fst (random g3)) events1
                  /\ g' = snd (random g3))).
Proof.
  unfold session. intro Hrun.
  apply bind_inr in Hrun as ([[[ts mt] name] t] & g1 & Hpre & Hrun).
  destruct (valid_anchors item_lookup t) as [|a0 valid] eqn:Evalid.
  - simpl in Hrun. unfold ret in Hrun. injection Hrun as <- <- <-.
    split; [reflexivity|]. exists ts, mt, name, t, g1. split; [assumption|].
    left. auto.
  - simpl is_nil in Hrun. cbv iota in Hrun.
    apply bind_inr in Hrun as (anchor_id & g2 & Hanchor & Hrun).
    apply bind_inr in Hrun as (u1 & g3 & Hu1 & Hrun).
    unfold rng_random in Hu1. injection Hu1 as Hu1.
    apply bind_inr in Hrun as ([cart' events1] & g4 & Hroles & Hrun).
    apply bind_inr in Hrun as (u2 & g5 & Hu2 & Hrun).
    unfold rng_random in Hu2. injection Hu2 as Hu2.
    unfold ret in Hrun. injection Hrun as <- <- <-.
    split; [reflexivity|]. exists ts, mt, name, t, g1. split; [assumption|].
    right. rewrite Evalid. split; [discriminate|].
    exists anchor_id, g2, cart', events1, g4.
    rewrite Hu1, Hu2. simpl. unfold session_env. auto.
Qed.

End SessionFacts.

(** ** Invariants of a whole run *)

Section RunFacts.

Context {G : Type} `{GeneratorLaws G}.
Variable set_to_list : SetOrder.

(** A property of [events] that every session preserves holds of the
    output of the two outer loops. *)
Lemma sessions_loop_invariant (P : list Event.t -> Prop)
    (item_lookup : dict MenuItem.t) (all_item_ids : list string)
    (start_date : datetime.t) (user : UserProfile.t) :
  (forall day_offset events c g events' c' g',
      P events ->
      session set_to_list item_lookup all_item_ids start_date user day_offset
              events c g = inr ((events', c'), g') ->
      P events') ->
  forall order_dates events c g events' c' g',
    P events ->
    sessions_loop set_to_list item_lookup all_item_ids start_date user
                  order_dates events c g = inr ((events', c'), g') ->
    P events'.
Proof.
  intro Hstep.
  induction order_dates as [|d rest IH]; intros events c g events' c' g' HP Hrun.
  - simpl in Hrun. unfold ret in Hrun. injection Hrun as <- <- <-. assumption.
  - simpl in Hrun.
    apply bind_inr in Hrun as ([events1 c1] & g1 & Hs & Hrun).
    eapply IH; [|exact Hrun]. eapply Hstep; eauto.
Qed.

Lemma users_loop_invariant (P : list Event.t -> Prop)
    (item_lookup : dict MenuItem.t) (all_item_ids : list string)
    (n_days : Z) (start_date : datetime.t) :
  (forall user day_offset events c g events' c' g',
      P events ->
      session set_to_list item_lookup all_item_ids start_date user day_offset
              events c g = inr ((events', c'), g') ->
      P events') ->
  forall users events c g events' c' g',
    P events ->
    users_loop set_to_list item_lookup all_item_ids n_days start_date users
               events c g = inr ((events', c'), g') ->
    P events'.
Proof.
  intro Hstep.
  induction users as [|user rest IH]; intros events c g events' c' g' HP Hrun.
  - simpl in Hrun. unfold ret in Hrun. injection Hrun as <- <- <-. assumption.
  - simpl in Hrun.
    apply bind_inr in Hrun as (dates & g1 & _ & Hrun).
    apply bind_inr in Hrun as ([events1 c1] & g2 & Hs & Hrun).
    eapply IH; [|exact Hrun].
    eapply sessions_loop_invariant; [|exact HP|exact Hs].
    intros. eapply Hstep; eauto.
Qed.

Lemma generate_sessions_invariant (P : list Event.t -> Prop)
    (users : list UserProfile.t) (catalog : list MenuItem.t) (n_days : Z)
    (start_date : datetime.t) (rng : option G) (events : list Event.t) :
  (forall user day_offset events c g events' c' g',
      P events ->
      session set_to_list (build_item_lookup catalog)
              (dict_keys (build_item_lookup catalog)) start_date user
              day_offset events c g = inr ((events', c'), g') ->
      P events') ->
  P [] ->
  generate_sessions set_to_list users catalog n_days start_date rng
  = inr events ->
  P events.
Proof.
  intros Hstep Hnil. unfold generate_sessions.
  destruct (users_loop _ _ _ _ _ _ _ _ _) as [e | [[events' c'] g']] eqn:Hrun;
    [discriminate|].
  intros [= <-].
  eapply users_loop_invariant; [exact Hstep | exact Hnil | exact Hrun].
Qed.

Lemma fresh_candidate_set (v : Z) (e : Event.t) :
  fresh_candidate e -> fresh_candidate (Event.set_is_abandoned v e).
Proof. unfold fresh_candidate. simpl. auto. Qed.

(** What one completed session appends: events with fresh candidates whose
    snapshots chain up from the one-item cart of the anchor. *)
Lemma session_cart (catalog : list MenuItem.t) (start_date : datetime.t)
    (user : UserProfile.t) (day_offset : Z) (events : list Event.t)
    (c : nat) (g : G) (events' : list Event.t) (c' : nat) (g' : G) :
  let item_lookup := build_item_lookup catalog in
  session set_to_list item_lookup (dict_keys item_lookup) start_date user
          day_offset events c g = inr ((events', c'), g') ->
  events' = events
  \/ exists anchor_id new cart' u,
      events' = abandon_override u (events ++ new)%list
      /\ Forall fresh_candidate new
      /\ NoDup cart'
      /\ cart_chain [anchor_id] new cart'.
Proof.
  intros item_lookup Hrun.
  apply session_inv in Hrun.
  destruct Hrun as (_ & ts & mt & name & t & g1 & Hpre & Hcases).
  destruct Hcases as [(_ & -> & _) | (_ & anchor & g2 & cart' & events1 & g3
                                      & _ & Hroles & -> & _)]; [now left|].
  right.
  apply session_prelude_inv in Hpre. destruct Hpre as [Ht _].
  apply roles_loop_fresh in Hroles.
  - destruct Hroles as (new & -> & Hfresh & _ & Hnd & Hchain).
    exists anchor, new, cart', (fst (random g3)). auto.
  - simpl. apply build_item_lookup_NoDup.
  - simpl. eapply MEAL_TEMPLATES_ok; eauto.
  - repeat constructor. simpl. tauto.
Qed.

Lemma session_fresh (catalog : list MenuItem.t) (start_date : datetime.t)
    (user : UserProfile.t) (day_offset : Z) (events : list Event.t)
    (c : nat) (g : G) (events' : list Event.t) (c' : nat) (g' : G) :
  Forall fresh_candidate events ->
  session set_to_list (build_item_lookup catalog)
          (dict_keys (build_item_lookup catalog)) start_date user
          day_offset events c g = inr ((events', c'), g') ->
  Forall fresh_candidate events'.
Proof.
  intros Hall Hrun. apply session_cart in Hrun.
  destruct Hrun as [-> | (anchor & new & cart' & u & -> & Hfresh & _)];
    [assumption|].
  apply abandon_override_Forall; [apply fresh_candidate_set|].
  apply Forall_app. auto.
Qed.

(** C3. In the output of [generate_sessions], no event proposes an item
    that is in the cart snapshot it carries, and no snapshot holds an
    item twice.  Within a session the cart is only appended to: the
    snapshots of its events chain up from the one-item cart of the
    anchor, each next snapshot being the previous one, extended by the
    previous candidate exactly when that candidate was accepted, and the
    cart the session ends with holds no item twice. *)
Theorem candidate_never_in_cart
    (users : list UserProfile.t) (catalog : list MenuItem.t) (n_days : Z)
    (start_date : datetime.t) (rng : option G) :
  (forall events,
      generate_sessions set_to_list users catalog n_days start_date rng
      = inr events ->
      Forall (fun e => ~ In (Event.candidate_item_id e) (Event.cart_items e)
                       /\ NoDup (Event.cart_items e)) events)
  /\ (forall user day_offset events c g events' c' g',
        session set_to_list (build_item_lookup catalog)
                (dict_keys (build_item_lookup catalog)) start_date user
                day_offset events c g = inr ((events', c'), g') ->
        events' = events
        \/ exists anchor_id new cart' u,
            events' = abandon_override u (events ++ new)%list
            /\ cart_chain [anchor_id] new cart'
            /\ NoDup cart').
Proof.
  split.
  - intros events Hrun.
    apply (generate_sessions_invariant (Forall fresh_candidate)) in Hrun.
    + exact Hrun.
    + intros user day_offset ev c g ev' c' g' Hall Hs.
      eapply session_fresh; eauto.
    + constructor.
  - intros user day_offset events c g events' c' g' Hrun.
    apply session_cart in Hrun.
    destruct Hrun as [-> | (anchor & new & cart' & u & -> & _ & Hnd & Hchain)];
      [now left|].
    right. exists anchor, new, cart', u. auto.
Qed.

End RunFacts.

(** ** The tape generator meets the generator laws *)

Lemma pick_cdf_In (a : list string) :
  a <> [] -> forall p u, In (pick_cdf a p u) a.
Proof.
  induction a as [|x a IH]; [congruence|]. intros _ p u.
  destruct a as [|y a]; [simpl; auto|].
  change (pick_cdf (x :: y :: a) p u)
    with (match p with
          | [] => x
          | q :: p' => if Qltb u q then x else pick_cdf (y :: a) p' (u - q)
          end).
  destruct p as [|q p]; [simpl; auto|].
  destruct (Qltb u q); [simpl; auto|].
  right. apply IH. discriminate.
Qed.

Lemma nth_decompose (i : nat) (a : list string) :
  (i < length a)%nat ->
  a = (firstn i a ++ nth i a "" :: skipn (S i) a)%list.
Proof.
  revert a. induction i as [|i IH]; intros [|x a] Hi; simpl in Hi; try lia.
  - reflexivity.
  - simpl. f_equal. apply IH. lia.
Qed.

Lemma pick_index_lt (u : Q) (a : list string) :
  a <> [] -> (pick_index u a < length a)%nat.
Proof.
  intro Ha. unfold pick_index. destruct a; [congruence|]. simpl length. lia.
Qed.

Lemma tape_choice_noreplace_S (k : nat) (l : list string) (g : tape) :
  l <> [] ->
  tape_choice_noreplace l (S k) g
  = (let (u, g') := tape_next g in
     let i := pick_index u l in
     let (r, g'') :=
       tape_choice_noreplace (firstn i l ++ skipn (S i) l)%list k g' in
     (nth i l "" :: r, g'')).
Proof. destruct l; [congruence | reflexivity]. Qed.

Lemma tape_choice_noreplace_spec :
  forall size a g,
    (size <= length a)%nat ->
    length (fst (tape_choice_noreplace a size g)) = size
    /\ incl (fst (tape_choice_noreplace a size g)) a
    /\ (NoDup a -> NoDup (fst (tape_choice_noreplace a size g))).
Proof.
  induction size as [|k IH]; intros a g Hle.
  - simpl. repeat split; [intros x [] | constructor].
  - assert (Hl : a <> []) by (destruct a; [simpl in Hle; lia | discriminate]).
    rename a into l.
    rewrite (tape_choice_noreplace_S k l g Hl).
    destruct (tape_next g) as [u g1]. cbv zeta.
    pose proof (pick_index_lt u l Hl) as Hi.
    set (i := pick_index u l) in *.
    pose proof (nth_decompose i l Hi) as Hdec.
    set (rest := (firstn i l ++ skipn (S i) l)%list) in *.
    assert (Hlen : length l = S (length rest)).
    { rewrite Hdec at 1. unfold rest. rewrite !length_app. simpl. lia. }
    assert (Hk : (k <= length rest)%nat) by lia.
    specialize (IH rest g1 Hk).
    destruct (tape_choice_noreplace rest k g1) as [r g2]. simpl in IH |- *.
    destruct IH as (IHlen & IHincl & IHnd).
    assert (Hrest : incl rest l).
    { intros y Hy. rewrite Hdec. unfold rest in Hy.
      apply in_app_or in Hy. apply in_or_app. simpl. tauto. }
    repeat split.
    + now rewrite IHlen.
    + intros y [<- | Hy].
      * apply nth_In. exact Hi.
      * apply Hrest, IHincl, Hy.
    + intro Hnd. rewrite Hdec in Hnd. apply NoDup_remove in Hnd.
      destruct Hnd as [Hnd Hnotin]. fold rest in Hnd, Hnotin.
      constructor; [|now apply IHnd].
      intro Hin. apply Hnotin, IHincl, Hin.
Qed.

#[export] Instance TapeGenLaws : GeneratorLaws tape.
Proof.
  constructor.
  - intros a p g Ha. simpl. unfold tape_choice_p.
    destruct (tape_next g) as [u g1]. simpl. now apply pick_cdf_In.
  - intros a size g Hnd Hle. now apply tape_choice_noreplace_spec.
  - intros a size g Hle. now apply tape_choice_noreplace_spec.
  - intros a size g Hle. now apply tape_choice_noreplace_spec.
Qed.

(** ** The acceptance model, per role *)

Lemma Forall2_nth_error {A B} (R : A -> B -> Prop) :
  forall l l' i x y,
    Forall2 R l l' ->
    nth_error l i = Some x -> nth_error l' i = Some y -> R x y.
Proof.
  induction l as [|a l IH]; intros l' i x y HF Hx Hy.
  - destruct i; discriminate.
  - inversion HF as [|a' b l0 l0' Hab Hrest]; subst.
    destruct i as [|i]; simpl in Hx, Hy.
    + injection Hx as <-. injection Hy as <-. assumption.
    + eapply IH; eauto.
Qed.

Lemma nth_error_combine {A B} :
  forall (l : list A) (l' : list B) i x y,
    nth_error l i = Some x -> nth_error l' i = Some y ->
    nth_error (combine l l') i = Some (x, y).
Proof.
  induction l as [|a l IH]; intros l' i x y Hx Hy.
  - destruct i; discriminate.
  - destruct l' as [|b l']; [destruct i; discriminate|].
    destruct i as [|i]; simpl in *.
    + congruence.
    + auto.
Qed.

Section AcceptanceFacts.

Context {G : Type} `{GeneratorLaws G}.
Variable set_to_list : SetOrder.

(** The events of one entered role, candidate by candidate. *)
Lemma role_step_trace (env : SessionEnv) (role : string) (cart : list string)
    (events : list Event.t) (g : G) (cart' : list string)
    (events' : list Event.t) (g' : G) :
  role_step set_to_list env role cart events g = inr ((cart', events'), g') ->
  role_items_of (env_template env) role <> [] ->
  let valid := valid_candidates_of (env_item_lookup env)
                 (role_items_of (env_template env) role) cart in
  exists p noise g1 new,
    role_accept_prob (env_template env) role (env_user env) (env_timestamp env)
    = inr p
    /\ rng_choice_noreplace
         (noise_population (env_all_item_ids env) cart valid)
         (noise_size (env_all_item_ids env) cart valid) g
       = inr (noise, g1)
    /\ events' = (events ++ new)%list
    /\ Forall2 (labelled env p noise)
               (combine (valid ++ noise)%list
                        (uniforms (length (valid ++ noise)%list) g1))
               new.
Proof.
  intros Hrun Hitems valid. apply role_step_inv in Hrun.
  destruct Hrun as [(Hnil & _) | (_ & p & noise & g1 & Hp & Hnoise & Hloop)];
    [contradiction|].
  apply candidate_loop_spec in Hloop.
  destruct Hloop as (new & -> & Hlab & _).
  exists p, noise, g1, new. auto.
Qed.

(** C1. In a role's loop over [valid_candidates + noise_candidates], the
    [i]-th event carries the [i]-th candidate, and its label is 1 exactly
    when the [i]-th uniform sample is below the candidate's acceptance
    probability.  That probability is the role's [accept_prob] times, in
    this order, 0.08 for a noise candidate (one listed after the
    template's candidates), 0.6 for a veg item when veg_preference < 0.3,
    0.05 for a non-veg item when veg_preference > 0.7, 0.4 when
    price > 200 and price_sensitivity > 0.7, and 0.15 when the meal time
    is not among the item's meal times. *)
Theorem candidate_acceptance_rules (env : SessionEnv) (role : string)
    (cart : list string) (events : list Event.t) (g : G)
    (cart' : list string) (events' : list Event.t) (g' : G) :
  role_step set_to_list env role cart events g = inr ((cart', events'), g') ->
  role_items_of (env_template env) role <> [] ->
  let valid := valid_candidates_of (env_item_lookup env)
                 (role_items_of (env_template env) role) cart in
  exists p noise g1 new,
    role_accept_prob (env_template env) role (env_user env) (env_timestamp env)
    = inr p
    /\ rng_choice_noreplace
         (noise_population (env_all_item_ids env) cart valid)
         (noise_size (env_all_item_ids env) cart valid) g
       = inr (noise, g1)
    /\ events' = (events ++ new)%list
    /\ length new = length (valid ++ noise)%list
    /\ forall i cand_id u e,
        nth_error (valid ++ noise)%list i = Some cand_id ->
        nth_error (uniforms (length (valid ++ noise)%list) g1) i = Some u ->
        nth_error new i = Some e ->
        exists cand_item cand_accept,
          dict_get cand_id (env_item_lookup env) = Some cand_item
          /\ Event.candidate_item_id e = cand_id
          /\ cand_accept
             == spec_accept_prob p (length valid <=? i)%nat cand_item
                                 (env_user env) (env_meal_time env)
          /\ Event.candidate_accepted e
             = (if Qltb u cand_accept then 1 else 0)%Z.
Proof.
  intros Hrun Hitems valid.
  destruct (role_step_trace env role cart events g cart' events' g' Hrun Hitems)
    as (p & noise & g1 & new & Hp & Hnoise & Hev & Hlab).
  fold valid in Hnoise, Hlab.
  exists p, noise, g1, new. repeat split; try assumption.
  - apply Forall2_length in Hlab. rewrite <- Hlab, length_combine.
    rewrite uniforms_length. lia.
  - intros i cand_id u e Hc Hu He.
    pose proof (Forall2_nth_error _ _ _ i _ _ Hlab
                  (nth_error_combine _ _ i _ _ Hc Hu) He) as Hce.
    destruct Hce as (item & Hitem & Hid & Hacc). simpl in Hitem, Hid, Hacc.
    exists item.
    exists (candidate_accept_prob p cand_id item noise (env_user env)
                                  (env_meal_time env)).
    repeat split; try assumption.
    rewrite candidate_accept_prob_spec.
    assert (Hflag : str_in cand_id noise = (length valid <=? i)%nat).
    { apply rng_choice_noreplace_inv in Hnoise.
      destruct Hnoise as [Hsize Hnoise].
      assert (Hincl : incl noise
                (noise_population (env_all_item_ids env) cart valid)).
      { pose proof (choice_noreplace_incl
                      (noise_population (env_all_item_ids env) cart valid)
                      (Z.to_nat (noise_size (env_all_item_ids env) cart valid))
                      g) as Hi.
        rewrite Hnoise in Hi. apply Hi. lia. }
      destruct (Nat.leb_spec (length valid) i) as [Hge | Hlt].
      - rewrite nth_error_app2 in Hc by assumption.
        apply nth_error_In in Hc. now apply str_in_In.
      - rewrite nth_error_app1 in Hc by assumption.
        apply nth_error_In in Hc. apply str_in_not_In. intro Hn.
        apply Hincl in Hn. unfold noise_population in Hn.
        apply filter_In in Hn. destruct Hn as [_ Hn].
        apply andb_prop in Hn. destruct Hn as [_ Hn].
        apply negb_true_iff, str_in_not_In in Hn. contradiction. }
    rewrite Hflag. reflexivity.
Qed.


End AcceptanceFacts.

(** C6. For a template of [MEAL_TEMPLATES], the probability a candidate's
    label is drawn against lies in [0, 0.95]: the role's [accept_prob] is
    in that range, and the modifiers, all factors between 0 and 1, only
    lower it, so no final clamp is needed. *)
Theorem acceptance_probability_bounded (name : string)
    (template : MealTemplate.t) (role : string) (user : UserProfile.t)
    (timestamp : datetime.t) (p : Q) (cand_id : string)
    (cand_item : MenuItem.t) (noise : list string) (meal_time : string) :
  dict_get name MEAL_TEMPLATES = Some template ->
  role_accept_prob template role user timestamp = inr p ->
  let cand_accept :=
    candidate_accept_prob p cand_id cand_item noise user meal_time in
  0 <= p <= 0.95
  /\ 0 <= cand_accept <= 0.95
  /\ cand_accept <= p.
Proof.
  intros Ht Hp cand_accept.
  assert (Hbase : 0 <= dict_get_default role 0.3
                         (MealTemplate.completion_prob template)).
  { apply MEAL_TEMPLATES_ok in Ht. unfold template_ok in Ht.
    repeat (apply andb_prop in Ht; destruct Ht as [Ht ?]).
    match goal with
    | Hf : forallb (fun kv => Qle_bool 0 (snd kv) && _) _ = true |- _ =>
        rewrite forallb_forall in Hf; rename Hf into Hrange
    end.
    unfold dict_get_default.
    destruct (dict_get role (MealTemplate.completion_prob template)) as [v|] eqn:E;
      [|lra].
    pose proof (dict_get_In _ _ _ E) as Hin.
    apply Hrange in Hin. simpl in Hin. apply andb_prop in Hin.
    destruct Hin as [Hin _]. now apply Qle_bool_iff in Hin. }
  destruct (role_accept_prob_inv _ _ _ _ _ Hp) as (m & Hm & Hpm).
  assert (Hm0 : 0 <= m).
  { destruct (segment_multiplier_cases _ _ Hm) as [[_ ->] | [[_ ->] | [_ ->]]]; lra. }
  assert (Hp95 : 0 <= p <= 0.95).
  { rewrite Hpm. unfold spec_role_prob. split; [|apply py_min_le_l].
    apply py_min_glb; [lra|].
    apply Qmult_le_0_compat; [apply Qmult_le_0_compat; assumption|].
    destruct (5 <=? datetime.weekday timestamp)%Z; lra. }
  pose proof (candidate_accept_prob_bounds p cand_id cand_item noise user
                meal_time Hp95) as [Hlo Hhi].
  fold cand_accept in Hlo, Hhi. repeat split; lra.
Qed.

(** ** Normalised weights are a probability vector *)

Lemma fold_left_Qplus (l : list Q) (a : Q) :
  fold_left Qplus l a == a + Qsum l.
Proof.
  unfold Qsum. revert a. induction l as [|x l IH]; intro a; simpl.
  - ring.
  - rewrite (IH (a + x)), (IH (0 + x)). ring.
Qed.

Lemma Qsum_cons (x : Q) (l : list Q) : Qsum (x :: l) == x + Qsum l.
Proof.
  unfold Qsum at 1. simpl. rewrite fold_left_Qplus. ring.
Qed.

Lemma Qsum_nonneg (l : list Q) : Forall (Qle 0) l -> 0 <= Qsum l.
Proof.
  induction 1 as [|x l Hx _ IH].
  - unfold Qsum. simpl. lra.
  - rewrite Qsum_cons. lra.
Qed.

Lemma Qsum_pos (l : list Q) :
  Forall (Qle 0) l -> Exists (fun x => ~ x == 0) l -> 0 < Qsum l.
Proof.
  intros Hall Hex. induction Hall as [|x l Hx Hall IH].
  - inversion Hex.
  - rewrite Qsum_cons. pose proof (Qsum_nonneg l Hall) as Hl.
    inversion Hex as [y l' Hy | y l' Hrest]; subst.
    + assert (0 < x) by (apply Qle_lteq in Hx; destruct Hx as [Hx | Hx];
                         [assumption | symmetry in Hx; contradiction]).
      lra.
    + specialize (IH Hrest). lra.
Qed.

Lemma Qsum_map_div (s : Q) (l : list Q) :
  Qsum (map (fun x => x / s) l) == Qsum l / s.
Proof.
  induction l as [|x l IH].
  - unfold Qsum. simpl. unfold Qdiv. ring.
  - simpl map. rewrite !Qsum_cons, IH. unfold Qdiv. ring.
Qed.

Lemma normalize_probabilities (l : list Q) :
  Forall (Qle 0) l -> 0 < Qsum l ->
  Forall (Qle 0) (normalize l) /\ Qsum (normalize l) == 1.
Proof.
  intros Hall Hpos. unfold normalize. split.
  - apply Forall_map. eapply Forall_impl; [|exact Hall].
    intros x Hx. simpl. unfold Qdiv.
    apply Qmult_le_0_compat; [assumption|].
    apply Qlt_le_weak, Qinv_lt_0_compat, Hpos.
  - rewrite Qsum_map_div. field. lra.
Qed.

Lemma normalize_length (l : list Q) : length (normalize l) = length l.
Proof. unfold normalize. apply length_map. Qed.

Section ChoiceFacts.

Context {G : Type} `{GeneratorLaws G}.

(** [rng.choice(a, p=p)] returns an entry of [a] when [p] is a
    probability vector over [a]. *)
Lemma rng_choice_p_total (a : list string) (p : list Q) (g : G) :
  a <> [] -> length a = length p ->
  Forall (Qle 0) p -> Qsum p == 1 ->
  exists x g', rng_choice_p a p g = inr (x, g') /\ In x a.
Proof.
  intros Ha Hlen Hall Hsum. unfold rng_choice_p.
  assert (Hvalid : valid_probabilities a p = true).
  { unfold valid_probabilities.
    repeat (apply andb_true_intro; split).
    - destruct a; [congruence | reflexivity].
    - now apply Nat.eqb_eq.
    - apply forallb_forall. intros x Hx. apply Qle_bool_iff.
      rewrite Forall_forall in Hall. auto.
    - now apply Qeq_bool_iff. }
  rewrite Hvalid.
  exists (fst (choice_p a p g)), (snd (choice_p a p g)).
  split; [now rewrite <- surjective_pairing | now apply choice_p_In].
Qed.

Lemma rng_choice_p_In (a : list string) (p : list Q) (g g' : G) (x : string) :
  rng_choice_p a p g = inr (x, g') -> In x a.
Proof.
  unfold rng_choice_p. destruct (valid_probabilities a p) eqn:E; [|discriminate].
  intros [= Hc]. unfold valid_probabilities in E.
  repeat (apply andb_prop in E; destruct E as [E ?]).
  pose proof (choice_p_In a p g) as Hin. rewrite Hc in Hin. apply Hin.
  destruct a; [discriminate | discriminate].
Qed.

End ChoiceFacts.

(** ** The start of a session on a date of the calendar *)

Lemma template_weights_for_ok (meal_time : string) :
  exists w, template_weights_for meal_time = inr w /\ weights_ok w = true.
Proof.
  unfold template_weights_for, dict_index, dict_get_default.
  unfold MEALTIME_TEMPLATE_WEIGHTS. simpl.
  repeat match goal with
         | |- context [String.eqb meal_time ?k] => destruct (String.eqb meal_time k)
         end;
    eexists; split; reflexivity.
Qed.

Lemma adjust_template_probs_total (item_lookup : dict MenuItem.t)
    (user : UserProfile.t) (w : dict Q) :
  forallb (fun kv => dict_mem (fst kv) MEAL_TEMPLATES && Qltb 0 (snd kv)) w = true ->
  exists ps,
    adjust_template_probs item_lookup user w = inr ps
    /\ length ps = length w
    /\ Forall (Qlt 0) ps.
Proof.
  induction w as [|[tname q] w IH]; intro Hok.
  - exists []. simpl. auto.
  - simpl in Hok. apply andb_prop in Hok. destruct Hok as [Hhd Htl].
    apply andb_prop in Hhd. destruct Hhd as [Hmem Hq].
    apply Qltb_true in Hq.
    destruct (IH Htl) as (ps & Hps & Hlen & Hpos).
    unfold dict_mem in Hmem.
    destruct (dict_get tname MEAL_TEMPLATES) as [t|] eqn:Et; [|discriminate].
    simpl. unfold dict_index. rewrite Et. simpl. rewrite Hps. simpl.
    eexists. split; [reflexivity|]. split; [simpl; congruence|].
    constructor; [|assumption].
    assert (0 <= inject_Z (Z.of_nat
              (cuisine_overlap item_lookup t (UserProfile.preferred_cuisines user)))).
    { change 0 with (inject_Z 0). rewrite <- Zle_Qle. lia. }
    apply Qmult_lt_0_compat; [assumption | lra].
Qed.

Lemma positive_weights_normalize (ps : list Q) :
  ps <> [] -> Forall (Qlt 0) ps ->
  Forall (Qle 0) (normalize ps) /\ Qsum (normalize ps) == 1.
Proof.
  intros Hne Hpos.
  assert (Hall : Forall (Qle 0) ps).
  { eapply Forall_impl; [|exact Hpos]. intros x Hx. now apply Qlt_le_weak. }
  apply normalize_probabilities; [assumption|].
  apply Qsum_pos; [assumption|].
  destruct ps as [|x ps]; [congruence|].
  inversion Hpos; subst. apply Exists_cons_hd. lra.
Qed.

Section PreludeFacts.

Context {G : Type} `{GeneratorLaws G}.

Lemma choose_template_total (item_lookup : dict MenuItem.t)
    (user : UserProfile.t) (meal_time : string) (g : G) :
  exists name t g',
    choose_template item_lookup user meal_time g = inr ((name, t), g').
Proof.
  destruct (template_weights_for_ok meal_time) as (w & Hw & Hok).
  unfold weights_ok in Hok. apply andb_prop in Hok. destruct Hok as [Hne Hok].
  destruct (adjust_template_probs_total item_lookup user w Hok)
    as (ps & Hps & Hlen & Hpos).
  assert (Hw_ne : w <> []) by (destruct w; [discriminate | discriminate]).
  assert (Hps_ne : ps <> []).
  { intros ->. destruct w; [congruence | discriminate]. }
  destruct (positive_weights_normalize ps Hps_ne Hpos) as [Hnn Hsum].
  destruct (rng_choice_p_total (dict_keys w) (normalize ps) g)
    as (chosen & g1 & Hch & Hin); try assumption.
  { unfold dict_keys. destruct w; [congruence | discriminate]. }
  { unfold dict_keys. now rewrite length_map, normalize_length. }
  assert (Hmem : exists t, dict_get chosen MEAL_TEMPLATES = Some t).
  { unfold dict_keys in Hin. apply in_map_iff in Hin.
    destruct Hin as ([k q] & <- & Hkq).
    rewrite forallb_forall in Hok. specialize (Hok _ Hkq). cbn [fst snd] in Hok.
    apply andb_prop in Hok. destruct Hok as [Hmem _]. unfold dict_mem in Hmem.
    cbn [fst]. destruct (dict_get k MEAL_TEMPLATES); [eauto | discriminate]. }
  destruct Hmem as [t Ht].
  exists chosen, t, g1.
  unfold choose_template, bind, lift, ret.
  rewrite Hw, Hps, Hch. unfold dict_index. rewrite Ht. reflexivity.
Qed.

Lemma _sample_timestamp_total (base_date : datetime.t) (g : G) :
  exists ts g', _sample_timestamp base_date g = inr (ts, g').
Proof.
  unfold _sample_timestamp, bind, rng_random, ret.
  destruct (random g) as [peak g1].
  repeat match goal with
         | |- context [if ?b then _ else _] => destruct b
         end;
    unfold rng_normal;
    match goal with
    | |- context [normal ?a ?b ?c] => destruct (normal a b c)
    end; eauto.
Qed.

Lemma session_prelude_total (item_lookup : dict MenuItem.t)
    (start_date : datetime.t) (user : UserProfile.t) (day_offset : Z) (g : G) :
  datetime.in_range start_date day_offset = true ->
  exists ts mt name t g',
    session_prelude item_lookup start_date user day_offset g
    = inr ((ts, mt, name, t), g').
Proof.
  intro Hrange.
  destruct (_sample_timestamp_total (datetime.shift start_date day_offset) g)
    as (ts & g1 & Hts).
  destruct (choose_template_total item_lookup user
              (_get_meal_time (datetime.hour ts)) g1) as (name & t & g2 & Hch).
  exists ts, (_get_meal_time (datetime.hour ts)), name, t, g2.
  unfold session_prelude, bind, lift.
  rewrite (add_days_in_range _ _ Hrange), Hts, Hch. reflexivity.
Qed.

End PreludeFacts.

(** ** Events are only ever appended *)

Section AppendFacts.

Context {G : Type} `{Generator G}.
Variable set_to_list : SetOrder.

(** Running a candidate loop on top of [events] is running it on the
    empty list and putting [events] in front. *)
Lemma candidate_loop_acc (env : SessionEnv) (p : Q) (noise : list string) :
  forall cands cart events g,
    candidate_loop set_to_list env p noise cands cart events g
    = match candidate_loop set_to_list env p noise cands cart [] g with
      | inl e => inl e
      | inr ((cart', new), g') => inr ((cart', (events ++ new)%list), g')
      end.
Proof.
  induction cands as [|cand_id rest IH]; intros cart events g.
  - simpl. unfold ret. now rewrite app_nil_r.
  - simpl. unfold bind, lift, rng_random.
    destruct (dict_index cand_id (env_item_lookup env)) as [e | item]; [reflexivity|].
    destruct (random g) as [u g1].
    destruct (make_event set_to_list env cart cand_id item _) as [e | ev];
      [reflexivity|].
    rewrite IH. symmetry. rewrite IH. simpl.
    destruct (candidate_loop set_to_list env p noise rest _ [] g1)
      as [e | [[cart' new] g']]; [reflexivity|].
    change (ev :: new) with ([ev] ++ new)%list.
    now rewrite (app_assoc events [ev] new).
Qed.

Lemma role_step_acc (env : SessionEnv) (role : string) (cart : list string)
    (events : list Event.t) (g : G) :
  role_step set_to_list env role cart events g
  = match role_step set_to_list env role cart [] g with
    | inl e => inl e
    | inr ((cart', new), g') => inr ((cart', (events ++ new)%list), g')
    end.
Proof.
  unfold role_step.
  destruct (is_nil (role_items_of (env_template env) role)).
  - unfold ret. now rewrite app_nil_r.
  - unfold bind, lift.
    destruct (role_accept_prob _ _ _ _) as [e | p]; [reflexivity|].
    destruct (rng_choice_noreplace _ _ g) as [e | [noise g1]]; [reflexivity|].
    apply candidate_loop_acc.
Qed.

Lemma role_step_skip (env : SessionEnv) (role : string) (cart : list string)
    (g : G) :
  role_items_of (env_template env) role = [] ->
  role_step set_to_list env role cart [] g = inr ((cart, []), g).
Proof. unfold role_step. intros ->. reflexivity. Qed.

(** C9. The events a session's role loop emits are three consecutive
    blocks: what the complement role emits, then what the addon role
    emits, then what the finisher role emits.  Each role is run once, on
    the cart the previous role left, and a role whose item list in the
    template is empty emits nothing. *)
Theorem role_blocks_in_order (env : SessionEnv) (cart : list string)
    (events : list Event.t) (g : G) (cart' : list string)
    (events' : list Event.t) (g' : G) :
  roles_loop set_to_list env ROLES cart events g = inr ((cart', events'), g') ->
  exists cart1 cart2 complement_events addon_events finisher_events g1 g2,
    role_step set_to_list env "complement" cart [] g
    = inr ((cart1, complement_events), g1)
    /\ role_step set_to_list env "addon" cart1 [] g1
       = inr ((cart2, addon_events), g2)
    /\ role_step set_to_list env "finisher" cart2 [] g2
       = inr ((cart', finisher_events), g')
    /\ events' = (events ++ complement_events ++ addon_events
                  ++ finisher_events)%list
    /\ (role_items_of (env_template env) "complement" = [] ->
        complement_events = [])
    /\ (role_items_of (env_template env) "addon" = [] -> addon_events = [])
    /\ (role_items_of (env_template env) "finisher" = [] ->
        finisher_events = []).
Proof.
  unfold ROLES. intro Hrun. simpl in Hrun.
  apply bind_inr in Hrun as ([c1 ev1] & g1 & H1 & Hrun).
  apply bind_inr in Hrun as ([c2 ev2] & g2 & H2 & Hrun).
  apply bind_inr in Hrun as ([c3 ev3] & g3 & H3 & Hrun).
  unfold ret in Hrun. injection Hrun as <- <- <-.
  rewrite role_step_acc in H1.
  destruct (role_step set_to_list env "complement" cart [] g)
    as [e | [[c1' Ec] g1']] eqn:E1; [discriminate|].
  injection H1 as <- <- <-.
  rewrite role_step_acc in H2.
  destruct (role_step set_to_list env "addon" c1' [] g1')
    as [e | [[c2' Ea] g2']] eqn:E2; [discriminate|].
  injection H2 as <- <- <-.
  rewrite role_step_acc in H3.
  destruct (role_step set_to_list env "finisher" c2' [] g2')
    as [e | [[c3' Ef] g3']] eqn:E3; [discriminate|].
  injection H3 as <- <- <-.
  exists c1', c2', Ec, Ea, Ef, g1', g2'.
  repeat split; try reflexivity; try assumption.
  - now rewrite <- !app_assoc.
  - intro Hnil. rewrite (role_step_skip _ _ _ _ Hnil) in E1. congruence.
  - intro Hnil. rewrite (role_step_skip _ _ _ _ Hnil) in E2. congruence.
  - intro Hnil. rewrite (role_step_skip _ _ _ _ Hnil) in E3. congruence.
Qed.

Lemma roles_loop_appends (env : SessionEnv) :
  forall roles cart events g cart' events' g',
    roles_loop set_to_list env roles cart events g = inr ((cart', events'), g') ->
    exists new, events' = (events ++ new)%list.
Proof.
  induction roles as [|role roles IH]; intros cart events g cart' events' g' Hrun.
  - simpl in Hrun. unfold ret in Hrun. injection Hrun as <- <- <-.
    exists []. now rewrite app_nil_r.
  - simpl in Hrun.
    apply bind_inr in Hrun as ([c1 ev1] & g1 & H1 & Hrun).
    rewrite role_step_acc in H1.
    destruct (role_step set_to_list env role cart [] g)
      as [e | [[c1' new1] g1']]; [discriminate|].
    injection H1 as <- <- <-.
    apply IH in Hrun. destruct Hrun as (new2 & ->).
    exists (new1 ++ new2)%list. now rewrite app_assoc.
Qed.

End AppendFacts.

(** ** The end of a session *)

Section OverrideFacts.

Context {G : Type} `{Generator G}.
Variable set_to_list : SetOrder.

(** C7. A session that is skipped at the anchor check draws nothing more
    and leaves [events] as it was.  A session that completes its role
    loop, which appends its events [new] to [events], then draws one
    uniform sample [u]; when [u < 0.05] and the list of
    all events emitted so far in the run is not empty, the last event of
    that list gets ["is_abandoned"] = 1 and keeps every other field, and
    all events before it are unchanged; otherwise the list is
    unchanged. *)
Theorem abandon_override_frame (item_lookup : dict MenuItem.t)
    (all_item_ids : list string) (start_date : datetime.t)
    (user : UserProfile.t) (day_offset : Z) (events : list Event.t)
    (session_counter : nat) (g : G) (events' : list Event.t)
    (counter' : nat) (g' : G) :
  session set_to_list item_lookup all_item_ids start_date user day_offset
          events session_counter g
  = inr ((events', counter'), g') ->
  exists ts mt name t g1,
    session_prelude item_lookup start_date user day_offset g
    = inr ((ts, mt, name, t), g1)
    /\ (valid_anchors item_lookup t = [] -> events' = events /\ g' = g1)
    /\ (valid_anchors item_lookup t <> [] ->
        exists anchor_id g2 cart' new g3,
          select_anchor item_lookup user (valid_anchors item_lookup t) g1
          = inr (anchor_id, g2)
          /\ roles_loop set_to_list
               (session_env item_lookup all_item_ids (S session_counter)
                  user ts mt name t (Qltb (fst (random g2)) 0.08))
               ROLES [anchor_id] events (snd (random g2))
             = inr ((cart', (events ++ new)%list), g3)
          /\ let u := fst (random g3) in
             let emitted := (events ++ new)%list in
             g' = snd (random g3)
             /\ (Qltb u 0.05 = false \/ emitted = [] -> events' = emitted)
             /\ (Qltb u 0.05 = true -> emitted <> [] ->
                 exists front e e',
                   emitted = (front ++ [e])%list
                   /\ events' = (front ++ [e'])%list
                   /\ Event.is_abandoned e' = 1%Z
                   /\ same_but_is_abandoned e e')).
Proof.
  intro Hrun. apply session_inv in Hrun.
  destruct Hrun as (_ & ts & mt & name & t & g1 & Hpre & Hcases).
  exists ts, mt, name, t, g1. split; [assumption|].
  destruct Hcases as [(Hnil & -> & ->) | (Hne & anchor & g2 & cart' & events1 & g3
                                          & Hsel & Hroles & -> & ->)].
  - split; [auto | intro Hne; contradiction].
  - split; [intro Hnil; contradiction|]. intros _.
    destruct (roles_loop_appends _ _ _ _ _ _ _ _ _ Hroles) as (new & ->).
    exists anchor, g2, cart', new, g3.
    split; [exact Hsel|]. split; [exact Hroles|].
    cbv zeta. split; [reflexivity|].
    destruct (abandon_override_cases (fst (random g3)) (events ++ new)%list)
      as [[Heq Hwhy] | (Hu & front & e & Hlast & Heq)].
    + split; [intros _; exact Heq|].
      intros Hu Hne'. destruct Hwhy as [Hf | Hnil]; [congruence | contradiction].
    + split.
      * intros [Hf | Hnil]; [congruence|].
        rewrite Hnil in Hlast. destruct front; discriminate.
      * intros _ _. exists front, e, (Event.set_is_abandoned 1 e).
        destruct (set_is_abandoned_same 1 e) as [Hsame Hflag]. auto.
Qed.

End OverrideFacts.

(** ** Sessions without an anchor, and the anchor of the others *)

Lemma veg_match_sides (user : UserProfile.t) (item : MenuItem.t) :
  veg_match user item
  = if Bool.eqb (MenuItem.is_veg item)
                (Qltb 0.5 (UserProfile.veg_preference user))
    then 1.0 else 0.3.
Proof.
  unfold veg_match, Qltb.
  destruct (MenuItem.is_veg item);
    destruct (Qle_bool (UserProfile.veg_preference user) 0.5); reflexivity.
Qed.

Lemma anchor_score_nonneg (user : UserProfile.t) (item : MenuItem.t) :
  0 <= MenuItem.popularity_score item -> 0 <= anchor_score user item.
Proof.
  intro Hpop. unfold anchor_score.
  apply Qmult_le_0_compat; [|assumption].
  apply Qmult_le_0_compat.
  - rewrite veg_match_sides. destruct (Bool.eqb _ _); lra.
  - unfold price_match. pose proof (py_max_ge_l 0.1
      (1.0 - UserProfile.price_sensitivity user * (MenuItem.price item / 400.0))).
    lra.
Qed.

Lemma scored_anchors_total (item_lookup : dict MenuItem.t)
    (user : UserProfile.t) (valid : list string) :
  (forall aid, In aid valid -> dict_mem aid item_lookup = true) ->
  exists scored,
    scored_anchors item_lookup user valid = inr scored
    /\ map fst scored = valid
    /\ Forall (fun entry =>
                 exists item,
                   dict_get (fst entry) item_lookup = Some item
                   /\ snd entry = anchor_score user item) scored.
Proof.
  unfold scored_anchors.
  induction valid as [|aid valid IH]; intro Hmem.
  - exists []. simpl. auto.
  - destruct IH as (scored & Hs & Hfst & Hall).
    { intros a Ha. apply Hmem. simpl. auto. }
    specialize (Hmem aid (or_introl eq_refl)). unfold dict_mem in Hmem.
    destruct (dict_get aid item_lookup) as [item|] eqn:E; [|discriminate].
    exists ((aid, anchor_score user item) :: scored).
    cbn [emapM]. rewrite Hs. unfold dict_index. rewrite E. simpl.
    repeat split; [congruence|].
    constructor; [|assumption]. exists item. auto.
Qed.

Lemma valid_anchors_mem (item_lookup : dict MenuItem.t) (t : MealTemplate.t)
    (aid : string) :
  In aid (valid_anchors item_lookup t) -> dict_mem aid item_lookup = true.
Proof. unfold valid_anchors. intro Hin. now apply filter_In in Hin. Qed.

Section AnchorFacts.

Context {G : Type} `{GeneratorLaws G}.
Variable set_to_list : SetOrder.

(** C8. When the chosen template of a session has no anchor in the
    catalog, the session ends at its anchor check without raising:
    [events] is returned as it was, only the session counter has
    advanced, and the loop over the user's order dates goes on with the
    next date.  A session gets as far as choosing its template whenever
    its date, [day_offset] days from [start_date], is a date of the
    calendar; otherwise the date arithmetic raises [OverflowError]
    before any template is chosen. *)
Theorem session_without_anchor_is_skipped (item_lookup : dict MenuItem.t)
    (all_item_ids : list string) (start_date : datetime.t)
    (user : UserProfile.t) (day_offset : Z) (events : list Event.t)
    (session_counter : nat) (g : G) :
  (datetime.in_range start_date day_offset = true ->
   exists ts mt name t g1,
     session_prelude item_lookup start_date user day_offset g
     = inr ((ts, mt, name, t), g1)
     /\ dict_get name MEAL_TEMPLATES = Some t)
  /\ (datetime.in_range start_date day_offset = false ->
      exists msg,
        session set_to_list item_lookup all_item_ids start_date user
                day_offset events session_counter g
        = inl (OverflowError msg))
  /\ (forall ts mt name t g1,
        session_prelude item_lookup start_date user day_offset g
        = inr ((ts, mt, name, t), g1) ->
        valid_anchors item_lookup t = [] ->
        session set_to_list item_lookup all_item_ids start_date user
                day_offset events session_counter g
        = inr ((events, S session_counter), g1)
        /\ forall rest,
            sessions_loop set_to_list item_lookup all_item_ids start_date
                          user (day_offset :: rest) events session_counter g
            = sessions_loop set_to_list item_lookup all_item_ids start_date
                            user rest events (S session_counter) g1).
Proof.
  split; [|split].
  - intro Hrange.
    destruct (session_prelude_total item_lookup start_date user day_offset g
                Hrange) as (ts & mt & name & t & g1 & Hpre).
    exists ts, mt, name, t, g1. split; [assumption|].
    apply session_prelude_inv in Hpre. tauto.
  - intro Hrange.
    destruct (add_days_out_of_range _ _ Hrange) as [msg Hadd].
    exists msg. unfold session, session_prelude, bind, lift.
    now rewrite Hadd.
  - intros ts mt name t g1 Hpre Hnil.
    assert (Hs : session set_to_list item_lookup all_item_ids start_date user
                         day_offset events session_counter g
                 = inr ((events, S session_counter), g1)).
    { unfold session, bind. rewrite Hpre, Hnil. reflexivity. }
    split; [assumption|].
    intro rest. simpl. unfold bind at 1. rewrite Hs. reflexivity.
Qed.

(** C5. Every anchor of the chosen template that is in the catalog is
    scored veg_match * price_match * popularity_score, where veg_match is
    1.0 when the item's veg flag agrees with the side of 0.5 the user's
    veg_preference lies on and 0.3 otherwise, and price_match is
    max(0.1, 1 - price_sensitivity * (price / 400)).  When the
    popularity scores are not negative and some score is not zero, the
    normalised scores, each score divided by the sum of the scores, are
    a probability vector (non-negative, summing to 1); the anchor is
    the one [rng.choice] draws from the valid anchors with these
    probabilities, in the generator state the template choice left; it
    is one of the valid anchors, and the session goes on, from the
    state the draw left, as the role loop started from the cart
    holding that anchor alone. *)
Theorem anchor_selection (item_lookup : dict MenuItem.t)
    (all_item_ids : list string) (start_date : datetime.t)
    (user : UserProfile.t) (day_offset : Z) (events : list Event.t)
    (session_counter : nat) (g : G)
    (ts : datetime.t) (mt name : string) (t : MealTemplate.t) (g1 : G) :
  session_prelude item_lookup start_date user day_offset g
  = inr ((ts, mt, name, t), g1) ->
  let valid := valid_anchors item_lookup t in
  valid <> [] ->
  (forall aid item, In aid valid -> dict_get aid item_lookup = Some item ->
                    0 <= MenuItem.popularity_score item) ->
  (exists aid item, In aid valid /\ dict_get aid item_lookup = Some item
                    /\ ~ anchor_score user item == 0) ->
  exists scored anchor_id g2,
    scored_anchors item_lookup user valid = inr scored
    /\ map fst scored = valid
    /\ Forall (fun entry =>
                 exists item,
                   dict_get (fst entry) item_lookup = Some item
                   /\ snd entry
                      = (if Bool.eqb (MenuItem.is_veg item)
                                     (Qltb 0.5 (UserProfile.veg_preference user))
                         then 1.0 else 0.3)
                        * py_max 0.1 (1.0 - UserProfile.price_sensitivity user
                                            * (MenuItem.price item / 400.0))
                        * MenuItem.popularity_score item) scored
    /\ Forall (Qle 0) (normalize (map snd scored))
    /\ Qsum (normalize (map snd scored)) == 1
    /\ Forall2 (fun entry p => p == snd entry / Qsum (map snd scored))
               scored (normalize (map snd scored))
    /\ choice_p valid (normalize (map snd scored)) g1 = (anchor_id, g2)
    /\ select_anchor item_lookup user valid g1 = inr (anchor_id, g2)
    /\ In anchor_id valid
    /\ session set_to_list item_lookup all_item_ids start_date user
               day_offset events session_counter g
       = bind (roles_loop set_to_list
                 (session_env item_lookup all_item_ids (S session_counter)
                    user ts mt name t (Qltb (fst (random g2)) 0.08))
                 ROLES [anchor_id] events)
              (fun '(_, events) =>
                 bind rng_random
                      (fun u => ret (abandon_override u events,
                                     S session_counter)))
              (snd (random g2)).
Proof.
  intros Hpre valid Hne Hpop Hnz.
  destruct (scored_anchors_total item_lookup user valid)
    as (scored & Hscored & Hfst & Hentries).
  { intros aid Ha. eapply valid_anchors_mem; eauto. }
  assert (Hnonneg : Forall (Qle 0) (map snd scored)).
  { apply Forall_map. rewrite Forall_forall in Hentries |- *.
    intros entry Hin. destruct (Hentries entry Hin) as (item & Hitem & ->).
    apply anchor_score_nonneg. apply (Hpop (fst entry)); [|assumption].
    rewrite <- Hfst. now apply in_map. }
  assert (Hpos : 0 < Qsum (map snd scored)).
  { apply Qsum_pos; [assumption|].
    destruct Hnz as (aid & item & Hin & Hitem & Hscore).
    rewrite <- Hfst in Hin. apply in_map_iff in Hin.
    destruct Hin as (entry & <- & Hin).
    apply Exists_exists. exists (snd entry). split; [now apply in_map|].
    rewrite Forall_forall in Hentries.
    destruct (Hentries entry Hin) as (item' & Hitem' & ->).
    congruence. }
  destruct (normalize_probabilities _ Hnonneg Hpos) as [Hnn Hsum].
  destruct (rng_choice_p_total (map fst scored) (normalize (map snd scored)) g1)
    as (anchor & g2 & Hch & Hin); try assumption.
  { now rewrite Hfst. }
  { now rewrite normalize_length, !length_map. }
  assert (Hsel : select_anchor item_lookup user valid g1 = inr (anchor, g2)).
  { unfold select_anchor, bind, lift. rewrite Hscored. exact Hch. }
  assert (Hdraw : choice_p valid (normalize (map snd scored)) g1
                  = (anchor, g2)).
  { unfold rng_choice_p in Hch. rewrite Hfst in Hch.
    destruct (valid_probabilities valid (normalize (map snd scored)));
      [|discriminate].
    now injection Hch. }
  assert (Hnorm : Forall2 (fun entry p => p == snd entry / Qsum (map snd scored))
                          scored (normalize (map snd scored))).
  { unfold normalize. generalize (Qsum (map snd scored)) as total.
    intro total. clear. induction scored as [|entry scored IH]; simpl;
      constructor; [reflexivity | exact IH]. }
  exists scored, anchor, g2.
  repeat split; try assumption.
  - eapply Forall_impl; [|exact Hentries].
    intros entry (item & Hitem & Hs). exists item. split; [assumption|].
    rewrite Hs. unfold anchor_score, price_match.
    now rewrite veg_match_sides.
  - now rewrite <- Hfst.
  - unfold session. rewrite (bind_inr_eq _ _ _ _ _ Hpre). cbv beta iota.
    fold valid. replace (is_nil valid) with false
      by (destruct valid; [congruence | reflexivity]).
    rewrite (bind_inr_eq _ _ _ _ _ Hsel).
    rewrite (bind_inr_eq _ _ g2 (fst (random g2)) (snd (random g2)))
      by (unfold rng_random; now rewrite <- surjective_pairing).
    reflexivity.
Qed.

End AnchorFacts.

(** ** The properties at work on a concrete run *)

Lemma candidate_never_in_cart_witness :
  exists events,
    generate_sessions insertion_order [user_regular] small_catalog 30
                      start_2025 (Some tape_run) = inr events
    /\ length events = 9%nat
    /\ Forall (fun e => ~ In (Event.candidate_item_id e) (Event.cart_items e)
                        /\ NoDup (Event.cart_items e)) events.
Proof.
  destruct (generate_sessions insertion_order [user_regular] small_catalog 30
              start_2025 (Some tape_run)) as [e | events] eqn:Hrun;
    [vm_compute in Hrun; discriminate|].
  exists events. split; [reflexivity|]. split.
  - vm_compute in Hrun. injection Hrun as <-. reflexivity.
  - destruct (candidate_never_in_cart insertion_order [user_regular]
                small_catalog 30%Z start_2025 (Some tape_run)) as [Hall _].
    exact (Hall events Hrun).
Defined.

Lemma candidate_acceptance_rules_witness :
  exists cart' events' g',
    role_step insertion_order lunch_env "complement" ["ITEM_014"] [] tape_roles
    = inr ((cart', events'), g')
    /\ role_items_of (env_template lunch_env) "complement" <> []
    /\ exists p noise new,
        role_accept_prob chinese_meal "complement" user_regular lunch_time
        = inr p
        /\ noise = ["ITEM_037"; "ITEM_064"]
        /\ events' = new
        /\ length new = 4%nat.
Proof.
  destruct (role_step insertion_order lunch_env "complement" ["ITEM_014"] []
              tape_roles) as [e | [[cart' events'] g']] eqn:Hrun;
    [vm_compute in Hrun; discriminate|].
  assert (Hne : role_items_of (env_template lunch_env) "complement" <> [])
    by discriminate.
  exists cart', events', g'. split; [reflexivity|]. split; [exact Hne|].
  destruct (candidate_acceptance_rules insertion_order lunch_env "complement"
              ["ITEM_014"] [] tape_roles cart' events' g' Hrun Hne)
    as (p & noise & g1 & new & Hp & Hnoise & Hev & Hlen & _).
  exists p, noise, new. split; [exact Hp|].
  vm_compute in Hnoise. injection Hnoise as <- <-.
  split; [reflexivity|]. split; [exact Hev|]. exact Hlen.
Defined.


Lemma acceptance_probability_bounded_witness :
  exists p,
    dict_get "chinese_meal" MEAL_TEMPLATES = Some chinese_meal
    /\ role_accept_prob chinese_meal "complement" user_regular lunch_time = inr p
    /\ 0 <= candidate_accept_prob p "ITEM_064" ITEM_064 ["ITEM_064"]
              user_regular "breakfast" <= 0.95.
Proof.
  destruct (role_accept_prob chinese_meal "complement" user_regular lunch_time)
    as [e | p] eqn:Hp; [vm_compute in Hp; discriminate|].
  exists p. split; [reflexivity|]. split; [reflexivity|].
  apply (acceptance_probability_bounded "chinese_meal" chinese_meal "complement"
           user_regular lunch_time p "ITEM_064" ITEM_064 ["ITEM_064"]
           "breakfast" eq_refl Hp).
Defined.

Lemma role_blocks_in_order_witness :
  exists cart' events' g',
    roles_loop insertion_order lunch_env ROLES ["ITEM_014"] [] tape_roles
    = inr ((cart', events'), g')
    /\ exists complement_events addon_events finisher_events,
        events' = (complement_events ++ addon_events ++ finisher_events)%list
        /\ length complement_events = 4%nat
        /\ length addon_events = 3%nat
        /\ length finisher_events = 2%nat.
Proof.
  destruct (roles_loop insertion_order lunch_env ROLES ["ITEM_014"] []
              tape_roles) as [e | [[cart' events'] g']] eqn:Hrun;
    [vm_compute in Hrun; discriminate|].
  exists cart', events', g'. split; [reflexivity|].
  destruct (role_blocks_in_order insertion_order lunch_env ["ITEM_014"] []
              tape_roles cart' events' g' Hrun)
    as (c1 & c2 & Ec & Ea & Ef & g1 & g2 & H1 & H2 & H3 & Hev & _).
  exists Ec, Ea, Ef. split; [exact Hev|].
  vm_compute in H1. injection H1 as <- <- <-.
  vm_compute in H2. injection H2 as <- <- <-.
  vm_compute in H3. injection H3 as <- <- <-.
  repeat split; reflexivity.
Defined.

Lemma abandon_override_frame_witness :
  exists events' c' g',
    session insertion_order small_lookup (dict_keys small_lookup) start_2025
            user_regular 15 [] 0 tape_session
    = inr ((events', c'), g')
    /\ exists front e e',
        events' = (front ++ [e'])%list
        /\ length front = 8%nat
        /\ Event.is_abandoned e = 0%Z
        /\ Event.is_abandoned e' = 1%Z
        /\ same_but_is_abandoned e e'.
Proof.
  destruct (session insertion_order small_lookup (dict_keys small_lookup)
              start_2025 user_regular 15 [] 0 tape_session)
    as [e | [[events' c'] g']] eqn:Hrun; [vm_compute in Hrun; discriminate|].
  exists events', c', g'. split; [reflexivity|].
  destruct (abandon_override_frame insertion_order small_lookup
              (dict_keys small_lookup) start_2025 user_regular 15 [] 0
              tape_session events' c' g' Hrun)
    as (ts & mt & name & t & g1 & Hpre & _ & Hdone).
  vm_compute in Hpre. injection Hpre as <- <- <- <- <-.
  destruct Hdone as (anchor & g2 & cart' & new & g3 & Hsel & Hroles & Hover);
    [vm_compute; discriminate|].
  vm_compute in Hsel. injection Hsel as <- <-.
  vm_compute in Hroles. injection Hroles as <- <- <-.
  cbv zeta in Hover. destruct Hover as (_ & _ & Hfire).
  destruct Hfire as (front & e & e' & Hlast & Hev & Hflag & Hsame);
    [reflexivity | discriminate |].
  exists front, e, e'.
  assert (Hfront : length front = 8%nat /\ Event.is_abandoned e = 0%Z).
  { apply (f_equal (@rev Event.t)) in Hlast.
    rewrite (rev_app_distr front [e]) in Hlast.
    cbn [rev app] in Hlast. injection Hlast as He Hfront.
    apply (f_equal (@length Event.t)) in Hfront. rewrite length_rev in Hfront.
    rewrite <- He. split; [symmetry; exact Hfront | reflexivity]. }
  destruct Hfront as [Hlen He]. auto.
Defined.

Lemma session_without_anchor_is_skipped_witness :
  exists ts mt name t g1,
    session_prelude small_lookup start_2025 user_regular 15 tape_skip
    = inr ((ts, mt, name, t), g1)
    /\ name = "north_indian_curry"
    /\ valid_anchors small_lookup t = []
    /\ session insertion_order small_lookup (dict_keys small_lookup)
               start_2025 user_regular 15 [] 0 tape_skip
       = inr (([], 1%nat), g1)
    /\ session insertion_order small_lookup (dict_keys small_lookup)
               late_9999 user_regular 15 [] 0 tape_skip
       = inl (OverflowError "date value out of range").
Proof.
  destruct (session_prelude small_lookup start_2025 user_regular 15 tape_skip)
    as [e | [[[[ts mt] name] t] g1]] eqn:Hpre;
    [vm_compute in Hpre; discriminate|].
  exists ts, mt, name, t, g1. split; [reflexivity|].
  assert (Hname : name = "north_indian_curry")
    by (vm_compute in Hpre; now injection Hpre as _ _ <- _ _).
  assert (Hnil : valid_anchors small_lookup t = [])
    by (vm_compute in Hpre; now injection Hpre as _ _ _ <- _).
  split; [exact Hname|]. split; [exact Hnil|].
  destruct (session_without_anchor_is_skipped insertion_order small_lookup
              (dict_keys small_lookup) start_2025 user_regular 15 [] 0%nat
              tape_skip) as (_ & _ & Hskip).
  destruct (Hskip ts mt name t g1 Hpre Hnil) as [Hs _].
  split; [exact Hs | vm_compute; reflexivity].
Defined.

Lemma anchor_selection_witness :
  exists ts mt name t g1 (scored : list (string * Q)) anchor_id g2,
    session_prelude noodle_lookup start_2025 user_regular 15
                    tape_second_anchor
    = inr ((ts, mt, name, t), g1)
    /\ valid_anchors noodle_lookup t = ["ITEM_014"; "ITEM_015"]
    /\ choice_p (valid_anchors noodle_lookup t) (normalize (map snd scored))
                g1 = (anchor_id, g2)
    /\ select_anchor noodle_lookup user_regular
                     (valid_anchors noodle_lookup t) g1
       = inr (anchor_id, g2)
    /\ anchor_id = "ITEM_015"
    /\ select_anchor noodle_lookup user_regular ["ITEM_014"; "ITEM_015"]
                     (skipn 3 tape_session)
       = inr ("ITEM_014", skipn 4 tape_session).
Proof.
  destruct (session_prelude noodle_lookup start_2025 user_regular 15
                            tape_second_anchor)
    as [e | [[[[ts mt] name] t] g1]] eqn:Hpre; [vm_compute in Hpre; discriminate|].
  assert (Hvalid : valid_anchors noodle_lookup t = ["ITEM_014"; "ITEM_015"]).
  { vm_compute in Hpre. injection Hpre as <- <- <- <- <-. reflexivity. }
  assert (Hne : valid_anchors noodle_lookup t <> []).
  { rewrite Hvalid. discriminate. }
  assert (Hpop : forall aid item,
             In aid (valid_anchors noodle_lookup t) ->
             dict_get aid noodle_lookup = Some item ->
             0 <= MenuItem.popularity_score item).
  { rewrite Hvalid. intros aid item [<- | [<- | []]] Hget;
      vm_compute in Hget; injection Hget as <-; vm_compute; discriminate. }
  assert (Hnz : exists aid item,
             In aid (valid_anchors noodle_lookup t)
             /\ dict_get aid noodle_lookup = Some item
             /\ ~ anchor_score user_regular item == 0).
  { exists "ITEM_014", ITEM_014. rewrite Hvalid.
    split; [simpl; auto|]. split; [reflexivity|].
    intro Hz. vm_compute in Hz. discriminate. }
  destruct (anchor_selection insertion_order noodle_lookup
              (dict_keys noodle_lookup) start_2025 user_regular 15 [] 0
              tape_second_anchor ts mt name t g1 Hpre Hne Hpop Hnz)
    as (scored & anchor & g2 & _ & _ & _ & _ & _ & _ & Hdraw & Hsel & _).
  assert (Ha : anchor = "ITEM_015").
  { vm_compute in Hpre. injection Hpre as <- <- <- <- <-.
    vm_compute in Hsel. now injection Hsel as <- _. }
  exists ts, mt, name, t, g1, scored, anchor, g2.
  split; [reflexivity|]. split; [exact Hvalid|]. split; [exact Hdraw|].
  split; [exact Hsel|]. split; [exact Ha|].
  vm_compute. reflexivity.
Defined.

(** ** The order of a set reaches the output *)

Lemma reverse_order_Permutation (xs : list string) :
  Permutation (insertion_order xs) (reverse_order xs).
Proof. unfold reverse_order, insertion_order. apply Permutation_rev. Qed.

(** C4. With the generator state, the users, the catalog, the number of
    days and the start date all fixed, the output still depends on the
    order in which the interpreter iterates a set of strings: under two
    such orders the second event of the same run lists its cart
    categories differently. *)
Theorem set_order_reaches_output :
  exists out1 out2 e1 e2,
    generate_sessions insertion_order [user_regular] small_catalog 30
                      start_2025 (Some tape_run) = inr out1
    /\ generate_sessions reverse_order [user_regular] small_catalog 30
                         start_2025 (Some tape_run) = inr out2
    /\ nth_error out1 1 = Some e1
    /\ nth_error out2 1 = Some e2
    /\ Event.cart_items e1 = ["ITEM_014"; "ITEM_043"]
    /\ Event.cart_items e2 = ["ITEM_014"; "ITEM_043"]
    /\ Event.cart_categories e1 = ["Main"; "Starter"]
    /\ Event.cart_categories e2 = ["Starter"; "Main"].
Proof.
  destruct (generate_sessions insertion_order [user_regular] small_catalog 30
              start_2025 (Some tape_run)) as [e | out1] eqn:H1;
    [vm_compute in H1; discriminate|].
  destruct (generate_sessions reverse_order [user_regular] small_catalog 30
              start_2025 (Some tape_run)) as [e | out2] eqn:H2;
    [vm_compute in H2; discriminate|].
  vm_compute in H1. injection H1 as <-.
  vm_compute in H2. injection H2 as <-.
  do 4 eexists. repeat split; reflexivity.
Qed.

(** ** The override always falls on the completing session's own event *)

Lemma abandon_override_app (u : Q) (events new : list Event.t) :
  new <> [] ->
  abandon_override u (events ++ new)%list
  = (events ++ abandon_override u new)%list.
Proof.
  intro Hne.
  destruct (list_last_cases new) as [-> | (front & e & ->)]; [congruence|].
  unfold abandon_override. rewrite !length_app. simpl length.
  replace (0 <? length events + (length front + 1))%nat with true
    by (symmetry; apply Nat.ltb_lt; lia).
  replace (0 <? length front + 1)%nat with true
    by (symmetry; apply Nat.ltb_lt; lia).
  destruct (Qltb u 0.05); simpl; [|reflexivity].
  rewrite app_assoc, !mark_last_abandoned_app. now rewrite app_assoc.
Qed.

Section OwnEventFacts.

Context {G : Type} `{GeneratorLaws G}.
Variable set_to_list : SetOrder.

(** The number of events of an entered role. *)
Lemma role_step_count (env : SessionEnv) (role : string) (cart : list string)
    (events : list Event.t) (g : G) (cart' : list string)
    (events' : list Event.t) (g' : G) :
  role_step set_to_list env role cart events g = inr ((cart', events'), g') ->
  role_items_of (env_template env) role <> [] ->
  let valid := valid_candidates_of (env_item_lookup env)
                 (role_items_of (env_template env) role) cart in
  exists new,
    events' = (events ++ new)%list
    /\ Forall (event_of_session env) new
    /\ cart_chain cart new cart'
    /\ length new
       = (length valid
          + Z.to_nat (noise_size (env_all_item_ids env) cart valid))%nat.
Proof.
  intros Hrun Hitems valid. apply role_step_inv in Hrun.
  destruct Hrun as [(Hnil & _) | (_ & p & noise & g1 & _ & Hnoise & Hloop)];
    [contradiction|].
  fold valid in Hnoise, Hloop.
  apply candidate_loop_spec in Hloop.
  destruct Hloop as (new & -> & Hlab & Hchain & Hsess).
  exists new. repeat split; try assumption.
  apply Forall2_length in Hlab.
  rewrite <- Hlab, length_combine, uniforms_length, Nat.min_id, length_app.
  f_equal.
  apply rng_choice_noreplace_inv in Hnoise. destruct Hnoise as [Hsize Hnoise].
  pose proof (choice_noreplace_length
                (noise_population (env_all_item_ids env) cart valid)
                (Z.to_nat (noise_size (env_all_item_ids env) cart valid)) g)
    as Hlen.
  rewrite Hnoise in Hlen. apply Hlen. lia.
Qed.

(** With two or more items in the catalog, a role entered with the
    one-item cart has a candidate. *)
Lemma first_role_emits (env : SessionEnv) (role anchor_id : string)
    (events : list Event.t) (g : G) (cart' : list string)
    (events' : list Event.t) (g' : G) :
  (2 <= length (env_all_item_ids env))%nat ->
  role_step set_to_list env role [anchor_id] events g
  = inr ((cart', events'), g') ->
  role_items_of (env_template env) role <> [] ->
  exists new, events' = (events ++ new)%list /\ new <> []
              /\ Forall (event_of_session env) new.
Proof.
  intros Hall Hrun Hitems.
  destruct (role_step_count _ _ _ _ _ _ _ _ Hrun Hitems)
    as (new & -> & Hsess & _ & Hlen).
  exists new. repeat split; try assumption.
  intros ->. simpl in Hlen. unfold noise_size in Hlen. simpl length in Hlen.
  destruct (valid_candidates_of (env_item_lookup env)
              (role_items_of (env_template env) role) [anchor_id]);
    simpl length in Hlen; lia.
Qed.

Lemma roles_loop_sessions (env : SessionEnv) :
  forall roles cart events g cart' events' g',
    roles_loop set_to_list env roles cart events g = inr ((cart', events'), g') ->
    exists new, events' = (events ++ new)%list
                /\ Forall (event_of_session env) new.
Proof.
  induction roles as [|role roles IH]; intros cart events g cart' events' g' Hrun.
  - simpl in Hrun. unfold ret in Hrun. injection Hrun as <- <- <-.
    exists []. rewrite app_nil_r. auto.
  - simpl in Hrun.
    apply bind_inr in Hrun as ([c1 ev1] & g1 & H1 & Hrun).
    apply IH in Hrun. destruct Hrun as (new2 & -> & Hs2).
    apply role_step_inv in H1.
    destruct H1 as [(_ & _ & -> & _) | (_ & p & noise & g0 & _ & _ & Hloop)].
    + exists new2. auto.
    + apply candidate_loop_spec in Hloop.
      destruct Hloop as (new1 & -> & _ & _ & Hs1).
      exists (new1 ++ new2)%list. rewrite app_assoc. split; [reflexivity|].
      apply Forall_app. auto.
Qed.

Lemma roles_loop_cons (env : SessionEnv) (role : string) (roles : list string)
    (cart : list string) (events : list Event.t) (g : G)
    (res : list string * list Event.t * G) :
  roles_loop set_to_list env (role :: roles) cart events g = inr res ->
  exists cart1 events1 g1,
    role_step set_to_list env role cart events g = inr ((cart1, events1), g1)
    /\ roles_loop set_to_list env roles cart1 events1 g1 = inr res.
Proof.
  cbn [roles_loop]. intro Hrun.
  apply bind_inr in Hrun as ([c1 ev1] & g1 & H1 & Hrun). eauto.
Qed.

Lemma session_emits (env : SessionEnv) (anchor_id : string)
    (events : list Event.t) (g : G) (cart' : list string)
    (events' : list Event.t) (g' : G) :
  (2 <= length (env_all_item_ids env))%nat ->
  template_ok (env_template env) = true ->
  roles_loop set_to_list env ROLES [anchor_id] events g
  = inr ((cart', events'), g') ->
  exists new, events' = (events ++ new)%list /\ new <> []
              /\ Forall (event_of_session env) new.
Proof.
  intros Hall Hok Hrun.
  destruct (roles_loop_sessions _ _ _ _ _ _ _ _ Hrun) as (new & -> & Hsess).
  exists new. repeat split; try assumption.
  intros ->. rewrite app_nil_r in Hrun.
  unfold ROLES in Hrun.
  apply roles_loop_cons in Hrun. destruct Hrun as (c1 & ev1 & g1 & H1 & Hrun).
  assert (Hgrow : forall new1 rest c ev0 g0,
             new1 <> [] ->
             roles_loop set_to_list env rest c (ev0 ++ new1)%list g0
             = inr ((cart', ev0), g') -> False).
  { intros new1 rest c ev0 g0 Hne1 Hrest.
    destruct (roles_loop_appends _ _ _ _ _ _ _ _ _ Hrest) as (new3 & Heq).
    rewrite <- app_assoc in Heq.
    apply (f_equal (@length Event.t)) in Heq. rewrite !length_app in Heq.
    destruct new1; [congruence | simpl in Heq; lia]. }
  destruct (role_items_of (env_template env) "complement") as [|r0 rs] eqn:Ecomp.
  - pose proof H1 as H1'. apply role_step_inv in H1'.
    destruct H1' as [(_ & -> & -> & ->) | (Hne & _)]; [|congruence].
    apply roles_loop_cons in Hrun. destruct Hrun as (c2 & ev2 & g2 & H2 & Hrun).
    assert (Haddon : role_items_of (env_template env) "addon" <> []).
    { unfold template_ok in Hok. apply andb_prop in Hok. destruct Hok as [_ Hok].
      change (role_items_of (env_template env) "addon")
        with (MealTemplate.addons (env_template env)).
      destruct (MealTemplate.addons (env_template env)); discriminate. }
    destruct (first_role_emits _ _ _ _ _ _ _ _ Hall H2 Haddon)
      as (new2 & -> & Hne2 & _).
    eapply Hgrow; eauto.
  - assert (Hcomp : role_items_of (env_template env) "complement" <> [])
      by (rewrite Ecomp; discriminate).
    destruct (first_role_emits _ _ _ _ _ _ _ _ Hall H1 Hcomp)
      as (new1 & -> & Hne1 & _).
    eapply Hgrow; eauto.
Qed.

End OwnEventFacts.

Lemma valid_candidates_none (item_lookup : dict MenuItem.t)
    (role_items cart : list string) :
  (forall k, dict_mem k item_lookup = true -> In k cart) ->
  valid_candidates_of item_lookup role_items cart = [].
Proof.
  intro Hin. unfold valid_candidates_of.
  induction role_items as [|cid l IH]; [reflexivity|].
  simpl. destruct (dict_mem cid item_lookup) eqn:Em; [|exact IH].
  apply Hin, str_in_In in Em. rewrite Em. exact IH.
Qed.

Section OwnEventTheorem.

Context {G : Type} `{GeneratorLaws G}.
Variable set_to_list : SetOrder.

(** When every item of the catalog is already in the cart, a role has no
    candidate. *)
Lemma role_step_no_candidates (env : SessionEnv) (role : string)
    (cart : list string) (events : list Event.t) (g : G)
    (cart' : list string) (events' : list Event.t) (g' : G) :
  env_all_item_ids env = dict_keys (env_item_lookup env) ->
  (forall k, In k (env_all_item_ids env) -> In k cart) ->
  (length (env_all_item_ids env) <= length cart)%nat ->
  role_step set_to_list env role cart events g = inr ((cart', events'), g') ->
  cart' = cart /\ events' = events.
Proof.
  intros Hkeys Hin Hlen Hrun.
  destruct (role_items_of (env_template env) role) as [|r0 rs] eqn:Eitems.
  - apply role_step_inv in Hrun.
    destruct Hrun as [(_ & -> & -> & _) | (Hne & _)]; [auto | congruence].
  - assert (Hne : role_items_of (env_template env) role <> [])
      by (rewrite Eitems; discriminate).
    destruct (role_step_count _ _ _ _ _ _ _ _ _ Hrun Hne)
      as (new & -> & _ & Hchain & Hcount).
    assert (Hvalid : valid_candidates_of (env_item_lookup env)
                       (role_items_of (env_template env) role) cart = []).
    { apply valid_candidates_none. intros k Hk.
      apply dict_mem_In_keys in Hk. rewrite <- Hkeys in Hk. now apply Hin. }
    rewrite Hvalid in Hcount. unfold noise_size in Hcount. simpl length in Hcount.
    assert (Hnew : new = []) by (destruct new; [reflexivity | simpl in Hcount; lia]).
    subst new. simpl in Hchain. rewrite app_nil_r. auto.
Qed.

Lemma roles_loop_no_candidates (env : SessionEnv) (cart : list string) :
  env_all_item_ids env = dict_keys (env_item_lookup env) ->
  (forall k, In k (env_all_item_ids env) -> In k cart) ->
  (length (env_all_item_ids env) <= length cart)%nat ->
  forall roles events g cart' events' g',
    roles_loop set_to_list env roles cart events g = inr ((cart', events'), g') ->
    events' = events.
Proof.
  intros Hkeys Hin Hlen.
  induction roles as [|role roles IH]; intros events g cart' events' g' Hrun.
  - simpl in Hrun. unfold ret in Hrun. now injection Hrun as <- <- <-.
  - simpl in Hrun.
    apply bind_inr in Hrun as ([c1 ev1] & g1 & H1 & Hrun).
    apply role_step_no_candidates in H1; try assumption.
    destruct H1 as [-> ->]. eapply IH; eauto.
Qed.

Lemma select_anchor_In (item_lookup : dict MenuItem.t) (user : UserProfile.t)
    (valid : list string) (g g' : G) (anchor_id : string) :
  select_anchor item_lookup user valid g = inr (anchor_id, g') ->
  In anchor_id valid.
Proof.
  unfold select_anchor. intro Hrun.
  apply bind_inr in Hrun as (scored & g1 & Hs & Hrun).
  apply lift_inr in Hs as [Hs ->].
  apply rng_choice_p_In in Hrun.
  assert (Hfst : forall l scored,
             emapM (fun aid => item <-? dict_index aid item_lookup ;;
                               inr (aid, anchor_score user item)) l
             = inr scored -> map fst scored = l).
  { clear. induction l as [|aid l IH]; intros scored Hs.
    - simpl in Hs. now injection Hs as <-.
    - cbn [emapM] in Hs.
      apply ebind_inr in Hs. destruct Hs as (y & Hy & Hs).
      apply ebind_inr in Hs. destruct Hs as (ys & Hys & Hs).
      injection Hs as <-.
      apply ebind_inr in Hy. destruct Hy as (item & _ & Hy).
      injection Hy as <-. simpl. f_equal. now apply IH. }
  unfold scored_anchors in Hs. apply Hfst in Hs. now rewrite Hs in Hrun.
Qed.

(** With at most one item in the catalog, a session emits nothing. *)
Lemma single_item_session (catalog : list MenuItem.t)
    (start_date : datetime.t) (user : UserProfile.t) (day_offset : Z)
    (c : nat) (g : G) (events' : list Event.t) (c' : nat) (g' : G) :
  (length (dict_keys (build_item_lookup catalog)) <= 1)%nat ->
  session set_to_list (build_item_lookup catalog)
          (dict_keys (build_item_lookup catalog)) start_date user
          day_offset [] c g = inr ((events', c'), g') ->
  events' = [].
Proof.
  intros Hlen Hrun. apply session_inv in Hrun.
  destruct Hrun as (_ & ts & mt & name & t & g1 & _ & Hcases).
  destruct Hcases as [(_ & -> & _) | (_ & anchor & g2 & cart' & events1 & g3
                                      & Hsel & Hroles & -> & _)];
    [reflexivity|].
  apply select_anchor_In, valid_anchors_mem, dict_mem_In_keys in Hsel.
  apply roles_loop_no_candidates in Hroles.
  - subst events1. unfold abandon_override. simpl.
    destruct (Qltb (fst (random g3)) 0.05); reflexivity.
  - reflexivity.
  - simpl. intros k Hk.
    destruct (dict_keys (build_item_lookup catalog)) as [|k0 [|k1 ks]];
      simpl in Hlen, Hsel, Hk; try lia; try contradiction.
    destruct Hsel as [<- | []]. destruct Hk as [<- | []]. simpl. auto.
  - simpl. exact Hlen.
Qed.

(** X1. The override never falls on an event of an earlier session.
    When the catalog has at most one distinct item id, a run emits no
    event at all.  Otherwise a session either is skipped and returns
    [events] as it was, or it emits at least one event of its own, so
    that the events before it are returned unchanged and the override,
    when it fires, marks the last event this very session emitted. *)
Theorem override_marks_own_session (catalog : list MenuItem.t)
    (start_date : datetime.t) :
  let item_lookup := build_item_lookup catalog in
  ((length (dict_keys item_lookup) <= 1)%nat ->
   forall users n_days rng events,
     generate_sessions set_to_list users catalog n_days start_date rng
     = inr events ->
     events = [])
  /\ ((2 <= length (dict_keys item_lookup))%nat ->
      forall user day_offset events c g events' c' g',
        session set_to_list item_lookup (dict_keys item_lookup) start_date
                user day_offset events c g = inr ((events', c'), g') ->
        events' = events
        \/ exists new u,
            new <> []
            /\ events' = (events ++ abandon_override u new)%list
            /\ Forall (fun e =>
                         Event.session_id e = ("S" ++ format_07d (S c))%string
                         /\ Event.user_id e = UserProfile.user_id user) new).
Proof.
  intro item_lookup. split.
  - intros Hlen users n_days rng events Hrun.
    apply (generate_sessions_invariant set_to_list (fun ev => ev = [])) in Hrun;
      [assumption | | reflexivity].
    intros user day ev c g ev' c' g' -> Hs.
    eapply single_item_session; eauto.
  - intros Hlen user day events c g events' c' g' Hrun.
    apply session_inv in Hrun.
    destruct Hrun as (_ & ts & mt & name & t & g1 & Hpre & Hcases).
    destruct Hcases as [(_ & -> & _) | (_ & anchor & g2 & cart' & events1 & g3
                                        & _ & Hroles & -> & _)];
      [now left|].
    right. apply session_prelude_inv in Hpre. destruct Hpre as [Ht _].
    apply session_emits in Hroles;
      [|exact Hlen | simpl; eapply MEAL_TEMPLATES_ok; eauto].
    destruct Hroles as (new & -> & Hne & Hsess).
    exists new, (fst (random g3)). split; [assumption|].
    split; [now apply abandon_override_app|].
    eapply Forall_impl; [|exact Hsess].
    intros e (Hid & Huser & _). simpl in Hid, Huser. auto.
Qed.

End OwnEventTheorem.

Lemma override_marks_own_session_witness :
  (2 <= length (dict_keys (build_item_lookup small_catalog)))%nat
  /\ exists events' c' g',
      session insertion_order small_lookup (dict_keys small_lookup) start_2025
              user_regular 15 [] 0 tape_session
      = inr ((events', c'), g')
      /\ exists new u,
          new <> [] /\ events' = abandon_override u new
          /\ Forall (fun e => Event.session_id e = "S0000001"
                              /\ Event.user_id e = "U00001") new.
Proof.
  assert (Hlen : (2 <= length (dict_keys (build_item_lookup small_catalog)))%nat)
    by (vm_compute; lia).
  split; [exact Hlen|].
  destruct (session insertion_order small_lookup (dict_keys small_lookup)
              start_2025 user_regular 15 [] 0 tape_session)
    as [e | [[events' c'] g']] eqn:Hrun; [vm_compute in Hrun; discriminate|].
  exists events', c', g'. split; [reflexivity|].
  destruct (override_marks_own_session insertion_order small_catalog start_2025)
    as [_ Hown].
  destruct (Hown Hlen user_regular 15%Z [] 0%nat tape_session events' c' g' Hrun)
    as [Hnone | (new & u & Hne & Hev & Hall)].
  - vm_compute in Hrun. rewrite Hnone in Hrun. discriminate.
  - exists new, u. auto.
Defined.

(** ** What the order of a set can change *)

Lemma rel_result_refl {G A} (r : exn + (A * G)) : rel_result eq r r.
Proof. destruct r as [e | [x g]]; simpl; auto. Qed.

Lemma rel_bind {G A B} (R : A -> A -> Prop) (S : B -> B -> Prop)
    (c1 c2 : M G A) (k1 k2 : A -> M G B) (g : G) :
  rel_result R (c1 g) (c2 g) ->
  (forall x1 x2 g', R x1 x2 -> rel_result S (k1 x1 g') (k2 x2 g')) ->
  rel_result S (bind c1 k1 g) (bind c2 k2 g).
Proof.
  unfold bind. intros Hc Hk.
  destruct (c1 g) as [e1 | [x1 g1]], (c2 g) as [e2 | [x2 g2]];
    simpl in Hc; try contradiction.
  - exact Hc.
  - destruct Hc as [HR <-]. now apply Hk.
Qed.

Lemma rel_bind_same {G A B} (S : B -> B -> Prop)
    (c : M G A) (k1 k2 : A -> M G B) (g : G) :
  (forall x g', rel_result S (k1 x g') (k2 x g')) ->
  rel_result S (bind c k1 g) (bind c k2 g).
Proof.
  intro Hk. apply (rel_bind eq); [apply rel_result_refl|].
  intros x1 x2 g' <-. apply Hk.
Qed.

Lemma agree_refl (e : Event.t) : agree_up_to_set_order e e.
Proof. unfold agree_up_to_set_order. repeat split; reflexivity. Qed.

Lemma agree_set_is_abandoned (v : Z) (e1 e2 : Event.t) :
  agree_up_to_set_order e1 e2 ->
  agree_up_to_set_order (Event.set_is_abandoned v e1)
                        (Event.set_is_abandoned v e2).
Proof.
  unfold agree_up_to_set_order. simpl. intro Ha.
  repeat match goal with
         | Hconj : _ /\ _ |- _ => destruct Hconj
         end.
  repeat split; assumption || reflexivity.
Qed.

Lemma mark_last_agree (ev1 ev2 : list Event.t) :
  Forall2 agree_up_to_set_order ev1 ev2 ->
  Forall2 agree_up_to_set_order (mark_last_abandoned ev1)
                                (mark_last_abandoned ev2).
Proof.
  induction 1 as [|e1 e2 l1 l2 He Hl IH]; [constructor|].
  destruct Hl as [|e1' e2' l1' l2' He' Hl'].
  - simpl. constructor; [now apply agree_set_is_abandoned | constructor].
  - change (Forall2 agree_up_to_set_order
              (e1 :: mark_last_abandoned (e1' :: l1'))
              (e2 :: mark_last_abandoned (e2' :: l2'))).
    constructor; assumption.
Qed.

Lemma abandon_override_agree (u : Q) (ev1 ev2 : list Event.t) :
  Forall2 agree_up_to_set_order ev1 ev2 ->
  Forall2 agree_up_to_set_order (abandon_override u ev1)
                                (abandon_override u ev2).
Proof.
  intro Hev. unfold abandon_override.
  rewrite (Forall2_length Hev).
  destruct (Qltb u 0.05 && (0 <? length ev2)%nat);
    [now apply mark_last_agree | assumption].
Qed.

Section SetOrderFacts.

Context {G : Type} `{Generator G}.
Variables so1 so2 : SetOrder.
Hypothesis so1_ok : set_order_ok so1.
Hypothesis so2_ok : set_order_ok so2.

Lemma set_orders_Permutation (xs : list string) :
  Permutation (so1 xs) (so2 xs).
Proof.
  transitivity (dedup xs); [apply so1_ok | symmetry; apply so2_ok].
Qed.

Lemma make_event_agree (env : SessionEnv) (cart : list string)
    (cand_id : string) (cand_item : MenuItem.t) (accepted : Z) :
  match make_event so1 env cart cand_id cand_item accepted,
        make_event so2 env cart cand_id cand_item accepted with
  | inl e1, inl e2 => e1 = e2
  | inr e1, inr e2 => agree_up_to_set_order e1 e2
  | _, _ => False
  end.
Proof.
  unfold make_event, ebind.
  destruct (emapM _ cart) as [e | records]; [reflexivity|].
  destruct (cart_last cart) as [e | last_id]; [reflexivity|].
  destruct (dict_index last_id (env_item_lookup env)) as [e | last_item];
    [reflexivity|].
  unfold agree_up_to_set_order. simpl.
  repeat split; try reflexivity; apply set_orders_Permutation.
Qed.

Lemma candidate_loop_agree (env : SessionEnv) (p : Q) (noise : list string) :
  forall cands cart ev1 ev2 g,
    Forall2 agree_up_to_set_order ev1 ev2 ->
    rel_result agree_cart_events
      (candidate_loop so1 env p noise cands cart ev1 g)
      (candidate_loop so2 env p noise cands cart ev2 g).
Proof.
  induction cands as [|cand_id rest IH]; intros cart ev1 ev2 g Hev.
  - simpl. unfold ret, agree_cart_events. simpl. auto.
  - simpl. apply rel_bind_same. intros item g1.
    apply rel_bind_same. intros u g2.
    apply (rel_bind agree_up_to_set_order).
    + unfold lift.
      pose proof (make_event_agree env cart cand_id item
                    (accept_label u (candidate_accept_prob p cand_id item noise
                                       (env_user env) (env_meal_time env))))
        as Hm.
      destruct (make_event so1 _ _ _ _ _), (make_event so2 _ _ _ _ _);
        simpl; auto.
    + intros e1 e2 g3 He. apply IH.
      apply Forall2_app; [assumption | constructor; [assumption | constructor]].
Qed.

Lemma role_step_agree (env : SessionEnv) (role : string) (cart : list string)
    (ev1 ev2 : list Event.t) (g : G) :
  Forall2 agree_up_to_set_order ev1 ev2 ->
  rel_result agree_cart_events
    (role_step so1 env role cart ev1 g) (role_step so2 env role cart ev2 g).
Proof.
  intro Hev. unfold role_step.
  destruct (is_nil (role_items_of (env_template env) role)).
  - unfold ret, agree_cart_events. simpl. auto.
  - apply rel_bind_same. intros p g1.
    apply rel_bind_same. intros noise g2.
    now apply candidate_loop_agree.
Qed.

Lemma roles_loop_agree (env : SessionEnv) :
  forall roles cart ev1 ev2 g,
    Forall2 agree_up_to_set_order ev1 ev2 ->
    rel_result agree_cart_events
      (roles_loop so1 env roles cart ev1 g) (roles_loop so2 env roles cart ev2 g).
Proof.
  induction roles as [|role roles IH]; intros cart ev1 ev2 g Hev.
  - simpl. unfold ret, agree_cart_events. simpl. auto.
  - simpl. apply (rel_bind agree_cart_events).
    + now apply role_step_agree.
    + intros [c1 e1] [c2 e2] g' [Hc He]. simpl in Hc, He. subst c2.
      now apply IH.
Qed.

Lemma session_agree (item_lookup : dict MenuItem.t)
    (all_item_ids : list string) (start_date : datetime.t)
    (user : UserProfile.t) (day_offset : Z) (ev1 ev2 : list Event.t)
    (c : nat) (g : G) :
  Forall2 agree_up_to_set_order ev1 ev2 ->
  rel_result agree_events_counter
    (session so1 item_lookup all_item_ids start_date user day_offset ev1 c g)
    (session so2 item_lookup all_item_ids start_date user day_offset ev2 c g).
Proof.
  intro Hev. unfold session.
  apply rel_bind_same. intros [[[ts mt] name] t] g1.
  destruct (is_nil (valid_anchors item_lookup t)).
  - unfold ret, agree_events_counter. simpl. auto.
  - apply rel_bind_same. intros anchor g2.
    apply rel_bind_same. intros u1 g3.
    apply (rel_bind agree_cart_events).
    + now apply roles_loop_agree.
    + intros [c1 e1] [c2 e2] g4 [_ He]. simpl in He.
      apply rel_bind_same. intros u2 g5.
      unfold ret, agree_events_counter. simpl.
      split; [|reflexivity]. split; [|reflexivity].
      now apply abandon_override_agree.
Qed.

Lemma sessions_loop_agree (item_lookup : dict MenuItem.t)
    (all_item_ids : list string) (start_date : datetime.t)
    (user : UserProfile.t) :
  forall order_dates ev1 ev2 c g,
    Forall2 agree_up_to_set_order ev1 ev2 ->
    rel_result agree_events_counter
      (sessions_loop so1 item_lookup all_item_ids start_date user order_dates
                     ev1 c g)
      (sessions_loop so2 item_lookup all_item_ids start_date user order_dates
                     ev2 c g).
Proof.
  induction order_dates as [|d rest IH]; intros ev1 ev2 c g Hev.
  - simpl. unfold ret, agree_events_counter. simpl. auto.
  - simpl. apply (rel_bind agree_events_counter).
    + now apply session_agree.
    + intros [e1 c1] [e2 c2] g' [He Hc]. simpl in He, Hc. subst c2.
      now apply IH.
Qed.

Lemma users_loop_agree (item_lookup : dict MenuItem.t)
    (all_item_ids : list string) (n_days : Z) (start_date : datetime.t) :
  forall users ev1 ev2 c g,
    Forall2 agree_up_to_set_order ev1 ev2 ->
    rel_result agree_events_counter
      (users_loop so1 item_lookup all_item_ids n_days start_date users ev1 c g)
      (users_loop so2 item_lookup all_item_ids n_days start_date users ev2 c g).
Proof.
  induction users as [|user rest IH]; intros ev1 ev2 c g Hev.
  - simpl. unfold ret, agree_events_counter. simpl. auto.
  - simpl. apply rel_bind_same. intros dates g1.
    apply (rel_bind agree_events_counter).
    + now apply sessions_loop_agree.
    + intros [e1 c1] [e2 c2] g' [He Hc]. simpl in He, Hc. subst c2.
      now apply IH.
Qed.

(** X2. Two runs of [generate_sessions] on the same users, catalog,
    number of days, start date and generator state, under any two
    iteration orders of sets, raise the same exception or return event
    lists of the same length that agree event by event on every key,
    ["cart_categories"] and ["cart_cuisines"] holding the same elements
    in possibly different orders. *)
Theorem set_order_only_reorders_set_fields (users : list UserProfile.t)
    (catalog : list MenuItem.t) (n_days : Z) (start_date : datetime.t)
    (rng : option G) (result1 result2 : exn + list Event.t) :
  generate_sessions so1 users catalog n_days start_date rng = result1 ->
  generate_sessions so2 users catalog n_days start_date rng = result2 ->
  match result1, result2 with
  | inl e1, inl e2 => e1 = e2
  | inr events1, inr events2 => Forall2 agree_up_to_set_order events1 events2
  | _, _ => False
  end.
Proof.
  intros <- <-. unfold generate_sessions.
  pose proof (users_loop_agree (build_item_lookup catalog)
                (dict_keys (build_item_lookup catalog)) n_days start_date
                users [] [] 0%nat
                (match rng with Some g => g | None => default_rng RANDOM_SEED end)
                (Forall2_nil _)) as Hrel.
  destruct (users_loop so1 _ _ _ _ _ _ _ _) as [e1 | [[ev1 c1] g1]],
           (users_loop so2 _ _ _ _ _ _ _ _) as [e2 | [[ev2 c2] g2]];
    simpl in Hrel; try contradiction.
  - exact Hrel.
  - destruct Hrel as [[Hev _] _]. exact Hev.
Qed.

End SetOrderFacts.

Lemma insertion_order_ok : set_order_ok insertion_order.
Proof. intro xs. apply Permutation_refl. Qed.

Lemma reverse_order_ok : set_order_ok reverse_order.
Proof. intro xs. symmetry. apply Permutation_rev. Qed.

Lemma set_order_only_reorders_set_fields_witness :
  set_order_ok insertion_order
  /\ set_order_ok reverse_order
  /\ exists events1 events2,
      generate_sessions insertion_order [user_regular] small_catalog 30
                        start_2025 (Some tape_run) = inr events1
      /\ generate_sessions reverse_order [user_regular] small_catalog 30
                           start_2025 (Some tape_run) = inr events2
      /\ Forall2 agree_up_to_set_order events1 events2.
Proof.
  split; [exact insertion_order_ok|]. split; [exact reverse_order_ok|].
  destruct (generate_sessions insertion_order [user_regular] small_catalog 30
              start_2025 (Some tape_run)) as [e1 | events1] eqn:H1;
    [vm_compute in H1; discriminate|].
  exists events1.
  destruct (generate_sessions reverse_order [user_regular] small_catalog 30
              start_2025 (Some tape_run)) as [e2 | events2] eqn:H2;
    [vm_compute in H2; discriminate|].
  exists events2. split; [reflexivity|]. split; [reflexivity|].
  exact (set_order_only_reorders_set_fields insertion_order reverse_order
           insertion_order_ok reverse_order_ok [user_regular] small_catalog
           30%Z start_2025 (Some tape_run) (inr events1) (inr events2) H1 H2).
Defined.

(** ** The role of the loop and the catalog's [meal_role] *)

(** X3. The key ["candidate_meal_role"] of an event is the [meal_role]
    the catalog gives the candidate, not the role of the loop iteration
    that emitted the event: in this session the first event, emitted by
    the complement role, carries an item whose [meal_role] is ["addon"],
    and the fifth event, the first one emitted by the addon role,
    carries an item whose [meal_role] is ["complement"]. *)
Lemma candidate_meal_role_is_not_the_loop_role :
  exists cart1 cart2 complement_events addon_events g1 g2 e1 e2,
    role_step insertion_order lunch_env "complement" ["ITEM_014"] [] tape_roles
    = inr ((cart1, complement_events), g1)
    /\ role_step insertion_order lunch_env "addon" cart1 [] g1
       = inr ((cart2, addon_events), g2)
    /\ nth_error complement_events 0 = Some e1
    /\ nth_error addon_events 0 = Some e2
    /\ Event.candidate_item_id e1 = "ITEM_043"
    /\ Event.candidate_meal_role e1 = "addon"
    /\ Event.candidate_item_id e2 = "ITEM_037"
    /\ Event.candidate_meal_role e2 = "complement".
Proof.
  destruct (role_step insertion_order lunch_env "complement" ["ITEM_014"] []
              tape_roles) as [e | [[cart1 ev1] g1]] eqn:H1;
    [vm_compute in H1; discriminate|].
  vm_compute in H1. injection H1 as <- <- <-.
  match goal with
  | |- exists c1 c2 ce ae g1 g2 e1 e2, inr (?c, ?ev, ?g) = _ /\ _ =>
      destruct (role_step insertion_order lunch_env "addon" c [] g)
        as [e | [[cart2 ev2] g2]] eqn:H2;
      [vm_compute in H2; discriminate|];
      exists c, cart2, ev, ev2, g, g2
  end.
  vm_compute in H2. injection H2 as <- <- <-.
  do 2 eexists. repeat split; reflexivity.
Qed.

(* ================================================================== *)
(** * More properties of the module *)

(** ** The range-respecting generator meets the laws *)

Lemma on_tape_fst {A} (f : tape -> A * tape) (t : unit_tape) :
  fst (on_tape f t) = fst (f (map clamp_unit (unit_draws t))).
Proof. unfold on_tape. now destruct (f _). Qed.

Lemma clamp_unit_range (u : Q) : 0 <= clamp_unit u /\ clamp_unit u < 1.
Proof.
  unfold clamp_unit.
  destruct (Qltb u 0) eqn:E0; [lra|]. apply Qltb_false in E0.
  destruct (Qltb u 1) eqn:E1; [apply Qltb_true in E1; lra | lra].
Qed.

Lemma tape_next_unit (g : tape) :
  Forall (fun u => 0 <= u /\ u < 1) g ->
  (0 <= fst (tape_next g) /\ fst (tape_next g) < 1)
  /\ Forall (fun u => 0 <= u /\ u < 1) (snd (tape_next g)).
Proof.
  intro Hall. destruct g as [|u g]; simpl.
  - split; [lra | constructor].
  - inversion Hall; subst. auto.
Qed.

Lemma clamped_unit (g : tape) :
  Forall (fun u => 0 <= u /\ u < 1) (map clamp_unit g).
Proof.
  apply Forall_map. apply Forall_forall. intros u _. apply clamp_unit_range.
Qed.

Lemma Qfloor_scaled_range (u : Q) (n : Z) :
  (0 < n)%Z -> 0 <= u -> u < 1 -> (0 <= Qfloor (u * inject_Z n) < n)%Z.
Proof.
  intros Hn Hu0 Hu1.
  assert (Hn' : 0 < inject_Z n) by (change 0 with (inject_Z 0); now rewrite <- Zlt_Qlt).
  split.
  - change 0%Z with (Qfloor (inject_Z 0)). apply Qfloor_resp_le.
    change (inject_Z 0) with 0. apply Qmult_le_0_compat; lra.
  - apply Z.lt_nge. intro Hge.
    assert (inject_Z n <= inject_Z (Qfloor (u * inject_Z n)))
      by now rewrite <- Zle_Qle.
    pose proof (Qfloor_le (u * inject_Z n)) as Hfl.
    assert (u * inject_Z n < 1 * inject_Z n)
      by (apply Qmult_lt_compat_r; assumption).
    lra.
Qed.

Lemma tape_choice_int_spec (n : Z) :
  forall size g,
    length (fst (tape_choice_int n size g)) = size
    /\ ((0 < n)%Z -> Forall (fun u => 0 <= u /\ u < 1) g ->
        Forall (fun d => (0 <= d < n)%Z) (fst (tape_choice_int n size g))).
Proof.
  induction size as [|k IH]; intro g; simpl.
  - split; [reflexivity | constructor].
  - destruct (tape_next g) as [u g1] eqn:Enext.
    specialize (IH g1). destruct (tape_choice_int n k g1) as [r g2].
    simpl in *. destruct IH as [IHlen IHrange]. split; [now rewrite IHlen|].
    intros Hn Hg. apply tape_next_unit in Hg. rewrite Enext in Hg.
    simpl in Hg. destruct Hg as [[Hu0 Hu1] Hg1].
    constructor; [now apply Qfloor_scaled_range | now apply IHrange].
Qed.

#[export] Instance UnitTapeLaws : GeneratorLaws unit_tape.
Proof.
  constructor.
  - intros a p g Ha. simpl. rewrite on_tape_fst. unfold tape_choice_p.
    destruct (tape_next _) as [u g1]. simpl. now apply pick_cdf_In.
  - intros a size g Hnd Hle. simpl. rewrite on_tape_fst.
    now apply tape_choice_noreplace_spec.
  - intros a size g Hle. simpl. rewrite on_tape_fst.
    now apply tape_choice_noreplace_spec.
  - intros a size g Hle. simpl. rewrite on_tape_fst.
    now apply tape_choice_noreplace_spec.
Qed.

#[export] Instance UnitTapeChoiceLaws : ChoiceLaws unit_tape.
Proof.
  constructor.
  - intros n size g. simpl. rewrite on_tape_fst. apply tape_choice_int_spec.
  - intros n size g Hn. simpl. rewrite on_tape_fst.
    apply tape_choice_int_spec; [assumption | apply clamped_unit].
Qed.

#[export] Instance UnitTapeSamplerLaws : SamplerLaws unit_tape.
Proof.
  constructor.
  - intros low high g Hlt. simpl. rewrite on_tape_fst. unfold tape_integers.
    destruct (tape_next _) as [u g1]. simpl. lia.
  - intros a b g. simpl. rewrite on_tape_fst. unfold tape_beta.
    destruct (tape_next _) as [u g1]. simpl. unfold np_clip.
    destruct (Qltb u 0) eqn:E0; [lra|]. apply Qltb_false in E0.
    destruct (Qltb 1 u) eqn:E1; [lra|]. apply Qltb_false in E1. lra.
Qed.

(** ** Session and user ids *)

Lemma string_of_uint_pad (k : nat) (d : Decimal.uint) :
  zero_pad k (NilEmpty.string_of_uint d)
  = NilEmpty.string_of_uint (Nat.iter k Decimal.D0 d).
Proof.
  induction k as [|k IH]; simpl; [reflexivity|]. now rewrite IH.
Qed.

Lemma string_of_to_uint (n : nat) :
  NilZero.string_of_uint (Nat.to_uint n)
  = NilEmpty.string_of_uint (Nat.to_uint n).
Proof.
  unfold NilZero.string_of_uint.
  destruct (Nat.to_uint n) eqn:E; try reflexivity.
  exfalso. pose proof (DecimalNat.Unsigned.to_of (Nat.to_uint n)) as Hn.
  rewrite DecimalNat.Unsigned.of_to in Hn.
  apply (DecimalFacts.unorm_nonnil (Nat.to_uint n)). now rewrite <- Hn.
Qed.

(** A zero-padded decimal numeral reads back as the number. *)
Lemma parse_zero_pad (k n : nat) :
  parse_decimal (zero_pad k (NilZero.string_of_uint (Nat.to_uint n))) = Some n.
Proof.
  unfold parse_decimal.
  rewrite string_of_to_uint, string_of_uint_pad, NilEmpty.usu. simpl.
  f_equal.
  rewrite <- (DecimalNat.Unsigned.of_to n) at 2.
  rewrite <- (DecimalNat.Unsigned.of_uint_norm (Nat.iter k Decimal.D0 _)).
  rewrite DecimalFacts.unorm_iter_D0.
  apply DecimalNat.Unsigned.of_uint_norm.
Qed.

Lemma format_07d_pad (n : nat) :
  exists k, format_07d n = zero_pad k (NilZero.string_of_uint (Nat.to_uint n)).
Proof.
  unfold format_07d. cbv zeta.
  exists (7 - String.length (NilZero.string_of_uint (Nat.to_uint n)))%nat.
  induction (7 - String.length (NilZero.string_of_uint (Nat.to_uint n)))%nat
    as [|k IH]; simpl; [reflexivity | now rewrite IH].
Qed.

Lemma format_05d_pad (n : nat) :
  exists k, format_05d n = zero_pad k (NilZero.string_of_uint (Nat.to_uint n)).
Proof.
  unfold format_05d. cbv zeta.
  exists (5 - String.length (NilZero.string_of_uint (Nat.to_uint n)))%nat.
  induction (5 - String.length (NilZero.string_of_uint (Nat.to_uint n)))%nat
    as [|k IH]; simpl; [reflexivity | now rewrite IH].
Qed.

Lemma parse_format_07d (n : nat) : parse_decimal (format_07d n) = Some n.
Proof.
  destruct (format_07d_pad n) as [k ->]. apply parse_zero_pad.
Qed.

Lemma parse_format_05d (n : nat) : parse_decimal (format_05d n) = Some n.
Proof.
  destruct (format_05d_pad n) as [k ->]. apply parse_zero_pad.
Qed.

(** ** [_sample_timestamp] *)

Lemma np_clip_range (x lo hi : Q) :
  lo <= hi -> lo <= np_clip x lo hi /\ np_clip x lo hi <= hi.
Proof.
  intro Hle. unfold np_clip.
  destruct (Qltb x lo) eqn:E0; [lra|]. apply Qltb_false in E0.
  destruct (Qltb hi x) eqn:E1; [lra|]. apply Qltb_false in E1. lra.
Qed.

Lemma clock_of_hour (x : Q) :
  0 <= x -> x <= 23.99 ->
  (0 <= Qfloor x <= 23)%Z
  /\ (0 <= Qfloor ((x - inject_Z (Qfloor x)) * 60) <= 59)%Z.
Proof.
  intros H0 H1.
  pose proof (Qfloor_le x) as Hfl. pose proof (Qlt_floor x) as Hlt.
  split; [split|split].
  - change 0%Z with (Qfloor (inject_Z 0)). now apply Qfloor_resp_le.
  - apply Z.lt_succ_r. apply Z.lt_nge. intro Hge.
    assert (inject_Z 24 <= inject_Z (Qfloor x)) by now rewrite <- Zle_Qle.
    change (inject_Z 24) with 24 in *. lra.
  - change 0%Z with (Qfloor (inject_Z 0)). apply Qfloor_resp_le.
    change (inject_Z 0) with 0. lra.
  - apply Z.lt_succ_r. apply Z.lt_nge. intro Hge.
    assert (Hq : inject_Z 60 <= inject_Z (Qfloor ((x - inject_Z (Qfloor x)) * 60)))
      by now rewrite <- Zle_Qle.
    pose proof (Qfloor_le ((x - inject_Z (Qfloor x)) * 60)) as Hfl2.
    change (inject_Z 60) with 60 in *.
    assert (Hone : inject_Z (Qfloor x + 1) == inject_Z (Qfloor x) + 1)
      by (rewrite inject_Z_plus; reflexivity).
    lra.
Qed.

Section TimestampFacts.

Context {G : Type} `{Generator G}.

Lemma _sample_timestamp_inv (base_date ts : datetime.t) (g g' : G) :
  _sample_timestamp base_date g = inr (ts, g') -> sampled_on base_date ts.
Proof.
  unfold _sample_timestamp. intro Hrun.
  apply bind_inr in Hrun as (peak & g1 & _ & Hrun).
  apply bind_inr in Hrun as (hour0 & g2 & _ & Hrun).
  unfold ret in Hrun. injection Hrun as <- <-.
  destruct (np_clip_range hour0 0 23.99) as [Hlo Hhi]; [lra|].
  destruct (clock_of_hour _ Hlo Hhi) as [Hh Hm].
  unfold sampled_on. eauto.
Qed.

(** X4. [_sample_timestamp] never raises, and the timestamp it returns
    is on the date of [base_date]: the same day and microsecond, an hour
    of 0..23, a minute of 0..59, and second 0, whatever the generator
    returns for the hour. *)
Theorem sample_timestamp_on_base_date (base_date : datetime.t) (g : G) :
  exists ts g',
    _sample_timestamp base_date g = inr (ts, g')
    /\ datetime.ordinal ts = datetime.ordinal base_date
    /\ (0 <= datetime.hour ts <= 23)%Z
    /\ (0 <= datetime.minute ts <= 59)%Z
    /\ datetime.second ts = 0%Z
    /\ datetime.microsecond ts = datetime.microsecond base_date.
Proof.
  destruct (_sample_timestamp_total base_date g) as (ts & g' & Hrun).
  exists ts, g'. split; [exact Hrun|].
  apply _sample_timestamp_inv in Hrun as (h & m & -> & Hh & Hm).
  simpl. auto.
Qed.

End TimestampFacts.

(** ** Where the events of a session come from *)

Lemma emapM_lookup_present (item_lookup : dict MenuItem.t) :
  forall cart records,
    emapM (fun cid => dict_index cid item_lookup) cart = inr records ->
    records = lookup_present item_lookup cart
    /\ Forall (fun cid => dict_mem cid item_lookup = true) cart.
Proof.
  induction cart as [|cid cart IH]; intros records Hrun; simpl in Hrun.
  - injection Hrun as <-. split; [reflexivity | constructor].
  - apply ebind_inr in Hrun as (y & Hy & Hrun).
    apply ebind_inr in Hrun as (ys & Hys & Hrun).
    injection Hrun as <-. apply dict_index_inr in Hy.
    destruct (IH _ Hys) as [-> Hall].
    unfold lookup_present. simpl. rewrite Hy. split; [reflexivity|].
    constructor; [|assumption].
    apply dict_mem_In_keys. eapply dict_get_In_keys; eauto.
Qed.

Lemma mark_last_abandoned_Forall2 {A} (R : A -> Event.t -> Prop) :
  (forall a e, R a e -> R a (Event.set_is_abandoned 1 e)) ->
  forall xs events,
    Forall2 R xs events -> Forall2 R xs (mark_last_abandoned events).
Proof.
  intros Hclosed xs events Hall.
  induction Hall as [|x e xs events Hxe Hall IH]; [constructor|].
  destruct events as [|e' events'].
  - inversion Hall; subst. simpl. constructor; auto.
  - change (mark_last_abandoned (e :: e' :: events'))
      with (e :: mark_last_abandoned (e' :: events')).
    constructor; assumption.
Qed.

Lemma abandon_override_Forall2 {A} (R : A -> Event.t -> Prop) (u : Q) :
  (forall a e, R a e -> R a (Event.set_is_abandoned 1 e)) ->
  forall xs events,
    Forall2 R xs events -> Forall2 R xs (abandon_override u events).
Proof.
  intros Hclosed xs events Hall. unfold abandon_override.
  destruct (Qltb u 0.05 && (0 <? length events)%nat); [|assumption].
  now apply mark_last_abandoned_Forall2.
Qed.

Lemma abandon_override_Forall_closed (P : Event.t -> Prop) (u : Q) :
  (forall e, P e -> P (Event.set_is_abandoned 1 e)) ->
  forall events, Forall P events -> Forall P (abandon_override u events).
Proof.
  intros Hclosed events Hall.
  assert (H2 : Forall2 (fun _ e => P e) events events).
  { induction Hall; constructor; auto. }
  apply (abandon_override_Forall2 (fun (_ : Event.t) e => P e) u) in H2.
  - clear Hall. remember (abandon_override u events) as out. clear Heqout.
    induction H2; constructor; auto.
  - intros _ e. apply Hclosed.
Qed.

Lemma abandon_override_map {A} (f : Event.t -> A) (u : Q) :
  (forall e, f (Event.set_is_abandoned 1 e) = f e) ->
  forall events, map f (abandon_override u events) = map f events.
Proof.
  intros Hf events. unfold abandon_override.
  destruct (Qltb u 0.05 && (0 <? length events)%nat); [|reflexivity].
  induction events as [|e events IH]; [reflexivity|].
  destruct events as [|e' events'].
  - simpl. now rewrite Hf.
  - change (mark_last_abandoned (e :: e' :: events'))
      with (e :: mark_last_abandoned (e' :: events')).
    rewrite (map_cons f e (mark_last_abandoned (e' :: events'))), IH.
    reflexivity.
Qed.

Section EventOrigin.

Context {G : Type} `{Generator G}.
Variable set_to_list : SetOrder.

Lemma make_event_inv (env : SessionEnv) (cart : list string)
    (cand_id : string) (cand_item : MenuItem.t) (accepted : Z) (e : Event.t) :
  make_event set_to_list env cart cand_id cand_item accepted = inr e ->
  exists last_id last_item,
    Forall (fun cid => dict_mem cid (env_item_lookup env) = true) cart
    /\ cart_last cart = inr last_id
    /\ dict_get last_id (env_item_lookup env) = Some last_item
    /\ make_event set_to_list env cart cand_id cand_item accepted
       = (let cart_records := lookup_present (env_item_lookup env) cart in
          let user := env_user env in
          let timestamp := env_timestamp env in
          inr (Event.mk
                 (env_session_id env) (UserProfile.user_id user)
                 (UserProfile.city user) (UserProfile.segment user)
                 (py_round (UserProfile.veg_preference user) 3)
                 (py_round (UserProfile.price_sensitivity user) 3)
                 timestamp (env_meal_time env)
                 (datetime.weekday timestamp) (datetime.hour timestamp)
                 (bool_to_int (5 <=? datetime.weekday timestamp)%Z)
                 cart (Z.of_nat (length cart))
                 (Qsum (map MenuItem.price cart_records))
                 (if is_nil cart then 0.0
                  else py_round
                         (inject_Z (Z.of_nat
                            (length (filter MenuItem.is_veg cart_records)))
                          / inject_Z (Z.of_nat (length cart))) 2)
                 last_id (MenuItem.category last_item)
                 (MenuItem.cuisine last_item)
                 (set_to_list (map MenuItem.category cart_records))
                 (set_to_list (map MenuItem.cuisine cart_records))
                 cand_id (MenuItem.category cand_item)
                 (MenuItem.cuisine cand_item) (MenuItem.price cand_item)
                 (bool_to_int (MenuItem.is_veg cand_item))
                 (MenuItem.meal_role cand_item)
                 (MenuItem.popularity_score cand_item)
                 accepted (env_template_name env)
                 (bool_to_int (env_is_abandoned env)))).
Proof.
  intro Hm. pose proof Hm as Hm0. unfold make_event in Hm.
  apply ebind_inr in Hm as (records & Hrec & Hm).
  apply ebind_inr in Hm as (last_id & Hlast & Hm).
  apply ebind_inr in Hm as (last_item & Hitem & Hm).
  apply emapM_lookup_present in Hrec as [-> Hall].
  exists last_id, last_item. repeat split; try assumption.
  - now apply dict_index_inr.
  - rewrite Hm0, <- Hm. reflexivity.
Qed.

Lemma hd_error_app {A} (l l' : list A) (x : A) :
  hd_error l = Some x -> hd_error (l ++ l')%list = Some x.
Proof. destruct l; [discriminate | auto]. Qed.

Lemma accept_label_cases (u p : Q) :
  (accept_label u p = 0 \/ accept_label u p = 1)%Z.
Proof. unfold accept_label. destruct (Qltb u p); auto. Qed.

Lemma candidate_loop_made (env : SessionEnv) (p : Q) (noise : list string)
    (anchor_id : string) :
  dict_mem (UserProfile.segment (env_user env)) SEGMENT_MULTIPLIER = true ->
  forall cands cart events g cart' events' g',
    hd_error cart = Some anchor_id ->
    candidate_loop set_to_list env p noise cands cart events g
    = inr ((cart', events'), g') ->
    hd_error cart' = Some anchor_id
    /\ exists new,
        events' = (events ++ new)%list
        /\ Forall (made_in set_to_list env anchor_id) new.
Proof.
  intro Hseg.
  induction cands as [|cand_id rest IH];
    intros cart events g cart' events' g' Hhd Hrun.
  - simpl in Hrun. unfold ret in Hrun. injection Hrun as <- <- <-.
    split; [assumption|]. exists []. rewrite app_nil_r. auto.
  - simpl in Hrun.
    apply bind_inr in Hrun as (item & g1 & Hitem & Hrun).
    apply lift_inr in Hitem as [Hitem ->].
    apply dict_index_inr in Hitem.
    apply bind_inr in Hrun as (u & g2 & Hu & Hrun).
    apply bind_inr in Hrun as (e & g3 & He & Hrun).
    apply lift_inr in He as [He ->].
    apply IH in Hrun.
    + destruct Hrun as (Hhd' & new & -> & Hall).
      split; [assumption|]. exists (e :: new).
      rewrite <- app_assoc. split; [reflexivity|].
      constructor; [|assumption].
      exists cart, cand_id, item, (accept_label u
        (candidate_accept_prob p cand_id item noise (env_user env)
           (env_meal_time env))).
      repeat split; try assumption. apply accept_label_cases.
    + destruct (_ =? 1)%Z; [now apply hd_error_app | assumption].
Qed.

Lemma role_step_made (env : SessionEnv) (role : string) (anchor_id : string)
    (cart : list string) (events : list Event.t) (g : G)
    (cart' : list string) (events' : list Event.t) (g' : G) :
  hd_error cart = Some anchor_id ->
  role_step set_to_list env role cart events g = inr ((cart', events'), g') ->
  hd_error cart' = Some anchor_id
  /\ exists new,
      events' = (events ++ new)%list
      /\ Forall (made_in set_to_list env anchor_id) new.
Proof.
  intros Hhd Hrun. unfold role_step in Hrun.
  destruct (is_nil (role_items_of (env_template env) role)).
  - unfold ret in Hrun. injection Hrun as <- <- <-.
    split; [assumption|]. exists []. rewrite app_nil_r. auto.
  - apply bind_inr in Hrun as (p & g1 & Hp & Hrun).
    apply bind_inr in Hrun as (noise & g2 & _ & Hrun).
    apply lift_inr in Hp as [Hp _].
    apply role_accept_prob_inv in Hp as (m & Hm & _).
    eapply candidate_loop_made; eauto.
    unfold dict_mem. now rewrite Hm.
Qed.

Lemma roles_loop_made (env : SessionEnv) (anchor_id : string) :
  forall roles cart events g cart' events' g',
    hd_error cart = Some anchor_id ->
    roles_loop set_to_list env roles cart events g
    = inr ((cart', events'), g') ->
    exists new,
      events' = (events ++ new)%list
      /\ Forall (made_in set_to_list env anchor_id) new.
Proof.
  induction roles as [|role roles IH];
    intros cart events g cart' events' g' Hhd Hrun.
  - simpl in Hrun. unfold ret in Hrun. injection Hrun as <- <- <-.
    exists []. rewrite app_nil_r. auto.
  - apply roles_loop_cons in Hrun as (cart1 & events1 & g1 & Hstep & Hrun).
    apply role_step_made with (anchor_id := anchor_id) in Hstep;
      [|assumption].
    destruct Hstep as (Hhd1 & new1 & -> & Hall1).
    apply IH in Hrun; [|assumption].
    destruct Hrun as (new2 & -> & Hall2).
    exists (new1 ++ new2)%list. rewrite app_assoc. split; [reflexivity|].
    apply Forall_app. auto.
Qed.

(** A session leaves [events] as it was, or appends the events of one
    environment and applies the override to the whole list. *)
Lemma session_events (item_lookup : dict MenuItem.t)
    (all_item_ids : list string) (start_date : datetime.t)
    (user : UserProfile.t) (day_offset : Z)
    (events : list Event.t) (c : nat) (g : G)
    (events' : list Event.t) (c' : nat) (g' : G) :
  session set_to_list item_lookup all_item_ids start_date user day_offset
          events c g = inr ((events', c'), g') ->
  c' = S c
  /\ (events' = events
      \/ exists env anchor_id new u,
          session_of item_lookup all_item_ids start_date user day_offset
                     (S c) env anchor_id
          /\ Forall (made_in set_to_list env anchor_id) new
          /\ events' = abandon_override u (events ++ new)%list).
Proof.
  intro Hrun. apply session_inv in Hrun as (-> & ts & mt & name & t & g1 & Hpre & Hcase).
  split; [reflexivity|].
  destruct Hcase as [(_ & -> & _) | (Hvalid & anchor_id & g2 & cart' & events1 & g3 & Hsel & Hroles & -> & _)];
    [now left | right].
  pose proof Hpre as Hpre0.
  apply session_prelude_inv in Hpre as [Hname ->].
  apply roles_loop_made with (anchor_id := anchor_id) in Hroles;
    [|reflexivity].
  destruct Hroles as (new & -> & Hall).
  eexists _, anchor_id, new, _. split; [|split; [exact Hall | reflexivity]].
  unfold session_prelude in Hpre0.
  apply bind_inr in Hpre0 as (base & gb & Hbase & Hpre0).
  apply lift_inr in Hbase as [Hbase ->].
  apply add_days_inr in Hbase as [-> Hrange].
  apply bind_inr in Hpre0 as (ts' & g4 & Hts & Hpre0).
  apply bind_inr in Hpre0 as ([name' t'] & g5 & Hch & Hpre0).
  unfold ret in Hpre0. injection Hpre0 as Hts' _ Hname' Ht' Hg5.
  subst ts' name' t' g5.
  exists ts, name, t, (Qltb (fst (random g2)) 0.08), g4, g1, g2.
  split; [reflexivity|]. split; [assumption|].
  split; [|split; [|split]]; try assumption.
  exact (_sample_timestamp_inv _ _ _ _ Hts).
Qed.

End EventOrigin.

(** ** [sorted] *)

Lemma insert_sorted_In (x y : Z) (l : list Z) :
  In y (insert_sorted x l) <-> y = x \/ In y l.
Proof.
  induction l as [|z l IH]; simpl.
  - intuition.
  - destruct (x <? z)%Z; simpl; [intuition|]. rewrite IH. intuition.
Qed.

Lemma sorted_In (y : Z) (l : list Z) : In y (sorted l) <-> In y l.
Proof.
  induction l as [|x l IH]; simpl; [reflexivity|].
  rewrite insert_sorted_In, IH. intuition.
Qed.

Lemma insert_sorted_length (x : Z) (l : list Z) :
  length (insert_sorted x l) = S (length l).
Proof.
  induction l as [|z l IH]; simpl; [reflexivity|].
  destruct (x <? z)%Z; simpl; [reflexivity | now rewrite IH].
Qed.

Lemma sorted_length (l : list Z) : length (sorted l) = length l.
Proof.
  induction l as [|x l IH]; simpl; [reflexivity|].
  now rewrite insert_sorted_length, IH.
Qed.

(** ** Invariants of the run that see the counter, the user and the day *)

Section RunOrigin.

Context {G : Type} `{Generator G}.
Variable set_to_list : SetOrder.

Lemma sessions_loop_state (P : list Event.t -> nat -> Prop)
    (item_lookup : dict MenuItem.t) (all_item_ids : list string)
    (start_date : datetime.t) (user : UserProfile.t) :
  forall order_dates,
    (forall day_offset events c g events' c' g',
        In day_offset order_dates -> P events c ->
        session set_to_list item_lookup all_item_ids start_date user
                day_offset events c g = inr ((events', c'), g') ->
        P events' c') ->
    forall events c g events' c' g',
      P events c ->
      sessions_loop set_to_list item_lookup all_item_ids start_date user
                    order_dates events c g = inr ((events', c'), g') ->
      P events' c'.
Proof.
  induction order_dates as [|d rest IH];
    intros Hstep events c g events' c' g' HP Hrun; simpl in Hrun.
  - unfold ret in Hrun. injection Hrun as <- <- <-. exact HP.
  - apply bind_inr in Hrun as ([events1 c1] & g1 & Hs & Hrun).
    apply (IH (fun d' ev k g0 ev' k' g0' Hin =>
                 Hstep d' ev k g0 ev' k' g0' (or_intror Hin))
              events1 c1 g1 events' c' g'); [|exact Hrun].
    eapply Hstep; [now left | exact HP | exact Hs].
Qed.

Lemma users_loop_state (P : list Event.t -> nat -> Prop) (D : Z -> Prop)
    (item_lookup : dict MenuItem.t) (all_item_ids : list string)
    (n_days : Z) (start_date : datetime.t) :
  (forall size g l g',
      rng_choice_int n_days size g = inr (l, g') -> Forall D l) ->
  forall users,
    (forall user day_offset events c g events' c' g',
        In user users -> D day_offset -> P events c ->
        session set_to_list item_lookup all_item_ids start_date user
                day_offset events c g = inr ((events', c'), g') ->
        P events' c') ->
    forall events c g events' c' g',
      P events c ->
      users_loop set_to_list item_lookup all_item_ids n_days start_date
                 users events c g = inr ((events', c'), g') ->
      P events' c'.
Proof.
  intro Hdays.
  induction users as [|user rest IH];
    intros Hstep events c g events' c' g' HP Hrun; simpl in Hrun.
  - unfold ret in Hrun. injection Hrun as <- <- <-. exact HP.
  - apply bind_inr in Hrun as (dates & g1 & Hdates & Hrun).
    apply bind_inr in Hrun as ([events1 c1] & g2 & Hs & Hrun).
    apply Hdays in Hdates.
    apply (IH (fun u d ev k g0 ev' k' g0' Hin =>
                 Hstep u d ev k g0 ev' k' g0' (or_intror Hin))
              events1 c1 g2 events' c' g'); [|exact Hrun].
    apply (sessions_loop_state P item_lookup all_item_ids start_date user
             (sorted dates)) with (events := events) (c := c) (g := g1)
                                  (g' := g2); [|exact HP|exact Hs].
    intros d ev k g0 ev' k' g0' Hin HPev Hsess.
    apply (Hstep user d ev k g0 ev' k' g0');
      [now left | | exact HPev | exact Hsess].
    apply (proj1 (sorted_In _ _)) in Hin.
    rewrite Forall_forall in Hdates. auto.
Qed.

Lemma generate_sessions_state (P : list Event.t -> nat -> Prop)
    (D : Z -> Prop) (users : list UserProfile.t)
    (catalog : list MenuItem.t) (n_days : Z) (start_date : datetime.t)
    (rng : option G) (events : list Event.t) :
  (forall size g l g',
      rng_choice_int n_days size g = inr (l, g') -> Forall D l) ->
  (forall user day_offset events c g events' c' g',
      In user users -> D day_offset -> P events c ->
      session set_to_list (build_item_lookup catalog)
              (dict_keys (build_item_lookup catalog)) start_date user
              day_offset events c g = inr ((events', c'), g') ->
      P events' c') ->
  P [] 0%nat ->
  generate_sessions set_to_list users catalog n_days start_date rng
  = inr events ->
  exists c, P events c.
Proof.
  intros Hdays Hstep H0 Hrun. unfold generate_sessions in Hrun.
  destruct (users_loop _ _ _ _ _ _ _ _ _) as [e | [[events' c'] g']] eqn:E;
    [discriminate|].
  injection Hrun as <-. exists c'.
  eapply users_loop_state; eauto.
Qed.

(** Every event of the output was built by [make_event] in the
    environment of some session, up to the override. *)
Lemma generate_sessions_Forall (Q : Event.t -> Prop) (D : Z -> Prop)
    (users : list UserProfile.t)
    (catalog : list MenuItem.t) (n_days : Z) (start_date : datetime.t)
    (rng : option G) (events : list Event.t) :
  (forall size g l g',
      rng_choice_int n_days size g = inr (l, g') -> Forall D l) ->
  (forall e, Q e -> Q (Event.set_is_abandoned 1 e)) ->
  (forall user day_offset k env anchor_id e,
      In user users -> D day_offset ->
      session_of (build_item_lookup catalog)
                 (dict_keys (build_item_lookup catalog)) start_date
                 user day_offset k env anchor_id ->
      made_in set_to_list env anchor_id e -> Q e) ->
  generate_sessions set_to_list users catalog n_days start_date rng
  = inr events ->
  Forall Q events.
Proof.
  intros Hdays Hclosed Hmade Hrun.
  destruct (generate_sessions_state (fun events _ => Forall Q events) D
              users catalog n_days start_date rng events Hdays)
    as [_ Hall]; auto.
  intros user d ev c g ev' c' g' Hu Hd HP Hs.
  apply session_events in Hs as [_ [-> | (env & a & new & u & Hof & Hnew & ->)]];
    [assumption|].
  apply abandon_override_Forall_closed; [assumption|].
  apply Forall_app. split; [assumption|].
  eapply Forall_impl; [|exact Hnew]. intros e He. eapply Hmade; eauto.
Qed.

Lemma any_day (n_days : Z) :
  forall size g l g',
    rng_choice_int n_days size g = inr (l, g') -> Forall (fun _ => True) l.
Proof. intros. apply Forall_forall. auto. Qed.

End RunOrigin.

(** ** The fields of one event *)

Lemma py_round_unit (x : Q) (ndigits : nat) :
  0 <= x <= 1 -> 0 <= py_round x ndigits <= 1.
Proof.
  intros [H0 H1]. unfold py_round.
  set (p := (10 ^ Z.of_nat ndigits)%Z).
  assert (Hp : (0 < p)%Z) by (apply Z.pow_pos_nonneg; lia).
  assert (Hpq : 0 < inject_Z p)
    by (change 0 with (inject_Z 0); now rewrite <- Zlt_Qlt).
  set (s := x * inject_Z p).
  assert (Hs0 : 0 <= s) by (apply Qmult_le_0_compat; lra).
  assert (Hs1 : s <= inject_Z p).
  { unfold s. setoid_replace (inject_Z p) with (1 * inject_Z p) at 2 by ring.
    apply Qmult_le_compat_r; lra. }
  pose proof (Qfloor_le s) as Hfl. pose proof (Qlt_floor s) as Hlt.
  assert (Hf0 : (0 <= Qfloor s)%Z).
  { change 0%Z with (Qfloor (inject_Z 0)). now apply Qfloor_resp_le. }
  assert (Hf1 : (Qfloor s <= p)%Z).
  { rewrite <- (Qfloor_Z p). now apply Qfloor_resp_le. }
  assert (Hone : inject_Z (Qfloor s + 1) == inject_Z (Qfloor s) + 1)
    by (rewrite inject_Z_plus; reflexivity).
  set (n := if Qltb (s - inject_Z (Qfloor s)) (1 # 2) then Qfloor s
            else if Qltb (1 # 2) (s - inject_Z (Qfloor s))
                 then (Qfloor s + 1)%Z
                 else if Z.even (Qfloor s) then Qfloor s
                      else (Qfloor s + 1)%Z).
  assert (Hn : (0 <= n <= p)%Z).
  { destruct (Z.eq_dec (Qfloor s) p) as [Heq | Hne].
    - assert (Hr : s - inject_Z (Qfloor s) <= 0) by (rewrite Heq; lra).
      unfold n. destruct (Qltb (s - inject_Z (Qfloor s)) (1 # 2)) eqn:E; [lia|].
      apply Qltb_false in E. lra.
    - unfold n. repeat match goal with
                       | |- context [if ?b then _ else _] => destruct b
                       end; lia. }
  rewrite Qred_correct.
  destruct Hn as [Hn0 Hn1].
  rewrite Zle_Qle in Hn0, Hn1. change (inject_Z 0) with 0 in Hn0.
  split.
  - apply Qle_shift_div_l; [assumption | lra].
  - apply Qle_shift_div_r; [assumption | lra].
Qed.

Lemma lookup_present_length (item_lookup : dict MenuItem.t)
    (ids : list string) :
  (length (lookup_present item_lookup ids) <= length ids)%nat.
Proof.
  unfold lookup_present.
  induction ids as [|i ids IH]; simpl; [lia|].
  rewrite length_app. destruct (dict_get i item_lookup); simpl; lia.
Qed.

Lemma weekday_range (dt : datetime.t) : (0 <= datetime.weekday dt <= 6)%Z.
Proof.
  unfold datetime.weekday.
  pose proof (Z.mod_pos_bound (datetime.ordinal dt + 6) 7). lia.
Qed.

Lemma bool_to_int_cases (b : bool) : (bool_to_int b = 0 \/ bool_to_int b = 1)%Z.
Proof. destruct b; auto. Qed.

Section EventFields.

Context {G : Type} `{Generator G}.
Variable set_to_list : SetOrder.

Lemma made_in_consistent (item_lookup : dict MenuItem.t)
    (all_item_ids : list string) (start_date : datetime.t)
    (user : UserProfile.t) (day_offset : Z) (k : nat) (env : SessionEnv)
    (anchor_id : string) (e : Event.t) :
  session_of item_lookup all_item_ids start_date user day_offset k env
             anchor_id ->
  made_in set_to_list env anchor_id e ->
  event_consistent e.
Proof.
  intros (ts & name & t & ab & g0 & g1 & g2 & -> & Hrange & (h & m & -> & Hh & Hm) & Hch & Hname & Hsel)
         (cart & cand_id & item & acc & Hmk & Hhd & Hget & Hacc & Hseg).
  destruct (make_event_inv _ _ _ _ _ _ _ Hmk)
    as (last_id & last_item & Hall & Hlast & Hlget & Heq).
  rewrite Heq in Hmk. cbv zeta in Hmk. injection Hmk as <-.
  unfold event_consistent. cbn [Event.cart_items Event.cart_item_count
    Event.last_item_added Event.day_of_week Event.timestamp Event.hour_of_day
    Event.is_weekend Event.meal_time Event.cart_veg_ratio
    Event.candidate_accepted Event.candidate_is_veg Event.is_abandoned
    session_env env_timestamp env_meal_time env_is_abandoned env_item_lookup
    datetime.replace datetime.hour datetime.minute datetime.second].
  repeat split; try assumption; try reflexivity; try lia.
  - destruct cart; discriminate.
  - apply weekday_range.
  - apply weekday_range.
  - destruct cart as [|c0 cart]; [discriminate|]. cbn [is_nil].
    apply py_round_unit. split.
    + apply Qle_shift_div_l.
      * change 0 with (inject_Z 0). rewrite <- Zlt_Qlt. simpl. lia.
      * rewrite Qmult_0_l. change 0 with (inject_Z 0). rewrite <- Zle_Qle. lia.
    + apply Qle_shift_div_r.
      * change 0 with (inject_Z 0). rewrite <- Zlt_Qlt. simpl. lia.
      * rewrite Qmult_1_l. rewrite <- Zle_Qle. apply inj_le.
        etransitivity; [apply filter_length_le|].
        apply lookup_present_length.
  - destruct cart as [|c0 cart]; [discriminate|]. cbn [is_nil].
    apply py_round_unit. split.
    + apply Qle_shift_div_l.
      * change 0 with (inject_Z 0). rewrite <- Zlt_Qlt. simpl. lia.
      * rewrite Qmult_0_l. change 0 with (inject_Z 0). rewrite <- Zle_Qle. lia.
    + apply Qle_shift_div_r.
      * change 0 with (inject_Z 0). rewrite <- Zlt_Qlt. simpl. lia.
      * rewrite Qmult_1_l. rewrite <- Zle_Qle. apply inj_le.
        etransitivity; [apply filter_length_le|].
        apply lookup_present_length.
  - apply bool_to_int_cases.
  - apply bool_to_int_cases.
Qed.

End EventFields.

Lemma event_consistent_set (e : Event.t) :
  event_consistent e -> event_consistent (Event.set_is_abandoned 1 e).
Proof.
  unfold event_consistent. destruct e. simpl. intuition.
Qed.

Section EventTheorems.

Context {G : Type} `{Generator G}.
Variable set_to_list : SetOrder.

(** X5. Every event of the output of [generate_sessions] is consistent
    in itself: its cart is not empty, [cart_item_count] is the length of
    the cart and [last_item_added] its last entry; [day_of_week]
    (0..6) and [hour_of_day] (0..23) are those of the timestamp, whose
    minute is 0..59 and whose second is 0; [is_weekend] is 1 exactly
    for days 5 and 6; [meal_time] is the bucket of [hour_of_day];
    [cart_veg_ratio] lies in [0, 1]; and [candidate_accepted],
    [candidate_is_veg] and [is_abandoned] are 0 or 1. *)
Theorem events_are_consistent
    (users : list UserProfile.t) (catalog : list MenuItem.t) (n_days : Z)
    (start_date : datetime.t) (rng : option G) (events : list Event.t) :
  generate_sessions set_to_list users catalog n_days start_date rng
  = inr events ->
  Forall event_consistent events.
Proof.
  intro Hrun.
  apply (generate_sessions_Forall set_to_list event_consistent
           (fun _ => True) users catalog n_days start_date rng events);
    [apply any_day | apply event_consistent_set | | exact Hrun].
  intros user d k env a e _ _ Hof Hmade.
  exact (made_in_consistent set_to_list _ _ _ _ _ _ _ _ _ Hof Hmade).
Qed.

End EventTheorems.

Lemma events_are_consistent_witness :
  exists events,
    generate_sessions insertion_order [user_regular] small_catalog 30
                      start_2025 (Some tape_run) = inr events
    /\ length events = 9%nat
    /\ Forall event_consistent events.
Proof.
  destruct (generate_sessions insertion_order [user_regular] small_catalog 30
              start_2025 (Some tape_run)) as [e | events] eqn:Hrun;
    [vm_compute in Hrun; discriminate|].
  exists events. split; [reflexivity|]. split.
  - vm_compute in Hrun. injection Hrun as <-. reflexivity.
  - exact (events_are_consistent insertion_order [user_regular]
             small_catalog 30%Z start_2025 (Some tape_run) events Hrun).
Defined.

(** ** [item_lookup] *)

Lemma dict_get_set {V} (k k' : string) (v : V) (d : dict V) :
  dict_get k (dict_set k' v d)
  = if String.eqb k k' then Some v else dict_get k d.
Proof.
  induction d as [|[k0 v0] d IH]; simpl.
  - reflexivity.
  - destruct (String.eqb k' k0) eqn:E0; simpl.
    + apply String.eqb_eq in E0. subst k0.
      destruct (String.eqb k k'); reflexivity.
    + destruct (String.eqb k k0) eqn:E1.
      * apply String.eqb_eq in E1. subst k0.
        rewrite String.eqb_sym, E0. reflexivity.
      * exact IH.
Qed.

Lemma find_app_first {A} (f : A -> bool) (l1 l2 : list A) :
  find f (l1 ++ l2)%list
  = match find f l1 with Some x => Some x | None => find f l2 end.
Proof.
  induction l1 as [|x l1 IH]; simpl; [reflexivity|].
  destruct (f x); [reflexivity | exact IH].
Qed.

Lemma filter_twice {A} (f g : A -> bool) (l : list A) :
  filter f (filter g l) = filter (fun x => g x && f x) l.
Proof.
  induction l as [|x l IH]; simpl; [reflexivity|].
  destruct (g x); simpl; [destruct (f x)|]; now rewrite IH.
Qed.

Lemma str_in_app (x : string) (l1 l2 : list string) :
  str_in x (l1 ++ l2)%list = str_in x l1 || str_in x l2.
Proof. unfold str_in. apply existsb_app. Qed.

Lemma fold_lookup_get (k : string) :
  forall catalog d,
    dict_get k (fold_left (fun d item => dict_set (MenuItem.item_id item) item d)
                          catalog d)
    = match last_with_id k catalog with
      | Some item => Some item
      | None => dict_get k d
      end.
Proof.
  unfold last_with_id.
  induction catalog as [|it catalog IH]; intro d; simpl; [reflexivity|].
  rewrite IH, find_app_first.
  destruct (find _ (rev catalog)); [reflexivity|].
  simpl. rewrite dict_get_set, String.eqb_sym.
  destruct (String.eqb (MenuItem.item_id it) k); reflexivity.
Qed.

Lemma fold_lookup_keys :
  forall catalog d,
    dict_keys (fold_left (fun d item => dict_set (MenuItem.item_id item) item d)
                         catalog d)
    = (dict_keys d
       ++ filter (fun y => negb (str_in y (dict_keys d)))
                 (dedup (map MenuItem.item_id catalog)))%list.
Proof.
  induction catalog as [|it catalog IH]; intro d; simpl.
  - now rewrite app_nil_r.
  - rewrite IH, dict_keys_set.
    destruct (str_in (MenuItem.item_id it) (dict_keys d)) eqn:E; simpl.
    + f_equal. rewrite filter_twice. apply filter_ext_in.
      intros y _. destruct (String.eqb y (MenuItem.item_id it)) eqn:Ey;
        [|reflexivity].
      apply String.eqb_eq in Ey. subst y. now rewrite E.
    + rewrite <- app_assoc. simpl. f_equal. f_equal.
      rewrite filter_twice. apply filter_ext.
      intro y. rewrite str_in_app. simpl.
      rewrite orb_false_r, negb_orb. apply andb_comm.
Qed.

Lemma build_item_lookup_spec (catalog : list MenuItem.t) :
  (forall k,
      dict_get k (build_item_lookup catalog) = last_with_id k catalog)
  /\ (forall k item,
         dict_get k (build_item_lookup catalog) = Some item ->
         In item catalog /\ MenuItem.item_id item = k)
  /\ (forall k,
         dict_mem k (build_item_lookup catalog) = true
         <-> In k (map MenuItem.item_id catalog))
  /\ dict_keys (build_item_lookup catalog)
     = dedup (map MenuItem.item_id catalog).
Proof.
  assert (Hget : forall k,
             dict_get k (build_item_lookup catalog) = last_with_id k catalog).
  { intro k. unfold build_item_lookup. rewrite fold_lookup_get.
    now destruct (last_with_id k catalog). }
  assert (Hkeys : dict_keys (build_item_lookup catalog)
                  = dedup (map MenuItem.item_id catalog)).
  { unfold build_item_lookup. rewrite fold_lookup_keys. simpl.
    clear. induction (dedup (map MenuItem.item_id catalog)) as [|x l IH];
      simpl; [reflexivity | now rewrite IH]. }
  assert (Hin : forall k item,
             dict_get k (build_item_lookup catalog) = Some item ->
             In item catalog /\ MenuItem.item_id item = k).
  { intros k item Hk. rewrite Hget in Hk. unfold last_with_id in Hk.
    apply find_some in Hk as [Hi Hid]. apply in_rev in Hi.
    apply String.eqb_eq in Hid. auto. }
  repeat split; try assumption; try (eapply Hin; eassumption).
  - intro Hmem. unfold dict_mem in Hmem.
    destruct (dict_get k (build_item_lookup catalog)) as [item|] eqn:E;
      [|discriminate].
    apply Hin in E as [Hi <-]. now apply in_map.
  - intro Hk. apply in_map_iff in Hk as (item & <- & Hi).
    unfold dict_mem. rewrite Hget. unfold last_with_id.
    destruct (find _ (rev catalog)) eqn:E; [reflexivity|].
    apply in_rev in Hi. apply (find_none _ _ E item) in Hi.
    now rewrite String.eqb_refl in Hi.
Qed.

(** X6. [item_lookup], the dict [generate_sessions] builds from the
    catalog: an id is looked up to the last item of the catalog that
    carries it (a later item replaces an earlier one with the same id),
    an id no item carries is not a key, and the keys, which become
    [all_item_ids], are the distinct ids in the order of their first
    occurrence. *)
Theorem item_lookup_last_wins (catalog : list MenuItem.t) :
  (forall k,
      dict_get k (build_item_lookup catalog) = last_with_id k catalog)
  /\ (forall k item,
         dict_get k (build_item_lookup catalog) = Some item ->
         In item catalog /\ MenuItem.item_id item = k)
  /\ (forall k,
         dict_mem k (build_item_lookup catalog) = true
         <-> In k (map MenuItem.item_id catalog))
  /\ dict_keys (build_item_lookup catalog)
     = dedup (map MenuItem.item_id catalog).
Proof. apply build_item_lookup_spec. Qed.

(** ** Events against the users, the catalog and the templates *)

Lemma lookup_present_Forall2 (item_lookup : dict MenuItem.t) :
  forall cart,
    Forall (fun cid => dict_mem cid item_lookup = true) cart ->
    Forall2 (fun cid item => dict_get cid item_lookup = Some item)
            cart (lookup_present item_lookup cart).
Proof.
  unfold lookup_present.
  induction cart as [|cid cart IH]; intro Hall; simpl; [constructor|].
  inversion Hall as [|? ? Hmem Hrest]; subst. unfold dict_mem in Hmem.
  destruct (dict_get cid item_lookup) as [item|] eqn:E; [|discriminate].
  simpl. constructor; auto.
Qed.

Lemma choose_template_weighted {G : Type} `{GeneratorLaws G}
    (item_lookup : dict MenuItem.t) (user : UserProfile.t)
    (meal_time name : string) (t : MealTemplate.t) (g g' : G) :
  choose_template item_lookup user meal_time g = inr ((name, t), g') ->
  exists w,
    template_weights_for meal_time = inr w /\ dict_mem name w = true.
Proof.
  unfold choose_template. intro Hrun.
  apply bind_inr in Hrun as (w & g1 & Hw & Hrun).
  apply lift_inr in Hw as [Hw ->].
  apply bind_inr in Hrun as (ps & g2 & _ & Hrun).
  apply bind_inr in Hrun as (chosen & g3 & Hch & Hrun).
  apply bind_inr in Hrun as (t' & g4 & Ht & Hrun).
  unfold ret in Hrun. injection Hrun as <- <- <-.
  exists w. split; [assumption|].
  apply dict_mem_In_keys. exact (rng_choice_p_In _ _ _ _ _ Hch).
Qed.

Lemma template_weights_for_bucket (hour : Z) (w : dict Q) :
  template_weights_for (_get_meal_time hour) = inr w ->
  dict_get (_get_meal_time hour) MEALTIME_TEMPLATE_WEIGHTS = Some w.
Proof.
  unfold _get_meal_time.
  repeat match goal with
         | |- context [if ?b then _ else _] => destruct b
         end; vm_compute; intros [= <-]; reflexivity.
Qed.

Section JoinFacts.

Context {G : Type} `{Generator G}.
Variable set_to_list : SetOrder.

Lemma made_in_user (env : SessionEnv) (anchor_id : string) (e : Event.t) :
  made_in set_to_list env anchor_id e ->
  event_of_user (env_user env) e
  /\ dict_mem (Event.user_segment e) SEGMENT_MULTIPLIER = true.
Proof.
  intros (cart & cand_id & item & acc & Hmk & Hhd & Hget & Hacc & Hseg).
  destruct (make_event_inv _ _ _ _ _ _ _ Hmk)
    as (last_id & last_item & Hall & Hlast & Hlget & Heq).
  rewrite Heq in Hmk. cbv zeta in Hmk. injection Hmk as <-.
  unfold event_of_user. simpl. repeat split; try reflexivity. exact Hseg.
Qed.

Lemma made_in_catalog (catalog : list MenuItem.t) (env : SessionEnv)
    (anchor_id : string) (e : Event.t) :
  env_item_lookup env = build_item_lookup catalog ->
  made_in set_to_list env anchor_id e ->
  event_joins_catalog set_to_list catalog e.
Proof.
  intros Henv (cart & cand_id & item & acc & Hmk & Hhd & Hget & Hacc & Hseg).
  destruct (make_event_inv _ _ _ _ _ _ _ Hmk)
    as (last_id & last_item & Hall & Hlast & Hlget & Heq).
  rewrite Heq in Hmk. cbv zeta in Hmk. injection Hmk as <-.
  destruct (build_item_lookup_spec catalog) as (Hlw & Hin & _).
  rewrite Henv in *. unfold event_joins_catalog. simpl.
  split; [|split].
  - exists item. rewrite <- Hlw. split; [assumption|].
    apply Hin in Hget as [_ Hid]. unfold candidate_is. simpl.
    repeat split; auto.
  - exists (lookup_present (build_item_lookup catalog) cart).
    repeat split; try reflexivity.
    apply lookup_present_Forall2 in Hall.
    eapply Forall2_impl; [|exact Hall].
    intros cid it Hc. simpl in Hc. now rewrite <- Hlw.
  - exists last_item. rewrite <- Hlw. auto.
Qed.

End JoinFacts.

Section JoinTheorems.

Context {G : Type} `{Generator G}.
Variable set_to_list : SetOrder.

Lemma generate_sessions_users
    (users : list UserProfile.t) (catalog : list MenuItem.t) (n_days : Z)
    (start_date : datetime.t) (rng : option G) (events : list Event.t) :
  generate_sessions set_to_list users catalog n_days start_date rng
  = inr events ->
  Forall (fun e =>
            (exists user, In user users /\ event_of_user user e)
            /\ In (Event.user_segment e) ["new"; "regular"; "power"])
         events.
Proof.
  intro Hrun.
  apply (generate_sessions_Forall set_to_list _
           (fun _ => True) users catalog n_days start_date rng events);
    [apply any_day | | | exact Hrun].
  - intros e [(user & Hu & He) Hseg]. split; [|exact Hseg].
    exists user. split; [assumption|]. destruct e. exact He.
  - intros user d k env a e Hu _ Hof Hmade.
    destruct Hof as (ts & name & t & ab & g0 & g1 & g2 & -> & _).
    apply made_in_user in Hmade as [He Hseg]. simpl in He.
    split; [eauto|].
    unfold dict_mem in Hseg.
    destruct (dict_get (Event.user_segment e) SEGMENT_MULTIPLIER) eqn:E;
      [|discriminate].
    apply dict_get_In_keys in E. exact E.
Qed.

(** X7. Every event of the output carries the fields of one of the
    users passed in: its [user_id], [city] and [user_segment] are that
    user's, and its two preference fields are the user's, rounded to
    three digits.  Its [user_segment] is ["new"], ["regular"] or
    ["power"], whatever segments the users passed in have. *)
Theorem events_carry_a_user
    (users : list UserProfile.t) (catalog : list MenuItem.t) (n_days : Z)
    (start_date : datetime.t) (rng : option G) (events : list Event.t) :
  generate_sessions set_to_list users catalog n_days start_date rng
  = inr events ->
  Forall (fun e =>
            (exists user, In user users /\ event_of_user user e)
            /\ In (Event.user_segment e) ["new"; "regular"; "power"])
         events.
Proof. apply generate_sessions_users. Qed.

(** X8. Every event of the output is joined to the catalog: the
    candidate's id is an id of the catalog and the candidate fields are
    those of the catalog item the id stands for; every id of the cart
    stands for a catalog item, [cart_total_price] is the sum of their
    prices and the two set-valued fields list their categories and
    cuisines; and the last-item fields are those of the item
    [last_item_added] stands for. *)
Theorem events_join_the_catalog
    (users : list UserProfile.t) (catalog : list MenuItem.t) (n_days : Z)
    (start_date : datetime.t) (rng : option G) (events : list Event.t) :
  generate_sessions set_to_list users catalog n_days start_date rng
  = inr events ->
  Forall (event_joins_catalog set_to_list catalog) events.
Proof.
  intro Hrun.
  apply (generate_sessions_Forall set_to_list _
           (fun _ => True) users catalog n_days start_date rng events);
    [apply any_day | | | exact Hrun].
  - intros e He. destruct e. exact He.
  - intros user d k env a e _ _ Hof Hmade.
    destruct Hof as (ts & name & t & ab & g0 & g1 & g2 & -> & _).
    eapply made_in_catalog; [|exact Hmade]. reflexivity.
Qed.

End JoinTheorems.

Section TemplateTheorem.

Context {G : Type} `{GeneratorLaws G}.
Variable set_to_list : SetOrder.

(** X9. Every event of the output names a template of
    [MEAL_TEMPLATES] that [MEALTIME_TEMPLATE_WEIGHTS] weights for the
    event's [meal_time], and its cart starts with an anchor of that
    template. *)
Theorem events_follow_a_template
    (users : list UserProfile.t) (catalog : list MenuItem.t) (n_days : Z)
    (start_date : datetime.t) (rng : option G) (events : list Event.t) :
  generate_sessions set_to_list users catalog n_days start_date rng
  = inr events ->
  Forall event_of_template events.
Proof.
  intro Hrun.
  apply (generate_sessions_Forall set_to_list _
           (fun _ => True) users catalog n_days start_date rng events);
    [apply any_day | | | exact Hrun].
  - intros e He. destruct e. exact He.
  - intros user d k env a e _ _ Hof Hmade.
    destruct Hof as (ts & name & t & ab & g0 & g1 & g2 & -> & _ & _ & Hch & Hname & Hsel).
    destruct Hmade as (cart & cand_id & item & acc & Hmk & Hhd & _).
    destruct (make_event_inv _ _ _ _ _ _ _ Hmk)
      as (last_id & last_item & Hall & Hlast & Hlget & Heq).
    rewrite Heq in Hmk. cbv zeta in Hmk. injection Hmk as <-.
    apply choose_template_weighted in Hch as (w & Hw & Hmem).
    apply template_weights_for_bucket in Hw.
    apply select_anchor_In in Hsel.
    unfold valid_anchors in Hsel. apply filter_In in Hsel as [Hanchor _].
    destruct cart as [|c0 rest]; [discriminate|].
    injection Hhd as ->.
    exists t, w, a, rest. simpl. auto.
Qed.

End TemplateTheorem.

Lemma events_carry_a_user_witness :
  exists events,
    generate_sessions insertion_order [user_regular] small_catalog 30
                      start_2025 (Some tape_run) = inr events
    /\ length events = 9%nat
    /\ Forall (fun e =>
                 (exists user, In user [user_regular] /\ event_of_user user e)
                 /\ In (Event.user_segment e) ["new"; "regular"; "power"])
              events.
Proof.
  destruct (generate_sessions insertion_order [user_regular] small_catalog 30
              start_2025 (Some tape_run)) as [e | events] eqn:Hrun;
    [vm_compute in Hrun; discriminate|].
  exists events. split; [reflexivity|]. split.
  - vm_compute in Hrun. injection Hrun as <-. reflexivity.
  - exact (events_carry_a_user insertion_order [user_regular]
             small_catalog 30%Z start_2025 (Some tape_run) events Hrun).
Defined.

Lemma events_join_the_catalog_witness :
  exists events,
    generate_sessions insertion_order [user_regular] small_catalog 30
                      start_2025 (Some tape_run) = inr events
    /\ length events = 9%nat
    /\ Forall (event_joins_catalog insertion_order small_catalog) events.
Proof.
  destruct (generate_sessions insertion_order [user_regular] small_catalog 30
              start_2025 (Some tape_run)) as [e | events] eqn:Hrun;
    [vm_compute in Hrun; discriminate|].
  exists events. split; [reflexivity|]. split.
  - vm_compute in Hrun. injection Hrun as <-. reflexivity.
  - exact (events_join_the_catalog insertion_order [user_regular]
             small_catalog 30%Z start_2025 (Some tape_run) events Hrun).
Defined.

Lemma events_follow_a_template_witness :
  exists events,
    generate_sessions insertion_order [user_regular] small_catalog 30
                      start_2025 (Some tape_run) = inr events
    /\ length events = 9%nat
    /\ Forall event_of_template events.
Proof.
  destruct (generate_sessions insertion_order [user_regular] small_catalog 30
              start_2025 (Some tape_run)) as [e | events] eqn:Hrun;
    [vm_compute in Hrun; discriminate|].
  exists events. split; [reflexivity|]. split.
  - vm_compute in Hrun. injection Hrun as <-. reflexivity.
  - exact (events_follow_a_template insertion_order [user_regular]
             small_catalog 30%Z start_2025 (Some tape_run) events Hrun).
Defined.

(** ** Order dates and timestamps *)

Lemma rng_choice_int_days {G : Type} `{ChoiceLaws G} (n_days : Z) :
  forall size (g : G) l g',
    rng_choice_int n_days size g = inr (l, g') ->
    Forall (fun d => (0 <= d < n_days)%Z) l.
Proof.
  intros size g l g' Hrun. unfold rng_choice_int in Hrun.
  destruct ((n_days <=? 0)%Z && negb (size =? 0)%nat) eqn:E; [discriminate|].
  injection Hrun as Hrun.
  assert (Hl : l = fst (choice_int n_days size g)) by now rewrite Hrun.
  subst l. destruct (Z.ltb_spec 0 n_days) as [Hpos | Hneg].
  - now apply choice_int_range.
  - apply andb_false_iff in E as [E | E].
    + apply Z.leb_gt in E. lia.
    + apply negb_false_iff, Nat.eqb_eq in E. subst size.
      pose proof (choice_int_length n_days 0%nat g) as Hlen.
      destruct (fst (choice_int n_days 0%nat g)); [constructor | discriminate].
Qed.

Lemma rng_choice_int_length {G : Type} `{ChoiceLaws G} (n_days : Z) :
  forall size (g : G) l g',
    rng_choice_int n_days size g = inr (l, g') -> length l = size.
Proof.
  intros size g l g' Hrun. unfold rng_choice_int in Hrun.
  destruct ((n_days <=? 0)%Z && negb (size =? 0)%nat); [discriminate|].
  injection Hrun as Hrun.
  assert (Hl : l = fst (choice_int n_days size g)) by now rewrite Hrun.
  subst l. apply choice_int_length.
Qed.

Lemma rng_choice_int_positive {G : Type} `{Generator G} (n_days : Z)
    (size : nat) (g : G) :
  (0 < n_days)%Z ->
  exists dates g', rng_choice_int n_days size g = inr (dates, g').
Proof.
  intro Hdays. unfold rng_choice_int.
  destruct (Z.leb_spec n_days 0) as [Hle | _]; [lia|]. simpl.
  destruct (choice_int n_days size g) as [dates g']. eauto.
Qed.

Lemma window_in_range (start_date : datetime.t) (n_days d : Z) :
  window_in_calendar start_date n_days = true ->
  (0 <= d < n_days)%Z ->
  datetime.in_range start_date d = true.
Proof.
  unfold window_in_calendar, datetime.in_range, datetime.MINORDINAL,
    datetime.MAXORDINAL.
  intros Hw Hd. apply andb_prop in Hw as [H1 H2].
  apply Z.leb_le in H1, H2.
  repeat (apply andb_true_intro; split); apply Z.leb_le; lia.
Qed.

Section WindowTheorem.

Context {G : Type} `{ChoiceLaws G}.
Variable set_to_list : SetOrder.

(** X10. The timestamps of the output lie in the window of the run:
    the date of every event is one of the [n_days] days that start
    with [start_date], and the part of [start_date] below the second is
    kept.  So a run that returns events has [n_days] > 0. *)
Theorem timestamps_in_window
    (users : list UserProfile.t) (catalog : list MenuItem.t) (n_days : Z)
    (start_date : datetime.t) (rng : option G) (events : list Event.t) :
  generate_sessions set_to_list users catalog n_days start_date rng
  = inr events ->
  Forall (fun e =>
            (datetime.ordinal start_date
             <= datetime.ordinal (Event.timestamp e)
             < datetime.ordinal start_date + n_days)%Z
            /\ datetime.microsecond (Event.timestamp e)
               = datetime.microsecond start_date)
         events
  /\ (events <> [] -> (0 < n_days)%Z).
Proof.
  intro Hrun.
  assert (Hall : Forall (fun e =>
            (datetime.ordinal start_date
             <= datetime.ordinal (Event.timestamp e)
             < datetime.ordinal start_date + n_days)%Z
            /\ datetime.microsecond (Event.timestamp e)
               = datetime.microsecond start_date) events).
  { apply (generate_sessions_Forall set_to_list _
             (fun d => (0 <= d < n_days)%Z) users catalog n_days start_date
             rng events);
      [apply rng_choice_int_days | | | exact Hrun].
    - intros e He. destruct e. exact He.
    - intros user d k env a e _ Hd Hof Hmade.
      destruct Hof as (ts & name & t & ab & g0 & g1 & g2 & -> & Hrange & (h & m & -> & _) & _).
      destruct Hmade as (cart & cand_id & item & acc & Hmk & _).
      destruct (make_event_inv _ _ _ _ _ _ _ Hmk)
        as (last_id & last_item & _ & _ & _ & Heq).
      rewrite Heq in Hmk. cbv zeta in Hmk. injection Hmk as <-.
      simpl. split; [lia | reflexivity]. }
  split; [exact Hall|].
  intro Hne. destruct events as [|e events]; [congruence|].
  inversion Hall as [|? ? [Hw _] _]; subst. lia.
Qed.

End WindowTheorem.

Lemma timestamps_in_window_witness :
  exists events,
    generate_sessions insertion_order [user_regular] small_catalog 30
                      start_2025 (Some (UnitTape tape_run)) = inr events
    /\ length events = 9%nat
    /\ Forall (fun e =>
                 (datetime.ordinal start_2025
                  <= datetime.ordinal (Event.timestamp e)
                  < datetime.ordinal start_2025 + 30)%Z
                 /\ datetime.microsecond (Event.timestamp e)
                    = datetime.microsecond start_2025)
              events.
Proof.
  destruct (generate_sessions insertion_order [user_regular] small_catalog 30
              start_2025 (Some (UnitTape tape_run))) as [e | events] eqn:Hrun;
    [vm_compute in Hrun; discriminate|].
  exists events. split; [reflexivity|]. split.
  - vm_compute in Hrun. injection Hrun as <-. reflexivity.
  - exact (proj1 (timestamps_in_window insertion_order [user_regular]
             small_catalog 30%Z start_2025 (Some (UnitTape tape_run))
             events Hrun)).
Defined.

(** ** Session ids *)

Lemma session_number_format (k : nat) :
  session_number ("S" ++ format_07d k) = Some k.
Proof. simpl. apply parse_format_07d. Qed.

Lemma sorted_app_repeat (ks : list nat) (c n : nat) :
  Sorted.StronglySorted le ks -> Forall (fun k => (1 <= k <= c)%nat) ks ->
  Sorted.StronglySorted le (ks ++ repeat (S c) n)%list.
Proof.
  intros Hs Hb. induction Hs as [|k ks Hs IH Hk]; simpl.
  - induction n as [|n IHn]; simpl; constructor; [assumption|].
    apply Forall_forall. intros x Hx. apply repeat_spec in Hx. lia.
  - inversion Hb as [|? ? Hkc Hb']; subst.
    constructor; [now apply IH|].
    apply Forall_app. split; [assumption|].
    apply Forall_forall. intros x Hx. apply repeat_spec in Hx. lia.
Qed.

Lemma abandon_override_In (u : Q) (events : list Event.t) (e' : Event.t) :
  In e' (abandon_override u events) ->
  exists e, In e events /\ override_of e e'.
Proof.
  intro Hin.
  destruct (abandon_override_cases u events)
    as [[Heq _] | (_ & front & e & -> & Heq)]; rewrite Heq in Hin.
  - exists e'. split; [assumption | now left].
  - apply in_app_or in Hin as [Hin | [<- | []]].
    + exists e'. split; [apply in_or_app; now left | now left].
    + exists e. split; [apply in_or_app; right; now left | now right].
Qed.

Section SessionIds.

Context {G : Type} `{Generator G}.
Variable set_to_list : SetOrder.

Lemma made_in_session (env : SessionEnv) (anchor_id : string)
    (e1 e2 : Event.t) :
  made_in set_to_list env anchor_id e1 ->
  made_in set_to_list env anchor_id e2 ->
  Event.session_id e1 = env_session_id env
  /\ session_fields e1 = session_fields e2.
Proof.
  intros (cart1 & cand1 & item1 & acc1 & Hmk1 & _)
         (cart2 & cand2 & item2 & acc2 & Hmk2 & _).
  destruct (make_event_inv _ _ _ _ _ _ _ Hmk1)
    as (l1 & li1 & _ & _ & _ & Heq1).
  destruct (make_event_inv _ _ _ _ _ _ _ Hmk2)
    as (l2 & li2 & _ & _ & _ & Heq2).
  rewrite Heq1 in Hmk1. rewrite Heq2 in Hmk2. cbv zeta in Hmk1, Hmk2.
  injection Hmk1 as <-. injection Hmk2 as <-.
  split; reflexivity.
Qed.

Lemma sessions_loop_counter (item_lookup : dict MenuItem.t)
    (all_item_ids : list string) (start_date : datetime.t)
    (user : UserProfile.t) :
  forall order_dates events c g events' c' g',
    sessions_loop set_to_list item_lookup all_item_ids start_date user
                  order_dates events c g = inr ((events', c'), g') ->
    c' = (c + length order_dates)%nat.
Proof.
  induction order_dates as [|d rest IH];
    intros events c g events' c' g' Hrun; simpl in Hrun.
  - unfold ret in Hrun. injection Hrun as _ <- _. simpl. lia.
  - apply bind_inr in Hrun as ([events1 c1] & g1 & Hs & Hrun).
    apply session_events in Hs as [-> _].
    apply IH in Hrun. simpl. lia.
Qed.

(** The invariant of the numbering: the ids of [events] are those of
    the numbers [ks], which do not decrease and stay within 1..[c]. *)
Lemma session_numbering (item_lookup : dict MenuItem.t)
    (all_item_ids : list string) (start_date : datetime.t)
    (user : UserProfile.t) (day_offset : Z)
    (events : list Event.t) (c : nat) (g : G)
    (events' : list Event.t) (c' : nat) (g' : G) :
  (exists ks,
      map Event.session_id events
      = map (fun k => ("S" ++ format_07d k)%string) ks
      /\ Sorted.StronglySorted le ks
      /\ Forall (fun k => (1 <= k <= c)%nat) ks) ->
  session set_to_list item_lookup all_item_ids start_date user day_offset
          events c g = inr ((events', c'), g') ->
  exists ks,
    map Event.session_id events'
    = map (fun k => ("S" ++ format_07d k)%string) ks
    /\ Sorted.StronglySorted le ks
    /\ Forall (fun k => (1 <= k <= c')%nat) ks.
Proof.
  intros (ks & Hids & Hsorted & Hbound) Hs.
  apply session_events in Hs
    as [-> [-> | (env & a & new & u & Hof & Hnew & ->)]].
  - exists ks. repeat split; try assumption.
    eapply Forall_impl; [|exact Hbound]. simpl. lia.
  - exists (ks ++ repeat (S c) (length new))%list.
    split; [|split].
    + rewrite abandon_override_map by (intro e; now destruct e).
      rewrite !map_app, Hids. f_equal.
      destruct Hof as (ts & name & t & ab & g0 & g1 & g2 & -> & _).
      clear - Hnew. induction Hnew as [|e new He Hnew IH]; [reflexivity|].
      simpl. rewrite IH. f_equal.
      exact (proj1 (made_in_session _ _ _ _ He He)).
    + now apply sorted_app_repeat.
    + apply Forall_app. split.
      * eapply Forall_impl; [|exact Hbound]. simpl. lia.
      * apply Forall_forall. intros x Hx. apply repeat_spec in Hx. lia.
Qed.

(** The invariant of the session fields: equal ids, equal fields. *)
Lemma session_keeps_fields (item_lookup : dict MenuItem.t)
    (all_item_ids : list string) (start_date : datetime.t)
    (user : UserProfile.t) (day_offset : Z)
    (events : list Event.t) (c : nat) (g : G)
    (events' : list Event.t) (c' : nat) (g' : G) :
  (Forall (fun e => exists k, (k <= c)%nat
                     /\ Event.session_id e = ("S" ++ format_07d k)%string)
          events
   /\ forall e1 e2, In e1 events -> In e2 events ->
        Event.session_id e1 = Event.session_id e2 ->
        session_fields e1 = session_fields e2) ->
  session set_to_list item_lookup all_item_ids start_date user day_offset
          events c g = inr ((events', c'), g') ->
  Forall (fun e => exists k, (k <= c')%nat
                    /\ Event.session_id e = ("S" ++ format_07d k)%string)
         events'
  /\ forall e1 e2, In e1 events' -> In e2 events' ->
       Event.session_id e1 = Event.session_id e2 ->
       session_fields e1 = session_fields e2.
Proof.
  intros [Hids Hfun] Hs.
  apply session_events in Hs
    as [-> [-> | (env & a & new & u & Hof & Hnew & ->)]].
  - split; [|assumption].
    eapply Forall_impl; [|exact Hids]. intros e (k & Hk & He). exists k.
    split; [lia | assumption].
  - destruct Hof as (ts & name & t & ab & g0 & g1 & g2 & Henv & _).
    assert (Hid_new : forall e, In e new ->
              Event.session_id e = ("S" ++ format_07d (S c))%string).
    { intros e He. rewrite Forall_forall in Hnew.
      rewrite (proj1 (made_in_session _ _ _ _ (Hnew e He) (Hnew e He))).
      now rewrite Henv. }
    assert (Hids' : Forall (fun e => exists k, (k <= S c)%nat
                     /\ Event.session_id e = ("S" ++ format_07d k)%string)
                    (events ++ new)%list).
    { apply Forall_app. split.
      - eapply Forall_impl; [|exact Hids]. intros e (k & Hk & He). exists k.
        split; [lia | assumption].
      - apply Forall_forall. intros e He. exists (S c). auto. }
    assert (Hfun' : forall e1 e2,
              In e1 (events ++ new)%list -> In e2 (events ++ new)%list ->
              Event.session_id e1 = Event.session_id e2 ->
              session_fields e1 = session_fields e2).
    { rewrite Forall_forall in Hids, Hnew.
      assert (Hcross : forall e1 e2, In e1 events -> In e2 new ->
                Event.session_id e1 <> Event.session_id e2).
      { intros e1 e2 H1 H2 Heq.
        destruct (Hids e1 H1) as (k & Hk & Hid1).
        rewrite Hid1, (Hid_new e2 H2) in Heq.
        apply (f_equal session_number) in Heq.
        rewrite !session_number_format in Heq. injection Heq as ->. lia. }
      intros e1 e2 H1 H2 Heq.
      apply in_app_or in H1. apply in_app_or in H2.
      destruct H1 as [H1 | H1], H2 as [H2 | H2].
      - now apply Hfun.
      - exfalso. exact (Hcross e1 e2 H1 H2 Heq).
      - exfalso. exact (Hcross e2 e1 H2 H1 (eq_sym Heq)).
      - exact (proj2 (made_in_session _ _ _ _ (Hnew e1 H1) (Hnew e2 H2))). }
    split.
    + apply abandon_override_Forall_closed; [|exact Hids'].
      intros e He. destruct e. exact He.
    + intros e1 e2 H1 H2 Heq.
      apply abandon_override_In in H1 as (e1' & H1 & Ho1).
      apply abandon_override_In in H2 as (e2' & H2 & Ho2).
      assert (Hsame : forall x x', override_of x x' ->
                Event.session_id x' = Event.session_id x
                /\ session_fields x' = session_fields x).
      { intros x x' [-> | ->]; [auto | now destruct x]. }
      destruct (Hsame _ _ Ho1) as [Hi1 Hf1].
      destruct (Hsame _ _ Ho2) as [Hi2 Hf2].
      rewrite Hf1, Hf2. apply Hfun'; try assumption. congruence.
Qed.

(** X11. The session id of an event fixes the session: two events of
    the output with the same [session_id] have the same user, city,
    segment and preference fields, the same timestamp, meal time, day
    and hour, weekend flag and template. *)
Theorem session_id_fixes_the_session
    (users : list UserProfile.t) (catalog : list MenuItem.t) (n_days : Z)
    (start_date : datetime.t) (rng : option G) (events : list Event.t) :
  generate_sessions set_to_list users catalog n_days start_date rng
  = inr events ->
  forall e1 e2,
    In e1 events -> In e2 events ->
    Event.session_id e1 = Event.session_id e2 ->
    session_fields e1 = session_fields e2.
Proof.
  intro Hrun.
  destruct (generate_sessions_state set_to_list
              (fun events c =>
                 Forall (fun e => exists k, (k <= c)%nat
                     /\ Event.session_id e = ("S" ++ format_07d k)%string)
                        events
                 /\ forall e1 e2, In e1 events -> In e2 events ->
                      Event.session_id e1 = Event.session_id e2 ->
                      session_fields e1 = session_fields e2)
              (fun _ => True) users catalog n_days start_date rng events)
    as (c & _ & Hfun); try assumption.
  - apply any_day.
  - intros user d ev k g ev' k' g' _ _ HP Hs.
    eapply session_keeps_fields; eauto.
  - split; [constructor | intros e1 e2 []].
Qed.

End SessionIds.

Section Numbering.

Context {G : Type} `{ChoiceLaws G}.
Variable set_to_list : SetOrder.

Lemma users_loop_counter (item_lookup : dict MenuItem.t)
    (all_item_ids : list string) (n_days : Z) (start_date : datetime.t) :
  forall users events c g events' c' g',
    users_loop set_to_list item_lookup all_item_ids n_days start_date
               users events c g = inr ((events', c'), g') ->
    c' = (c + total_orders users)%nat.
Proof.
  induction users as [|user rest IH];
    intros events c g events' c' g' Hrun; simpl in Hrun.
  - unfold ret in Hrun. injection Hrun as _ <- _. simpl. lia.
  - apply bind_inr in Hrun as (dates & g1 & Hdates & Hrun).
    apply bind_inr in Hrun as ([events1 c1] & g2 & Hs & Hrun).
    apply rng_choice_int_length in Hdates.
    apply sessions_loop_counter in Hs. rewrite sorted_length, Hdates in Hs.
    apply IH in Hrun. simpl. lia.
Qed.

(** X12. Session ids are the letter S and the session number in at
    least seven digits, and the number can be read back from the id, so
    different sessions have different ids.  In the output the numbers
    never decrease (the events of a session are contiguous), and each
    of them is between 1 and the total of the users' [num_orders]. *)
Theorem sessions_are_numbered
    (users : list UserProfile.t) (catalog : list MenuItem.t) (n_days : Z)
    (start_date : datetime.t) (rng : option G) (events : list Event.t) :
  generate_sessions set_to_list users catalog n_days start_date rng
  = inr events ->
  (forall k, session_number ("S" ++ format_07d k) = Some k)
  /\ exists ks,
      map Event.session_id events
      = map (fun k => ("S" ++ format_07d k)%string) ks
      /\ Sorted.StronglySorted le ks
      /\ Forall (fun k => (1 <= k <= total_orders users)%nat) ks.
Proof.
  intro Hrun. split; [apply session_number_format|].
  unfold generate_sessions in Hrun.
  destruct (users_loop _ _ _ _ _ _ _ _ _) as [e | [[events' c'] gfin]] eqn:E;
    [discriminate|].
  injection Hrun as <-.
  pose proof (users_loop_counter _ _ _ _ _ _ _ _ _ _ _ E) as Hc.
  simpl in Hc. subst c'.
  apply (users_loop_state set_to_list
           (fun events c =>
              exists ks,
                map Event.session_id events
                = map (fun k => ("S" ++ format_07d k)%string) ks
                /\ Sorted.StronglySorted le ks
                /\ Forall (fun k => (1 <= k <= c)%nat) ks)
           (fun _ => True)) in E; try assumption.
  - apply any_day.
  - intros user d ev k g ev' k' g' _ _ HP Hs.
    eapply session_numbering; eauto.
  - exists []. repeat split; constructor.
Qed.

End Numbering.

Lemma session_id_fixes_the_session_witness :
  exists events e1 e2,
    generate_sessions insertion_order [user_regular] small_catalog 30
                      start_2025 (Some tape_run) = inr events
    /\ nth_error events 0 = Some e1 /\ nth_error events 8 = Some e2
    /\ Event.session_id e1 = Event.session_id e2
    /\ Event.candidate_item_id e1 <> Event.candidate_item_id e2
    /\ session_fields e1 = session_fields e2.
Proof.
  destruct (generate_sessions insertion_order [user_regular] small_catalog 30
              start_2025 (Some tape_run)) as [e | events] eqn:Hrun;
    [vm_compute in Hrun; discriminate|].
  destruct (nth_error events 0) as [e1|] eqn:E1;
    [|vm_compute in Hrun; injection Hrun as <-; discriminate].
  destruct (nth_error events 8) as [e2|] eqn:E2;
    [|vm_compute in Hrun; injection Hrun as <-; discriminate].
  exists events, e1, e2.
  assert (Hid : Event.session_id e1 = Event.session_id e2).
  { vm_compute in Hrun. injection Hrun as <-.
    injection E1 as <-. injection E2 as <-. reflexivity. }
  assert (Hcand : Event.candidate_item_id e1 <> Event.candidate_item_id e2).
  { vm_compute in Hrun. injection Hrun as <-.
    injection E1 as <-. injection E2 as <-. discriminate. }
  repeat split; try assumption.
  exact (session_id_fixes_the_session insertion_order [user_regular]
           small_catalog 30%Z start_2025 (Some tape_run) events Hrun e1 e2
           (nth_error_In _ _ E1) (nth_error_In _ _ E2) Hid).
Defined.

Lemma sessions_are_numbered_witness :
  exists events,
    generate_sessions insertion_order [user_regular] small_catalog 30
                      start_2025 (Some (UnitTape tape_run)) = inr events
    /\ length events = 9%nat
    /\ exists ks,
        map Event.session_id events
        = map (fun k => ("S" ++ format_07d k)%string) ks
        /\ Sorted.StronglySorted le ks
        /\ Forall (fun k => (1 <= k <= total_orders [user_regular])%nat) ks.
Proof.
  destruct (generate_sessions insertion_order [user_regular] small_catalog 30
              start_2025 (Some (UnitTape tape_run))) as [e | events] eqn:Hrun;
    [vm_compute in Hrun; discriminate|].
  exists events. split; [reflexivity|]. split.
  - vm_compute in Hrun. injection Hrun as <-. reflexivity.
  - exact (proj2 (sessions_are_numbered insertion_order [user_regular]
             small_catalog 30%Z start_2025 (Some (UnitTape tape_run))
             events Hrun)).
Defined.

(** ** The noise sample fits its population *)

Lemma noise_population_length (all_item_ids cart valid : list string) :
  NoDup all_item_ids -> NoDup cart -> NoDup valid ->
  incl cart all_item_ids -> incl valid all_item_ids ->
  (forall x, In x valid -> ~ In x cart) ->
  (length (noise_population all_item_ids cart valid) + length cart
   + length valid = length all_item_ids)%nat.
Proof.
  intros Hall Hcart Hvalid Hic Hiv Hdisj.
  unfold noise_population.
  set (f := fun iid => negb (str_in iid cart) && negb (str_in iid valid)).
  rewrite <- (filter_length f all_item_ids).
  assert (Hperm : Permutation (filter (fun x => negb (f x)) all_item_ids)
                              (cart ++ valid)%list).
  { apply NoDup_Permutation.
    - now apply NoDup_filter.
    - apply NoDup_app; try assumption.
      intros x Hx Hv. exact (Hdisj x Hv Hx).
    - intro x. rewrite filter_In, in_app_iff. unfold f.
      rewrite negb_andb, !negb_involutive, orb_true_iff, !str_in_In.
      split; [tauto|]. intros [Hx | Hx]; split; auto. }
  apply Permutation_length in Hperm. rewrite length_app in Hperm. lia.
Qed.

Lemma valid_candidates_facts (item_lookup : dict MenuItem.t)
    (role_items cart : list string) :
  NoDup role_items ->
  let valid := valid_candidates_of item_lookup role_items cart in
  NoDup valid
  /\ incl valid (dict_keys item_lookup)
  /\ (forall x, In x valid -> ~ In x cart).
Proof.
  intros Hnd valid. unfold valid, valid_candidates_of.
  split; [now apply NoDup_filter|]. split.
  - intros x Hx. apply filter_In in Hx as [_ Hx].
    apply andb_prop in Hx as [Hx _]. now apply dict_mem_In_keys.
  - intros x Hx. apply filter_In in Hx as [_ Hx].
    apply andb_prop in Hx as [_ Hx]. apply negb_true_iff in Hx.
    now apply str_in_not_In.
Qed.

(** ** The run never raises on well-formed input *)

Lemma anchor_score_pos (user : UserProfile.t) (item : MenuItem.t) :
  0 < MenuItem.popularity_score item -> 0 < anchor_score user item.
Proof.
  intro Hpop. unfold anchor_score.
  assert (Hv : 0 < veg_match user item).
  { rewrite veg_match_sides. destruct (Bool.eqb _ _); lra. }
  assert (Hp : 0 < price_match user item).
  { unfold price_match.
    pose proof (py_max_ge_l 0.1
                  (1.0 - UserProfile.price_sensitivity user
                         * (MenuItem.price item / 400.0))). lra. }
  apply Qmult_lt_0_compat; [apply Qmult_lt_0_compat|]; assumption.
Qed.

Lemma bind_ok {G A B} (c : M G A) (k : A -> M G B) (g : G) (a : A) (g1 : G)
    (P : B * G -> Prop) :
  c g = inr (a, g1) ->
  (exists r, k a g1 = inr r /\ P r) ->
  exists r, bind c k g = inr r /\ P r.
Proof. intros Hc Hk. unfold bind. now rewrite Hc. Qed.

Lemma rng_random_eq {G} `{Generator G} (g : G) :
  rng_random g = inr (fst (random g), snd (random g)).
Proof. unfold rng_random. now destruct (random g). Qed.

Lemma emapM_total {A B} (f : A -> exn + B) (l : list A) :
  Forall (fun x => exists y, f x = inr y) l -> exists ys, emapM f l = inr ys.
Proof.
  induction 1 as [|x l [y Hy] _ [ys Hys]]; simpl; [eauto|].
  rewrite Hy. simpl. rewrite Hys. simpl. eauto.
Qed.

Lemma dict_index_mem {V} (k : string) (d : dict V) :
  dict_mem k d = true -> exists v, dict_index k d = inr v.
Proof.
  unfold dict_mem, dict_index. destruct (dict_get k d); [eauto | discriminate].
Qed.

Section Totality.

Context {G : Type} `{GeneratorLaws G}.
Context {Hchoice : ChoiceLaws G}.
Variable set_to_list : SetOrder.

Lemma make_event_total (env : SessionEnv) (cart : list string)
    (cand_id : string) (cand_item : MenuItem.t) (accepted : Z) :
  cart <> [] ->
  (forall c, In c cart -> dict_mem c (env_item_lookup env) = true) ->
  exists e, make_event set_to_list env cart cand_id cand_item accepted = inr e.
Proof.
  intros Hne Hin. unfold make_event.
  destruct (emapM_total (fun cid => dict_index cid (env_item_lookup env)) cart)
    as [records Hrec].
  { apply Forall_forall. intros c Hc. apply dict_index_mem. auto. }
  rewrite Hrec. simpl.
  unfold cart_last. destruct (rev cart) as [|x l] eqn:Erev.
  { apply (f_equal (@rev string)) in Erev. rewrite rev_involutive in Erev.
    simpl in Erev. contradiction. }
  simpl.
  destruct (dict_index_mem x (env_item_lookup env)) as [item Hitem].
  { apply Hin. apply in_rev. rewrite Erev. now left. }
  rewrite Hitem. simpl. eauto.
Qed.

Lemma candidate_loop_total (env : SessionEnv) (p : Q) (noise : list string) :
  forall cands cart events g,
    (forall c, In c cands -> dict_mem c (env_item_lookup env) = true) ->
    cart <> [] ->
    (forall c, In c cart -> dict_mem c (env_item_lookup env) = true) ->
    exists r,
      candidate_loop set_to_list env p noise cands cart events g = inr r
      /\ fst (fst r) <> []
      /\ (forall c, In c (fst (fst r)) ->
                    dict_mem c (env_item_lookup env) = true).
Proof.
  induction cands as [|cand_id rest IH]; intros cart events g Hc Hne Hin.
  - simpl. unfold ret. eexists. split; [reflexivity|]. simpl. auto.
  - cbn [candidate_loop].
    destruct (dict_index_mem cand_id (env_item_lookup env)) as [item Hitem];
      [apply Hc; now left|].
    eapply bind_ok; [unfold lift; rewrite Hitem; reflexivity|].
    eapply bind_ok; [apply rng_random_eq|].
    cbv zeta.
    match goal with
    | |- context [make_event ?s ?en ?c ?ci ?it ?ac] =>
        destruct (make_event_total en c ci it ac Hne Hin) as [e He]
    end.
    eapply bind_ok; [unfold lift; rewrite He; reflexivity|].
    apply IH.
    + intros c0 Hc0. apply Hc. now right.
    + destruct (_ =? 1)%Z; [|assumption]. now destruct cart.
    + intros c0 Hc0. destruct (_ =? 1)%Z; [|auto].
      apply in_app_or in Hc0 as [Hc0 | [<- | []]]; [auto|].
      apply Hc. now left.
Qed.

Lemma rng_choice_noreplace_total (a : list string) (size : Z) (g : G) :
  (0 <= size <= Z.of_nat (length a))%Z ->
  rng_choice_noreplace a size g
  = inr (fst (choice_noreplace a (Z.to_nat size) g),
         snd (choice_noreplace a (Z.to_nat size) g)).
Proof.
  intro Hsize. unfold rng_choice_noreplace.
  destruct (Z.ltb_spec size 0); [lia|].
  destruct (Z.ltb_spec (Z.of_nat (length a)) size); [lia|].
  now destruct (choice_noreplace a (Z.to_nat size) g).
Qed.

(** The sample size of the noise candidates is [min(3, n)] for the
    number [n] of ids that are neither in the cart nor valid candidates,
    so the sample is never larger than its population. *)
Lemma noise_size_fits (env : SessionEnv) (role : string)
    (cart : list string) :
  env_all_item_ids env = dict_keys (env_item_lookup env) ->
  NoDup (env_all_item_ids env) ->
  template_ok (env_template env) = true ->
  NoDup cart ->
  (forall c, In c cart -> dict_mem c (env_item_lookup env) = true) ->
  let valid := valid_candidates_of (env_item_lookup env)
                 (role_items_of (env_template env) role) cart in
  noise_size (env_all_item_ids env) cart valid
  = Z.min 3 (Z.of_nat (length (noise_population (env_all_item_ids env)
                                                cart valid))).
Proof.
  intros Hids Hnd Hok Hcart Hin valid.
  destruct (valid_candidates_facts (env_item_lookup env)
              (role_items_of (env_template env) role) cart
              (role_items_NoDup _ role Hok)) as (Hv1 & Hv2 & Hv3).
  fold valid in Hv1, Hv2, Hv3.
  pose proof (noise_population_length (env_all_item_ids env) cart valid
                Hnd Hcart Hv1) as Hlen.
  unfold noise_size. rewrite <- Hlen.
  - f_equal. lia.
  - intros c Hc. rewrite Hids. apply dict_mem_In_keys. auto.
  - now rewrite Hids.
  - assumption.
Qed.

Lemma role_step_total (env : SessionEnv) (role : string)
    (cart : list string) (events : list Event.t) (g : G) :
  env_all_item_ids env = dict_keys (env_item_lookup env) ->
  NoDup (env_all_item_ids env) ->
  template_ok (env_template env) = true ->
  dict_mem (UserProfile.segment (env_user env)) SEGMENT_MULTIPLIER = true ->
  NoDup cart -> cart <> [] ->
  (forall c, In c cart -> dict_mem c (env_item_lookup env) = true) ->
  exists r,
    role_step set_to_list env role cart events g = inr r
    /\ fst (fst r) <> []
    /\ (forall c, In c (fst (fst r)) ->
                  dict_mem c (env_item_lookup env) = true).
Proof.
  intros Hids Hnd Hok Hseg Hcart Hne Hin. unfold role_step.
  destruct (is_nil (role_items_of (env_template env) role)).
  { unfold ret. eexists. split; [reflexivity|]. simpl. auto. }
  destruct (dict_index_mem _ _ Hseg) as [m Hm].
  eapply bind_ok.
  { unfold lift, role_accept_prob. rewrite Hm. simpl. reflexivity. }
  pose proof (noise_size_fits env role cart Hids Hnd Hok Hcart Hin) as Hsize.
  cbv zeta in Hsize.
  set (valid := valid_candidates_of (env_item_lookup env)
                  (role_items_of (env_template env) role) cart) in *.
  set (pop := noise_population (env_all_item_ids env) cart valid) in *.
  assert (Hfit : (0 <= noise_size (env_all_item_ids env) cart valid
                  <= Z.of_nat (length pop))%Z) by lia.
  eapply bind_ok; [apply (rng_choice_noreplace_total pop _ g Hfit)|].
  apply candidate_loop_total; try assumption.
  intros c Hc. apply in_app_or in Hc as [Hc | Hc].
  - unfold valid, valid_candidates_of in Hc.
    apply filter_In in Hc as [_ Hc]. now apply andb_prop in Hc as [Hc _].
  - apply choice_noreplace_incl in Hc; [|lia].
    unfold pop, noise_population in Hc. apply filter_In in Hc as [Hc _].
    rewrite Hids in Hc. now apply dict_mem_In_keys.
Qed.

Lemma roles_loop_total (env : SessionEnv) :
  env_all_item_ids env = dict_keys (env_item_lookup env) ->
  NoDup (env_all_item_ids env) ->
  template_ok (env_template env) = true ->
  dict_mem (UserProfile.segment (env_user env)) SEGMENT_MULTIPLIER = true ->
  forall roles cart events g,
    NoDup cart -> cart <> [] ->
    (forall c, In c cart -> dict_mem c (env_item_lookup env) = true) ->
    exists r, roles_loop set_to_list env roles cart events g = inr r.
Proof.
  intros Hids Hnd Hok Hseg.
  induction roles as [|role roles IH]; intros cart events g Hcart Hne Hin.
  - simpl. unfold ret. eauto.
  - cbn [roles_loop].
    destruct (role_step_total env role cart events g Hids Hnd Hok Hseg
                Hcart Hne Hin) as ([[cart1 events1] g1] & Hstep & Hne1 & Hin1).
    simpl in Hne1, Hin1.
    destruct (role_step_fresh set_to_list _ _ _ _ _ _ _ _ Hnd Hok Hcart Hstep)
      as (new & _ & _ & _ & Hcart1 & _).
    unfold bind. rewrite Hstep. apply IH; assumption.
Qed.

Lemma select_anchor_total (item_lookup : dict MenuItem.t)
    (user : UserProfile.t) (valid : list string) (g : G) :
  valid <> [] ->
  (forall aid, In aid valid ->
     exists item, dict_get aid item_lookup = Some item
                  /\ 0 < MenuItem.popularity_score item) ->
  exists anchor_id g',
    select_anchor item_lookup user valid g = inr (anchor_id, g').
Proof.
  intros Hne Hpos.
  destruct (scored_anchors_total item_lookup user valid)
    as (scored & Hscored & Hfst & Hall).
  { intros aid Ha. destruct (Hpos aid Ha) as (item & Hitem & _).
    unfold dict_mem. now rewrite Hitem. }
  assert (Hps : Forall (Qlt 0) (map snd scored)).
  { apply Forall_map. rewrite Forall_forall in Hall |- *.
    intros entry He. destruct (Hall entry He) as (item & Hitem & ->).
    apply anchor_score_pos.
    assert (Ha : In (fst entry) valid) by (rewrite <- Hfst; now apply in_map).
    destruct (Hpos _ Ha) as (item' & Hitem' & Hp). congruence. }
  assert (Hne' : map snd scored <> []).
  { intro Hnil. apply (f_equal (@length Q)) in Hnil.
    rewrite length_map, <- (length_map fst), Hfst in Hnil.
    destruct valid; [contradiction | discriminate]. }
  destruct (positive_weights_normalize _ Hne' Hps) as [Hnn Hsum].
  destruct (rng_choice_p_total (map fst scored) (normalize (map snd scored)) g)
    as (x & g' & Hx & _); try assumption.
  - now rewrite Hfst.
  - now rewrite normalize_length, !length_map.
  - exists x, g'. unfold select_anchor, bind, lift. rewrite Hscored. exact Hx.
Qed.

Lemma session_total (catalog : list MenuItem.t) (start_date : datetime.t)
    (user : UserProfile.t) (day_offset : Z) (events : list Event.t)
    (c : nat) (g : G) :
  datetime.in_range start_date day_offset = true ->
  known_segment user = true ->
  forallb positive_popularity catalog = true ->
  exists r,
    session set_to_list (build_item_lookup catalog)
            (dict_keys (build_item_lookup catalog)) start_date user
            day_offset events c g = inr r.
Proof.
  intros Hrange Hseg Hpop.
  destruct (session_prelude_total (build_item_lookup catalog) start_date user
              day_offset g Hrange) as (ts & mt & name & t & g1 & Hpre).
  pose proof (session_prelude_inv _ _ _ _ _ _ _ _ _ _ Hpre) as [Hname _].
  unfold session, bind. rewrite Hpre.
  destruct (is_nil (valid_anchors (build_item_lookup catalog) t)) eqn:Hnil.
  { unfold ret. eauto. }
  assert (Hitems : forall k item,
             dict_get k (build_item_lookup catalog) = Some item ->
             0 < MenuItem.popularity_score item).
  { intros k item Hk.
    destruct (build_item_lookup_spec catalog) as (_ & Hin & _).
    apply Hin in Hk as [Hk _]. rewrite forallb_forall in Hpop.
    apply Hpop in Hk. unfold positive_popularity in Hk.
    now apply Qltb_true in Hk. }
  destruct (select_anchor_total (build_item_lookup catalog) user
              (valid_anchors (build_item_lookup catalog) t) g1)
    as (anchor_id & g2 & Hsel).
  { intro Hv. rewrite Hv in Hnil. discriminate. }
  { intros aid Ha. apply valid_anchors_mem in Ha. unfold dict_mem in Ha.
    destruct (dict_get aid (build_item_lookup catalog)) as [item|] eqn:E;
      [|discriminate].
    exists item. split; [reflexivity | eapply Hitems; eauto]. }
  rewrite Hsel. unfold rng_random at 1.
  destruct (random g2) as [u g3].
  match goal with
  | |- context [roles_loop ?s ?en ?ro ?ca ?ev ?gg] =>
      destruct (roles_loop_total en) with (roles := ro) (cart := ca)
                                         (events := ev) (g := gg)
        as ([[cart' events1] g4] & Hroles)
  end; try reflexivity.
  - apply build_item_lookup_NoDup.
  - eapply MEAL_TEMPLATES_ok; eauto.
  - exact Hseg.
  - repeat constructor. simpl. tauto.
  - discriminate.
  - intros c0 [<- | []]. simpl.
    apply select_anchor_In in Hsel. now apply valid_anchors_mem in Hsel.
  - rewrite Hroles. unfold rng_random. destruct (random g4). unfold ret. eauto.
Qed.

Lemma sessions_loop_total (catalog : list MenuItem.t)
    (start_date : datetime.t) (user : UserProfile.t) :
  known_segment user = true ->
  forallb positive_popularity catalog = true ->
  forall order_dates events c g,
    Forall (fun d => datetime.in_range start_date d = true) order_dates ->
    exists r,
      sessions_loop set_to_list (build_item_lookup catalog)
                    (dict_keys (build_item_lookup catalog)) start_date user
                    order_dates events c g = inr r.
Proof.
  intros Hseg Hpop.
  induction order_dates as [|d rest IH]; intros events c g Hdates; simpl.
  - unfold ret. eauto.
  - inversion Hdates as [|? ? Hd Hrest]; subst.
    destruct (session_total catalog start_date user d events c g Hd Hseg Hpop)
      as ([[events1 c1] g1] & Hs).
    unfold bind. rewrite Hs. now apply IH.
Qed.

Lemma users_loop_total (catalog : list MenuItem.t) (n_days : Z)
    (start_date : datetime.t) :
  (0 < n_days)%Z ->
  window_in_calendar start_date n_days = true ->
  forallb positive_popularity catalog = true ->
  forall users events c g,
    forallb known_segment users = true ->
    exists r,
      users_loop set_to_list (build_item_lookup catalog)
                 (dict_keys (build_item_lookup catalog)) n_days start_date
                 users events c g = inr r.
Proof.
  intros Hdays Hwindow Hpop.
  induction users as [|user rest IH]; intros events c g Hsegs; simpl.
  - unfold ret. eauto.
  - simpl in Hsegs. apply andb_prop in Hsegs as [Hseg Hsegs].
    destruct (rng_choice_int_positive n_days (UserProfile.num_orders user) g
                Hdays) as (dates & g1 & Hc).
    pose proof (rng_choice_int_days n_days _ _ _ _ Hc) as Hrange.
    unfold bind at 1. rewrite Hc.
    destruct (sessions_loop_total catalog start_date user Hseg Hpop
                (sorted dates) events c g1) as ([[events1 c1] g2] & Hs).
    { apply Forall_forall. intros d Hd. apply (proj1 (sorted_In _ _)) in Hd.
      rewrite Forall_forall in Hrange.
      exact (window_in_range _ _ _ Hwindow (Hrange d Hd)). }
    unfold bind. rewrite Hs. now apply IH.
Qed.

Lemma generate_sessions_total
    (users : list UserProfile.t) (catalog : list MenuItem.t) (n_days : Z)
    (start_date : datetime.t) (rng : option G) :
  (0 < n_days)%Z ->
  window_in_calendar start_date n_days = true ->
  forallb known_segment users = true ->
  forallb positive_popularity catalog = true ->
  exists events,
    generate_sessions set_to_list users catalog n_days start_date rng
    = inr events.
Proof.
  intros Hdays Hwindow Hsegs Hpop. unfold generate_sessions.
  match goal with
  | |- context [users_loop ?s ?il ?ids ?n ?sd ?us ?ev ?c ?gg] =>
      destruct (users_loop_total catalog n sd Hdays Hwindow Hpop us ev c gg
                  Hsegs)
        as ([[events c'] gfin] & Hrun)
  end.
  rewrite Hrun. eauto.
Qed.


End Totality.


(** ** Where the run raises, and where it returns nothing *)

Lemma template_addons_of_table (name : string) (t : MealTemplate.t) :
  dict_get name MEAL_TEMPLATES = Some t ->
  role_items_of t "addon" <> [].
Proof.
  intro Hname. apply MEAL_TEMPLATES_ok in Hname. unfold template_ok in Hname.
  apply andb_prop in Hname as [_ Hname].
  change (role_items_of t "addon") with (MealTemplate.addons t).
  destruct (MealTemplate.addons t); discriminate.
Qed.

Section ErrorFacts.

Context {G : Type} `{Generator G}.
Variable set_to_list : SetOrder.

Lemma role_step_unknown_segment (env : SessionEnv) (role : string)
    (cart : list string) (events : list Event.t) (g : G) :
  known_segment (env_user env) = false ->
  role_items_of (env_template env) role <> [] ->
  role_step set_to_list env role cart events g
  = inl (KeyError (UserProfile.segment (env_user env))).
Proof.
  intros Hseg Hitems. unfold role_step.
  destruct (role_items_of (env_template env) role); [contradiction|].
  cbn [is_nil]. unfold bind, lift, role_accept_prob, dict_index.
  unfold known_segment, dict_mem in Hseg.
  destruct (dict_get (UserProfile.segment (env_user env)) SEGMENT_MULTIPLIER);
    [discriminate | reflexivity].
Qed.

Lemma roles_loop_unknown_segment (env : SessionEnv) (cart : list string)
    (events : list Event.t) (g : G) :
  known_segment (env_user env) = false ->
  role_items_of (env_template env) "addon" <> [] ->
  roles_loop set_to_list env ROLES cart events g
  = inl (KeyError (UserProfile.segment (env_user env))).
Proof.
  intros Hseg Haddon. unfold ROLES. cbn [roles_loop].
  destruct (role_items_of (env_template env) "complement") as [|r0 rs] eqn:Ec.
  - unfold bind at 1. unfold role_step at 1. rewrite Ec. cbn [is_nil].
    unfold ret at 1. unfold bind at 1.
    now rewrite role_step_unknown_segment.
  - unfold bind at 1. rewrite role_step_unknown_segment; [reflexivity | assumption|].
    rewrite Ec. discriminate.
Qed.

(** X14. A user whose segment is none of ["new"], ["regular"] and
    ["power"] makes [generate_sessions] raise: the first session of that
    user for which an anchor is selected ends in [KeyError(segment)],
    raised where the role loop looks up the segment multiplier, before
    any event of the session is built. *)
Theorem unknown_segment_raises (item_lookup : dict MenuItem.t)
    (all_item_ids : list string) (start_date : datetime.t)
    (user : UserProfile.t) (day_offset : Z) (events : list Event.t)
    (c : nat) (g : G) (ts : datetime.t) (mt name : string)
    (t : MealTemplate.t) (g1 : G) (anchor_id : string) (g2 : G) :
  known_segment user = false ->
  session_prelude item_lookup start_date user day_offset g
  = inr ((ts, mt, name, t), g1) ->
  valid_anchors item_lookup t <> [] ->
  select_anchor item_lookup user (valid_anchors item_lookup t) g1
  = inr (anchor_id, g2) ->
  session set_to_list item_lookup all_item_ids start_date user day_offset
          events c g
  = inl (KeyError (UserProfile.segment user))
  /\ forall rest,
      sessions_loop set_to_list item_lookup all_item_ids start_date user
                    (day_offset :: rest) events c g
      = inl (KeyError (UserProfile.segment user)).
Proof.
  intros Hseg Hpre Hvalid Hsel.
  pose proof (session_prelude_inv _ _ _ _ _ _ _ _ _ _ Hpre) as [Hname _].
  assert (Hs : session set_to_list item_lookup all_item_ids start_date user
                       day_offset events c g
               = inl (KeyError (UserProfile.segment user))).
  { unfold session, bind. rewrite Hpre.
    destruct (valid_anchors item_lookup t) as [|v vs] eqn:Ev; [contradiction|].
    cbn [is_nil]. rewrite Hsel. unfold rng_random at 1.
    destruct (random g2) as [u g3].
    rewrite roles_loop_unknown_segment; [reflexivity | exact Hseg |].
    exact (template_addons_of_table name t Hname). }
  split; [exact Hs|].
  intro rest. cbn [sessions_loop]. unfold bind. now rewrite Hs.
Qed.

End ErrorFacts.

Section NoDays.

Context {G : Type} `{ChoiceLaws G}.
Variable set_to_list : SetOrder.

Lemma users_loop_no_orders (item_lookup : dict MenuItem.t)
    (all_item_ids : list string) (n_days : Z) (start_date : datetime.t)
    (user : UserProfile.t) (rest : list UserProfile.t)
    (events : list Event.t) (c : nat) (g : G) :
  UserProfile.num_orders user = 0%nat ->
  users_loop set_to_list item_lookup all_item_ids n_days start_date
             (user :: rest) events c g
  = users_loop set_to_list item_lookup all_item_ids n_days start_date
               rest events c (snd (choice_int n_days 0 g)).
Proof.
  intro E. cbn [users_loop]. unfold bind at 1. unfold rng_choice_int.
  rewrite E, andb_false_r.
  pose proof (choice_int_length n_days 0%nat g) as Hlen.
  destruct (choice_int n_days 0 g) as [dates g1]. simpl in Hlen.
  destruct dates; [|discriminate]. reflexivity.
Qed.

Lemma users_loop_no_days_raises (item_lookup : dict MenuItem.t)
    (all_item_ids : list string) (n_days : Z) (start_date : datetime.t)
    (user : UserProfile.t) (rest : list UserProfile.t)
    (events : list Event.t) (c : nat) (g : G) :
  (n_days <= 0)%Z ->
  UserProfile.num_orders user <> 0%nat ->
  users_loop set_to_list item_lookup all_item_ids n_days start_date
             (user :: rest) events c g
  = inl (ValueError
           "a must be a positive integer unless no samples are taken").
Proof.
  intros Hdays E. cbn [users_loop]. unfold bind at 1. unfold rng_choice_int.
  destruct (Z.leb_spec n_days 0) as [_ | Hgt]; [|lia].
  apply Nat.eqb_neq in E. rewrite E. reflexivity.
Qed.

Lemma users_loop_no_days (item_lookup : dict MenuItem.t)
    (all_item_ids : list string) (n_days : Z) (start_date : datetime.t) :
  (n_days <= 0)%Z ->
  forall users events c g,
    if forallb no_orders users
    then exists g',
        users_loop set_to_list item_lookup all_item_ids n_days start_date
                   users events c g = inr ((events, c), g')
    else users_loop set_to_list item_lookup all_item_ids n_days start_date
                    users events c g
         = inl (ValueError
                  "a must be a positive integer unless no samples are taken").
Proof.
  intro Hdays.
  induction users as [|user rest IH]; intros events c g.
  - simpl. unfold ret. eauto.
  - cbn [forallb]. unfold no_orders at 1.
    destruct (UserProfile.num_orders user =? 0)%nat eqn:E.
    + apply Nat.eqb_eq in E. cbn [andb].
      rewrite (users_loop_no_orders _ _ _ _ _ _ _ _ _ E). apply IH.
    + apply Nat.eqb_neq in E. cbn [andb].
      now apply users_loop_no_days_raises.
Qed.

(** X15. With [n_days] zero or negative, [generate_sessions] raises
    [ValueError] as soon as a user has an order to place, at the draw
    of that user's order dates; if no user has an order, it returns the
    empty list. *)
Theorem no_days_raises
    (users : list UserProfile.t) (catalog : list MenuItem.t) (n_days : Z)
    (start_date : datetime.t) (rng : option G) :
  (n_days <= 0)%Z ->
  generate_sessions set_to_list users catalog n_days start_date rng
  = if forallb no_orders users then inr []
    else inl (ValueError
                "a must be a positive integer unless no samples are taken").
Proof.
  intro Hdays. unfold generate_sessions.
  match goal with
  | |- context [users_loop ?s ?il ?ids ?n ?sd ?us ?ev ?c ?gg] =>
      pose proof (users_loop_no_days il ids n sd Hdays us ev c gg) as Hrun
  end.
  destruct (forallb no_orders users).
  - destruct Hrun as [gfin Hrun]. now rewrite Hrun.
  - now rewrite Hrun.
Qed.

End NoDays.

Section NoAnchor.

Context {G : Type} `{GeneratorLaws G}.
Context {Hchoice : ChoiceLaws G}.
Variable set_to_list : SetOrder.

Lemma session_no_anchor (catalog : list MenuItem.t)
    (start_date : datetime.t) (user : UserProfile.t) (day_offset : Z)
    (events : list Event.t) (c : nat) (g : G) :
  datetime.in_range start_date day_offset = true ->
  no_anchor_in catalog = true ->
  exists g',
    session set_to_list (build_item_lookup catalog)
            (dict_keys (build_item_lookup catalog)) start_date user
            day_offset events c g = inr ((events, S c), g').
Proof.
  intros Hrange Hno.
  destruct (session_prelude_total (build_item_lookup catalog) start_date user
              day_offset g Hrange) as (ts & mt & name & t & g1 & Hpre).
  pose proof (session_prelude_inv _ _ _ _ _ _ _ _ _ _ Hpre) as [Hname _].
  exists g1. unfold session, bind. rewrite Hpre.
  unfold no_anchor_in in Hno. rewrite forallb_forall in Hno.
  apply dict_get_In in Hname. apply Hno in Hname. simpl in Hname.
  rewrite Hname. reflexivity.
Qed.

Lemma users_loop_no_anchor (catalog : list MenuItem.t) (n_days : Z)
    (start_date : datetime.t) :
  (0 < n_days)%Z ->
  window_in_calendar start_date n_days = true ->
  no_anchor_in catalog = true ->
  forall users events c g,
    exists c' g',
      users_loop set_to_list (build_item_lookup catalog)
                 (dict_keys (build_item_lookup catalog)) n_days start_date
                 users events c g = inr ((events, c'), g').
Proof.
  intros Hdays Hwindow Hno.
  assert (Hsess : forall user order_dates events c g,
             Forall (fun d => datetime.in_range start_date d = true)
                    order_dates ->
             exists c' g',
               sessions_loop set_to_list (build_item_lookup catalog)
                 (dict_keys (build_item_lookup catalog)) start_date user
                 order_dates events c g = inr ((events, c'), g')).
  { intros user. induction order_dates as [|d rest IH];
      intros events c g Hdates.
    - simpl. unfold ret. eauto.
    - cbn [sessions_loop]. inversion Hdates as [|? ? Hd Hrest]; subst.
      destruct (session_no_anchor catalog start_date user d events c g Hd Hno)
        as [g1 Hs].
      unfold bind. rewrite Hs. now apply IH. }
  induction users as [|user rest IH]; intros events c g; simpl.
  - unfold ret. eauto.
  - destruct (rng_choice_int_positive n_days (UserProfile.num_orders user) g
                Hdays) as (dates & g1 & Hc).
    pose proof (rng_choice_int_days n_days _ _ _ _ Hc) as Hrange.
    unfold bind at 1. rewrite Hc.
    destruct (Hsess user (sorted dates) events c g1) as (c1 & g2 & Hs).
    { apply Forall_forall. intros d Hd. apply (proj1 (sorted_In _ _)) in Hd.
      rewrite Forall_forall in Hrange.
      exact (window_in_range _ _ _ Hwindow (Hrange d Hd)). }
    unfold bind. rewrite Hs. apply IH.
Qed.

(** X16. A catalog that holds no anchor of any meal template gives no
    events: with a positive [n_days] whose days, counted from
    [start_date], are dates of the calendar, [generate_sessions]
    returns the empty list, without raising, whatever the users are.
    The empty catalog is such a catalog. *)
Theorem catalog_without_anchors_gives_no_events
    (users : list UserProfile.t) (catalog : list MenuItem.t) (n_days : Z)
    (start_date : datetime.t) (rng : option G) :
  (0 < n_days)%Z ->
  window_in_calendar start_date n_days = true ->
  no_anchor_in catalog = true ->
  generate_sessions set_to_list users catalog n_days start_date rng = inr []
  /\ no_anchor_in [] = true.
Proof.
  intros Hdays Hwindow Hno. split; [|reflexivity]. unfold generate_sessions.
  match goal with
  | |- context [users_loop ?s ?il ?ids ?n ?sd ?us ?ev ?c ?gg] =>
      destruct (users_loop_no_anchor catalog n sd Hdays Hwindow Hno us ev c gg)
        as (c' & gfin & Hrun)
  end.
  now rewrite Hrun.
Qed.

End NoAnchor.

Lemma unknown_segment_raises_witness :
  exists ts mt name t g1 anchor_id g2,
    known_segment user_vip = false
    /\ session_prelude small_lookup start_2025 user_vip 15 tape_session
       = inr ((ts, mt, name, t), g1)
    /\ valid_anchors small_lookup t <> []
    /\ select_anchor small_lookup user_vip (valid_anchors small_lookup t) g1
       = inr (anchor_id, g2)
    /\ session insertion_order small_lookup (dict_keys small_lookup)
               start_2025 user_vip 15 [] 0 tape_session
       = inl (KeyError "vip").
Proof.
  assert (Hpre : session_prelude small_lookup start_2025 user_vip 15
                                 tape_session
                 = inr ((lunch_time, "lunch", "chinese_meal", chinese_meal),
                        skipn 3 tape_session))
    by (vm_compute; reflexivity).
  assert (Hvalid : valid_anchors small_lookup chinese_meal <> [])
    by (vm_compute; discriminate).
  assert (Hsel : select_anchor small_lookup user_vip
                   (valid_anchors small_lookup chinese_meal)
                   (skipn 3 tape_session)
                 = inr ("ITEM_014", skipn 4 tape_session))
    by (vm_compute; reflexivity).
  exists lunch_time, "lunch", "chinese_meal", chinese_meal,
    (skipn 3 tape_session), "ITEM_014", (skipn 4 tape_session).
  split; [reflexivity|]. split; [exact Hpre|]. split; [exact Hvalid|].
  split; [exact Hsel|].
  exact (proj1 (unknown_segment_raises insertion_order small_lookup
                  (dict_keys small_lookup) start_2025 user_vip 15 [] 0%nat
                  tape_session _ _ _ _ _ _ _ eq_refl Hpre Hvalid Hsel)).
Defined.

Lemma no_days_raises_witness :
  (0 <= 0)%Z
  /\ generate_sessions insertion_order [user_regular] small_catalog 0
                       start_2025 (Some (UnitTape tape_run))
     = inl (ValueError
              "a must be a positive integer unless no samples are taken").
Proof.
  split; [lia|].
  exact (no_days_raises insertion_order [user_regular] small_catalog 0%Z
           start_2025 (Some (UnitTape tape_run)) (Z.le_refl 0)).
Defined.

Lemma catalog_without_anchors_gives_no_events_witness :
  (0 < 30)%Z
  /\ window_in_calendar start_2025 30 = true
  /\ no_anchor_in sides_catalog = true
  /\ generate_sessions insertion_order [user_regular; user_vip] sides_catalog
                       30 start_2025 (Some (UnitTape tape_run)) = inr [].
Proof.
  split; [lia|]. split; [reflexivity|]. split; [reflexivity|].
  exact (proj1 (catalog_without_anchors_gives_no_events insertion_order
                  [user_regular; user_vip] sides_catalog 30%Z start_2025
                  (Some (UnitTape tape_run)) eq_refl eq_refl eq_refl)).
Defined.

(** ** Anchors nobody orders *)

Lemma Qsum_zero (l : list Q) : Forall (fun x => x == 0) l -> Qsum l == 0.
Proof.
  induction 1 as [|x l Hx _ IH].
  - reflexivity.
  - rewrite Qsum_cons, Hx, IH. reflexivity.
Qed.

Section ZeroScores.

Context {G : Type} `{Generator G}.

(** X17. If every anchor offered to [select_anchor] has a popularity
    score of zero, all scores are zero, the probabilities cannot be
    normalised, and the selection raises [ValueError] instead of
    returning an anchor. *)
Theorem zero_scores_raise (item_lookup : dict MenuItem.t)
    (user : UserProfile.t) (valid : list string) (g : G) :
  forallb (zero_popularity item_lookup) valid = true ->
  exists msg,
    select_anchor item_lookup user valid g = inl (ValueError msg).
Proof.
  intro Hzero. rewrite forallb_forall in Hzero.
  destruct (scored_anchors_total item_lookup user valid)
    as (scored & Hscored & Hfst & Hall).
  { intros aid Ha. apply Hzero in Ha. unfold zero_popularity in Ha.
    unfold dict_mem. destruct (dict_get aid item_lookup); [reflexivity | discriminate]. }
  assert (Hps : Forall (fun x => x == 0) (map snd scored)).
  { apply Forall_map. rewrite Forall_forall in Hall |- *.
    intros entry He. destruct (Hall entry He) as (item & Hitem & ->).
    assert (Ha : In (fst entry) valid) by (rewrite <- Hfst; now apply in_map).
    apply Hzero in Ha. unfold zero_popularity in Ha. rewrite Hitem in Ha.
    apply Qeq_bool_eq in Ha. unfold anchor_score. rewrite Ha. ring. }
  exists "invalid probabilities".
  unfold select_anchor, bind, lift. rewrite Hscored. unfold rng_choice_p.
  assert (Hinvalid : valid_probabilities (map fst scored)
                       (normalize (map snd scored)) = false).
  { unfold valid_probabilities.
    destruct (Qeq_bool (Qsum (normalize (map snd scored))) 1) eqn:E;
      [|apply andb_false_r].
    exfalso. apply Qeq_bool_eq in E. unfold normalize in E.
    rewrite Qsum_map_div, (Qsum_zero _ Hps) in E.
    revert E. unfold Qeq. simpl. discriminate. }
  now rewrite Hinvalid.
Qed.

End ZeroScores.

Lemma zero_scores_raise_witness :
  forallb (zero_popularity unpopular_lookup) ["ITEM_014"] = true
  /\ exists msg,
      select_anchor unpopular_lookup user_regular ["ITEM_014"] tape_session
      = inl (ValueError msg).
Proof.
  split; [reflexivity|].
  exact (zero_scores_raise unpopular_lookup user_regular ["ITEM_014"]
           tape_session eq_refl).
Defined.

(** ** [generate_users] *)

Lemma scan_segments_cases (seg_roll : Q) :
  In (scan_segments seg_roll 0.0 USER_SEGMENTS "new")
     ["new"; "regular"; "power"].
Proof.
  unfold USER_SEGMENTS. cbn [scan_segments].
  repeat match goal with
         | |- context [if ?b then _ else _] => destruct b
         end; simpl; auto.
Qed.

Lemma segment_tables (segment : string) :
  In segment ["new"; "regular"; "power"] ->
  exists seg_info,
    dict_get segment USER_SEGMENTS = Some seg_info
    /\ (1 <= fst (UserSegment.order_range seg_info)
        <= snd (UserSegment.order_range seg_info))%Z
    /\ dict_mem segment SEGMENT_MULTIPLIER = true.
Proof.
  intro Hin. simpl in Hin.
  repeat destruct Hin as [<- | Hin]; try contradiction;
    (eexists; split; [reflexivity|]; split; [simpl; lia | reflexivity]).
Qed.

Lemma city_tables (city : string) :
  In city CITIES ->
  exists a b city_affinities,
    dict_get city city_veg_beta_params = Some (a, b)
    /\ Qle_bool a 0 = false /\ Qle_bool b 0 = false
    /\ dict_get city CITY_CUISINE_AFFINITY = Some city_affinities
    /\ city_affinities <> []
    /\ nodupb (dict_keys city_affinities) = true.
Proof.
  intro Hin. unfold CITIES in Hin. simpl in Hin.
  repeat destruct Hin as [<- | Hin]; try contradiction;
    (eexists; eexists; eexists; split; [reflexivity|];
     split; [reflexivity|]; split; [reflexivity|]; split; [reflexivity|];
     split; [discriminate | reflexivity]).
Qed.

Lemma py_max_key_In (d : dict Q) :
  d <> [] -> exists best, py_max_key d = inr best /\ In best (dict_keys d).
Proof.
  destruct d as [|kv rest]; [contradiction|]. intros _.
  unfold py_max_key. eexists. split; [reflexivity|].
  assert (Hgen : forall rest kv0,
             In (fold_left (fun best kv' : string * Q =>
                              if Qltb (snd best) (snd kv') then kv' else best)
                           rest kv0) (kv0 :: rest)).
  { clear. induction rest as [|kv1 rest IH]; intro kv0; simpl; [auto|].
    destruct (Qltb (snd kv0) (snd kv1)).
    - right. apply IH.
    - destruct (IH kv0) as [Heq | Hin]; [left; exact Heq | right; right; exact Hin]. }
  unfold dict_keys. apply in_map. apply Hgen.
Qed.

Section UsersFacts.

Context {G : Type} `{ProfileGenerator G}.

Lemma sample_preferred_spec :
  forall (city_affinities : dict Q) (g : G),
    exists r,
      sample_preferred city_affinities g = inr r
      /\ incl (fst r) (dict_keys city_affinities)
      /\ (NoDup (dict_keys city_affinities) -> NoDup (fst r)).
Proof.
  induction city_affinities as [|[c score] rest IH]; intro g.
  - simpl. unfold ret. eexists. split; [reflexivity|]. simpl.
    split; [intros x [] | constructor].
  - cbn [sample_preferred]. unfold bind at 1. unfold rng_random.
    destruct (random g) as [u g1].
    destruct (IH g1) as ([l g2] & Hrun & Hincl & Hnd). simpl in Hincl, Hnd.
    unfold bind. rewrite Hrun. unfold ret. eexists. split; [reflexivity|].
    simpl. split.
    + destruct (Qltb u (score * 0.8)).
      * intros x [<- | Hx]; [now left | right; auto].
      * intros x Hx. right. auto.
    + intro Hkeys. inversion Hkeys as [|? ? Hc Hrest]; subst.
      destruct (Qltb u (score * 0.8)); [|auto].
      constructor; [|auto]. intro Hin. apply Hc. auto.
Qed.

Lemma rng_integers_ok (low high : Z) (g : G) :
  (low < high)%Z ->
  rng_integers low high g
  = inr (fst (integers low high g), snd (integers low high g)).
Proof.
  intro Hlt. unfold rng_integers.
  destruct (Z.leb_spec high low); [lia|]. now destruct (integers low high g).
Qed.

Lemma rng_beta_ok (a b : Q) (g : G) :
  Qle_bool a 0 = false -> Qle_bool b 0 = false ->
  rng_beta a b g = inr (fst (beta a b g), snd (beta a b g)).
Proof.
  intros Ha Hb. unfold rng_beta. rewrite Ha, Hb. now destruct (beta a b g).
Qed.

End UsersFacts.

Lemma city_weights_ok :
  Forall (Qle 0) (normalize CITY_WEIGHTS) /\ Qsum (normalize CITY_WEIGHTS) == 1.
Proof.
  apply positive_weights_normalize; [discriminate|].
  unfold CITY_WEIGHTS. repeat constructor.
Qed.

Section UsersTheorem.

Context {G : Type} `{ProfileGenerator G}.
Context {Hlaws : GeneratorLaws G} {Hsamplers : SamplerLaws G}.

Lemma generate_user_spec (i : nat) (g : G) :
  exists r,
    generate_user (normalize CITY_WEIGHTS) i g = inr r
    /\ (user_well_formed (fst r)
        /\ UserProfile.user_id (fst r) = ("U" ++ format_05d (S i))%string
        /\ known_segment (fst r) = true).
Proof.
  destruct city_weights_ok as [Hnn Hsum].
  destruct (rng_choice_p_total CITIES (normalize CITY_WEIGHTS) g)
    as (city & g1 & Hcity & Hin); try assumption;
    [discriminate | now rewrite normalize_length|].
  destruct (city_tables city Hin)
    as (a & b & aff & Hab & Ha & Hb & Haff & Hne & Hnd).
  apply nodupb_NoDup in Hnd.
  unfold generate_user.
  eapply bind_ok; [exact Hcity|].
  eapply bind_ok; [unfold lift, dict_index; rewrite Hab; reflexivity|].
  cbv beta iota.
  eapply bind_ok; [apply rng_random_eq|]. cbv zeta.
  set (segment := scan_segments (fst (random g1)) 0.0 USER_SEGMENTS "new").
  destruct (segment_tables segment (scan_segments_cases _))
    as (seg_info & Hseg & Hrange & Hknown).
  eapply bind_ok; [unfold lift, dict_index; rewrite Hseg; reflexivity|].
  destruct (UserSegment.order_range seg_info) as [lo hi] eqn:Erange.
  simpl in Hrange.
  eapply bind_ok; [apply rng_integers_ok; lia|].
  pose proof (integers_range lo (hi + 1) (snd (random g1))) as Hint.
  set (num_orders := fst (integers lo (hi + 1) (snd (random g1)))) in *.
  set (g3 := snd (integers lo (hi + 1) (snd (random g1)))).
  eapply bind_ok; [unfold lift, dict_index; rewrite Haff; reflexivity|].
  destruct (sample_preferred_spec aff g3) as ([sampled g4] & Hsam & Hincl & Hnd').
  simpl in Hincl, Hnd'.
  eapply bind_ok; [exact Hsam|].
  assert (Hpref : exists pref,
             (if is_nil sampled
              then bind (lift (py_max_key aff)) (fun best => ret [best])
              else ret sampled) g4 = inr (pref, g4)
             /\ pref <> [] /\ incl pref (dict_keys aff) /\ NoDup pref).
  { destruct sampled as [|s0 ss]; cbn [is_nil].
    - destruct (py_max_key_In aff Hne) as (best & Hbest & Hbin).
      exists [best]. unfold bind, lift, ret. rewrite Hbest.
      repeat split; [discriminate | | repeat constructor; simpl; tauto].
      intros x [<- | []]. assumption.
    - exists (s0 :: ss). unfold ret.
      repeat split; [discriminate | assumption | auto]. }
  destruct Hpref as (pref & Hpref & Hpne & Hpincl & Hpnd).
  eapply bind_ok; [exact Hpref|].
  eapply bind_ok; [apply rng_beta_ok; assumption|].
  eapply bind_ok; [apply rng_beta_ok; reflexivity|].
  eapply bind_ok; [apply rng_beta_ok; reflexivity|].
  unfold ret. eexists. split; [reflexivity|].
  cbn [fst]. split; [|split; [reflexivity | exact Hknown]].
  unfold user_well_formed. cbn [UserProfile.city UserProfile.segment
    UserProfile.num_orders UserProfile.preferred_cuisines
    UserProfile.veg_preference UserProfile.price_sensitivity
    UserProfile.adventurousness].
  split; [assumption|]. split; [|split; [|repeat split; apply beta_range]].
  - exists seg_info. split; [assumption|]. rewrite Erange. simpl.
    rewrite Z2Nat.id; lia.
  - exists aff. auto.
Qed.

Lemma users_from_spec :
  forall indices (g : G),
    exists r,
      users_from (normalize CITY_WEIGHTS) indices g = inr r
      /\ Forall user_well_formed (fst r)
      /\ map UserProfile.user_id (fst r)
         = map (fun i => ("U" ++ format_05d (S i))%string) indices
      /\ forallb known_segment (fst r) = true.
Proof.
  induction indices as [|i rest IH]; intro g.
  - simpl. unfold ret. eexists. split; [reflexivity|]. simpl. auto.
  - cbn [users_from].
    destruct (generate_user_spec i g) as ([user g1] & Hu & Hwf & Hid & Hk).
    destruct (IH g1) as ([users g2] & Hus & Hwfs & Hids & Hks).
    simpl in *. unfold bind. rewrite Hu, Hus. unfold ret.
    eexists. split; [reflexivity|]. simpl.
    rewrite Hid, Hids, Hk, Hks. auto.
Qed.

End UsersTheorem.

Lemma user_number_format (k : nat) :
  user_number ("U" ++ format_05d k) = Some k.
Proof. simpl. apply parse_format_05d. Qed.

Lemma NoDup_map_injective {A B} (f : A -> B) (l : list A) :
  (forall x y, f x = f y -> x = y) -> NoDup l -> NoDup (map f l).
Proof.
  intros Hinj Hnd. induction Hnd as [|x l Hx Hnd IH]; simpl; constructor.
  - intro Hin. apply in_map_iff in Hin as (y & Hy & Hin).
    apply Hinj in Hy. now subst.
  - exact IH.
Qed.

Section UserIds.

Context {G : Type} `{ProfileGenerator G}.

Lemma generate_user_id (city_weights : list Q) (i : nat) (g : G)
    (user : UserProfile.t) (g' : G) :
  generate_user city_weights i g = inr (user, g') ->
  UserProfile.user_id user = ("U" ++ format_05d (S i))%string.
Proof.
  unfold generate_user. intro Hrun.
  apply bind_inr in Hrun as (city & g1 & _ & Hrun).
  apply bind_inr in Hrun as ([a b] & g2 & _ & Hrun).
  apply bind_inr in Hrun as (seg_roll & g3 & _ & Hrun).
  apply bind_inr in Hrun as (seg_info & g4 & _ & Hrun).
  destruct (UserSegment.order_range seg_info) as [lo hi].
  apply bind_inr in Hrun as (num_orders & g5 & _ & Hrun).
  apply bind_inr in Hrun as (aff & g6 & _ & Hrun).
  apply bind_inr in Hrun as (sampled & g7 & _ & Hrun).
  apply bind_inr in Hrun as (pref & g8 & _ & Hrun).
  apply bind_inr in Hrun as (veg & g9 & _ & Hrun).
  apply bind_inr in Hrun as (ps & g10 & _ & Hrun).
  apply bind_inr in Hrun as (adv & g11 & _ & Hrun).
  unfold ret in Hrun. injection Hrun as <- _. reflexivity.
Qed.

Lemma users_from_ids (city_weights : list Q) :
  forall indices (g : G) users g',
    users_from city_weights indices g = inr (users, g') ->
    map UserProfile.user_id users
    = map (fun i => ("U" ++ format_05d (S i))%string) indices.
Proof.
  induction indices as [|i rest IH]; intros g users g' Hrun;
    cbn [users_from] in Hrun.
  - unfold ret in Hrun. injection Hrun as <- _. reflexivity.
  - apply bind_inr in Hrun as (user & g1 & Hu & Hrun).
    apply bind_inr in Hrun as (users' & g2 & Hus & Hrun).
    unfold ret in Hrun. injection Hrun as <- _.
    simpl. rewrite (generate_user_id _ _ _ _ _ Hu), (IH _ _ _ Hus).
    reflexivity.
Qed.

(** X18. [generate_users] returns [n_users] profiles (none when
    [n_users] is negative) whose ids are the letter U and the numbers
    1, 2, ... in at least five digits, in this order.  The number can
    be read back from the id, so no two of the profiles share an id,
    also beyond 99999 users, where the ids grow longer. *)
Theorem user_ids_are_distinct (n_users : Z) (rng : option G)
    (users : list UserProfile.t) (g' : G) :
  generate_users n_users rng = inr (users, g') ->
  length users = Z.to_nat n_users
  /\ map UserProfile.user_id users
     = map (fun i => ("U" ++ format_05d (S i))%string)
           (seq 0 (Z.to_nat n_users))
  /\ (forall k, user_number ("U" ++ format_05d k) = Some k)
  /\ NoDup (map UserProfile.user_id users).
Proof.
  unfold generate_users. intro Hrun.
  apply users_from_ids in Hrun.
  assert (Hlen : length users = Z.to_nat n_users).
  { apply (f_equal (@length string)) in Hrun.
    now rewrite !length_map, length_seq in Hrun. }
  split; [exact Hlen|]. split; [exact Hrun|].
  split; [exact user_number_format|].
  rewrite Hrun. apply NoDup_map_injective; [|apply seq_NoDup].
  intros x y Heq. apply (f_equal user_number) in Heq.
  rewrite !user_number_format in Heq. congruence.
Qed.

End UserIds.

Section UsersWellFormed.

Context {G : Type} `{ProfileGenerator G}.
Context {Hlaws : GeneratorLaws G} {Hsamplers : SamplerLaws G}.

(** X19. [generate_users] does not raise, and every profile it returns
    is well formed: its city is one of [CITIES]; its segment is one of
    [USER_SEGMENTS] and its number of orders lies in the order range of
    that segment, both ends included; it prefers at least one cuisine,
    each a cuisine of its city's affinity table and none twice; and its
    three preference scores lie in [0, 1].  So every profile has a
    segment [generate_sessions] knows. *)
Theorem generate_users_well_formed (n_users : Z) (rng : option G) :
  exists users g',
    generate_users n_users rng = inr (users, g')
    /\ Forall user_well_formed users
    /\ forallb known_segment users = true.
Proof.
  unfold generate_users.
  match goal with
  | |- context [users_from ?cw ?ix ?gg] =>
      destruct (users_from_spec ix gg) as ([users g'] & Hrun & Hwf & _ & Hk)
  end.
  exists users, g'. simpl in Hwf, Hk. auto.
Qed.

End UsersWellFormed.

Lemma user_ids_are_distinct_witness :
  exists users g',
    generate_users 3 (Some (UnitTape tape_users)) = inr (users, g')
    /\ map UserProfile.user_id users = ["U00001"; "U00002"; "U00003"]
    /\ NoDup (map UserProfile.user_id users).
Proof.
  destruct (generate_users 3 (Some (UnitTape tape_users)))
    as [e | [users g']] eqn:Hrun; [vm_compute in Hrun; discriminate|].
  exists users, g'. split; [reflexivity|].
  destruct (user_ids_are_distinct 3 (Some (UnitTape tape_users)) users g' Hrun)
    as (_ & Hids & _ & Hnd).
  split; [exact Hids | exact Hnd].
Defined.

Lemma generate_users_well_formed_witness :
  exists users g',
    generate_users 3 (Some (UnitTape tape_users)) = inr (users, g')
    /\ Forall user_well_formed users
    /\ forallb known_segment users = true.
Proof.
  exact (generate_users_well_formed 3 (Some (UnitTape tape_users))).
Defined.

(** ** The main program *)

Lemma build_menu_catalog_popular :
  forallb positive_popularity build_menu_catalog = true.
Proof. vm_compute. reflexivity. Qed.

Section MainProgram.

Context {G : Type} `{ProfileGenerator G}.
Context {Hlaws : GeneratorLaws G} {Hchoice : ChoiceLaws G}.
Context {Hsamplers : SamplerLaws G}.
Variable set_to_list : SetOrder.

(** X20. Steps 1 to 3 of the main program compose: for any number of
    users and any number of days from 1 to 2912808, which is as far as
    the calendar goes from the default start date 2025-01-01, the
    profiles that [generate_users] returns and the catalog of
    [build_menu_catalog] are input on which [generate_sessions] does
    not raise, and every event of the result carries the fields of a
    well-formed profile, so its [city] is one of [CITIES] and its
    [user_segment] one of [USER_SEGMENTS]. *)
Theorem simulate_never_raises (n_users n_days : Z) (rng : G) :
  (0 < n_days <= 2912808)%Z ->
  exists events,
    simulate set_to_list n_users n_days rng = inr events
    /\ Forall (fun e =>
                 In (Event.city e) CITIES
                 /\ In (Event.user_segment e) (dict_keys USER_SEGMENTS)
                 /\ exists user,
                     user_well_formed user /\ event_of_user user e)
              events.
Proof.
  intro Hdays. unfold simulate, generate_users.
  match goal with
  | |- context [users_from ?cw ?ix ?gg] =>
      destruct (users_from_spec ix gg) as ([users g1] & Hrun & Hwf & _ & Hk)
  end.
  simpl in Hwf, Hk. rewrite Hrun.
  assert (Hwindow : window_in_calendar start_2025 n_days = true).
  { unfold window_in_calendar, datetime.MINORDINAL, datetime.MAXORDINAL.
    change (datetime.ordinal start_2025) with 739252%Z.
    rewrite andb_true_iff, !Z.leb_le. lia. }
  destruct (generate_sessions_total set_to_list users build_menu_catalog
              n_days start_2025 (Some g1) (proj1 Hdays) Hwindow Hk
              build_menu_catalog_popular) as [events Hev].
  exists events. split; [exact Hev|].
  apply generate_sessions_users in Hev.
  eapply Forall_impl; [|exact Hev].
  intros e [(user & Hu & He) Hseg].
  rewrite Forall_forall in Hwf. specialize (Hwf user Hu).
  split; [|split; [exact Hseg | eauto]].
  destruct He as (_ & Hcity & _). rewrite Hcity. apply Hwf.
Qed.

End MainProgram.

Lemma simulate_never_raises_witness :
  (0 < 30 <= 2912808)%Z
  /\ exists events,
      simulate insertion_order 1 30 (UnitTape tape_users) = inr events
      /\ events <> []
      /\ Forall (fun e =>
                   In (Event.city e) CITIES
                   /\ In (Event.user_segment e) (dict_keys USER_SEGMENTS)
                   /\ exists user,
                       user_well_formed user /\ event_of_user user e)
                events.
Proof.
  split; [lia|].
  destruct (simulate_never_raises insertion_order 1 30
              (UnitTape tape_users)) as (events & Hrun & Hall); [lia|].
  exists events. split; [exact Hrun|]. split; [|exact Hall].
  intros ->. vm_compute in Hrun. discriminate.
Defined.

(** ** [MEAL_TIMES] *)

(** X21. [_get_meal_time] agrees with the table [MEAL_TIMES]: an hour
    of the day that lies in the range the table gives a bucket, from
    its first hour up to but not including its second and around
    midnight for ["late_night"], is mapped to that bucket.  The hours
    the table leaves out are mapped as well: 10 and 14 to ["lunch"],
    17 to ["snacks"], and 2 to 5 to ["late_night"]. *)
Theorem get_meal_time_agrees_with_table :
  (forall name lo hi hour,
      dict_get name MEAL_TIMES = Some (lo, hi) ->
      in_meal_range lo hi hour = true ->
      _get_meal_time hour = name)
  /\ _get_meal_time 10 = "lunch" /\ _get_meal_time 14 = "lunch"
  /\ _get_meal_time 17 = "snacks"
  /\ (forall hour, (2 <= hour <= 5)%Z -> _get_meal_time hour = "late_night")
  /\ (forall hour, (0 <= hour <= 23)%Z ->
        (exists lo hi,
            dict_get (_get_meal_time hour) MEAL_TIMES = Some (lo, hi)
            /\ in_meal_range lo hi hour = true)
        \/ In hour [10; 14; 17; 2; 3; 4; 5]%Z).
Proof.
  split; [|split; [reflexivity|split; [reflexivity|split; [reflexivity|split]]]].
  - intros name lo hi hour Hget Hin.
    apply dict_get_In in Hget. unfold MEAL_TIMES in Hget. simpl in Hget.
    unfold in_meal_range in Hin. unfold _get_meal_time.
    repeat destruct Hget as [Hget | Hget]; try contradiction;
      injection Hget as <- <- <-; simpl in Hin;
      repeat match goal with
             | |- context [(?a <=? ?b)%Z] => destruct (Z.leb_spec a b)
             | |- context [(?a <? ?b)%Z] => destruct (Z.ltb_spec a b)
             | H : context [(?a <=? ?b)%Z] |- _ => destruct (Z.leb_spec a b)
             | H : context [(?a <? ?b)%Z] |- _ => destruct (Z.ltb_spec a b)
             end; simpl in *; try reflexivity; try discriminate; lia.
  - intros hour Hh. unfold _get_meal_time.
    repeat match goal with
           | |- context [(?a <=? ?b)%Z] => destruct (Z.leb_spec a b)
           | |- context [(?a <? ?b)%Z] => destruct (Z.ltb_spec a b)
           end; simpl; try reflexivity; lia.
  - intros hour Hh.
    assert (Hcases : (hour = 0 \/ hour = 1 \/ hour = 2 \/ hour = 3 \/ hour = 4
                      \/ hour = 5 \/ hour = 6 \/ hour = 7 \/ hour = 8
                      \/ hour = 9 \/ hour = 10 \/ hour = 11 \/ hour = 12
                      \/ hour = 13 \/ hour = 14 \/ hour = 15 \/ hour = 16
                      \/ hour = 17 \/ hour = 18 \/ hour = 19 \/ hour = 20
                      \/ hour = 21 \/ hour = 22 \/ hour = 23)%Z) by lia.
    repeat destruct Hcases as [-> | Hcases]; try subst hour;
      first [ left; eexists; eexists; split; reflexivity
            | right; simpl; tauto ].
Qed.

(** ** The noise candidates *)

Section NoiseSample.

Context {G : Type} `{GeneratorLaws G}.

(** X22. The noise sample of a role always fits its population.  When
    the ids of the catalog, the cart and the role's item list hold no
    item twice and the cart holds catalog items only, the size the
    source computes from the three lengths, [min(3, len(all_item_ids) -
    len(cart) - len(valid_candidates))], is [min(3, n)] for the number
    [n] of ids that are neither in the cart nor valid candidates; so
    the draw without replacement does not raise, and it returns that
    many distinct ids of the population. *)
Theorem noise_sample_fits (env : SessionEnv) (role : string)
    (cart : list string) (g : G) :
  env_all_item_ids env = dict_keys (env_item_lookup env) ->
  NoDup (env_all_item_ids env) ->
  template_ok (env_template env) = true ->
  NoDup cart ->
  (forall c, In c cart -> dict_mem c (env_item_lookup env) = true) ->
  let valid := valid_candidates_of (env_item_lookup env)
                 (role_items_of (env_template env) role) cart in
  let population := noise_population (env_all_item_ids env) cart valid in
  noise_size (env_all_item_ids env) cart valid
  = Z.min 3 (Z.of_nat (length population))
  /\ exists noise g',
      rng_choice_noreplace population
        (noise_size (env_all_item_ids env) cart valid) g = inr (noise, g')
      /\ length noise = Nat.min 3 (length population)
      /\ NoDup noise
      /\ incl noise population.
Proof.
  intros Hids Hnd Hok Hcart Hin valid population.
  pose proof (noise_size_fits env role cart Hids Hnd Hok Hcart Hin) as Hsize.
  cbv zeta in Hsize. fold valid in Hsize. fold population in Hsize.
  split; [exact Hsize|].
  assert (Hfit : (0 <= noise_size (env_all_item_ids env) cart valid
                  <= Z.of_nat (length population))%Z) by lia.
  pose proof (rng_choice_noreplace_total population _ g Hfit) as Hrun.
  eexists. eexists. split; [exact Hrun|].
  assert (Hpop : NoDup population)
    by (unfold population, noise_population; now apply NoDup_filter).
  destruct (noise_candidates_spec _ _ _ _ _ Hpop Hrun) as (Hn1 & Hn2 & Hn3).
  split; [|split; assumption].
  rewrite Hn3, Hsize. lia.
Qed.

End NoiseSample.

Lemma noise_sample_fits_witness :
  exists noise g',
    noise_size (env_all_item_ids lunch_env) ["ITEM_014"]
      (valid_candidates_of small_lookup
         (role_items_of chinese_meal "complement") ["ITEM_014"]) = 2%Z
    /\ rng_choice_noreplace
         (noise_population (env_all_item_ids lunch_env) ["ITEM_014"]
            (valid_candidates_of small_lookup
               (role_items_of chinese_meal "complement") ["ITEM_014"]))
         2 tape_roles = inr (noise, g')
    /\ length noise = 2%nat
    /\ NoDup noise.
Proof.
  assert (Hcart : NoDup ["ITEM_014"]) by (repeat constructor; simpl; tauto).
  assert (Hin : forall c, In c ["ITEM_014"] ->
                  dict_mem c (env_item_lookup lunch_env) = true)
    by (intros c [<- | []]; reflexivity).
  destruct (noise_sample_fits lunch_env "complement" ["ITEM_014"] tape_roles
              eq_refl (build_item_lookup_NoDup small_catalog) eq_refl
              Hcart Hin)
    as (Hsize & noise & g' & Hrun & Hlen & Hnd & _).
  exists noise, g'.
  split; [reflexivity|]. split; [exact Hrun|]. split; [exact Hlen | exact Hnd].
Defined.

(** ** The days of a user's events *)

Lemma insert_sorted_sorted (x : Z) (l : list Z) :
  Sorted.StronglySorted Z.le l ->
  Sorted.StronglySorted Z.le (insert_sorted x l).
Proof.
  intro Hs. induction Hs as [|y l Hs IH Hy]; simpl.
  - repeat constructor.
  - destruct (Z.ltb_spec x y) as [Hlt | Hge].
    + constructor; [constructor; assumption|].
      constructor; [lia|]. eapply Forall_impl; [|exact Hy].
      simpl. intros z Hz. lia.
    + constructor; [assumption|].
      apply Forall_forall. intros z Hz. apply insert_sorted_In in Hz.
      destruct Hz as [-> | Hz]; [assumption|].
      rewrite Forall_forall in Hy. auto.
Qed.

Lemma sorted_sorted (l : list Z) : Sorted.StronglySorted Z.le (sorted l).
Proof.
  induction l as [|x l IH]; simpl; [constructor|].
  now apply insert_sorted_sorted.
Qed.

Lemma ordered_app_repeat (l : list (string * Z)) (p : string * Z) (n : nat) :
  ForallOrdPairs date_ordered l ->
  Forall (fun q => date_ordered q p) l ->
  ForallOrdPairs date_ordered (l ++ repeat p n)%list.
Proof.
  intros Hl Hp. induction Hl as [|q l Hq Hl IH]; simpl.
  - induction n as [|n IHn]; simpl; constructor; [|assumption].
    apply Forall_forall. intros x Hx. apply repeat_spec in Hx. subst x.
    intros _. lia.
  - inversion Hp as [|? ? Hqp Hp']; subst.
    constructor; [|now apply IH].
    apply Forall_app. split; [assumption|].
    apply Forall_forall. intros x Hx. apply repeat_spec in Hx. now subst x.
Qed.

Section DateOrder.

Context {G : Type} `{Generator G}.
Variable set_to_list : SetOrder.

Lemma made_in_user_and_date (item_lookup : dict MenuItem.t)
    (all_item_ids : list string) (start_date : datetime.t)
    (user : UserProfile.t) (day_offset : Z) (k : nat) (env : SessionEnv)
    (anchor_id : string) (e : Event.t) :
  session_of item_lookup all_item_ids start_date user day_offset k env
             anchor_id ->
  made_in set_to_list env anchor_id e ->
  user_and_date e
  = (UserProfile.user_id user, (datetime.ordinal start_date + day_offset)%Z).
Proof.
  intros (ts & name & t & ab & g0 & g1 & g2 & -> & Hrange & (h & m & -> & _) & _)
         (cart & cand_id & item & acc & Hmk & _).
  destruct (make_event_inv _ _ _ _ _ _ _ Hmk)
    as (last_id & last_item & _ & _ & _ & Heq).
  rewrite Heq in Hmk. cbv zeta in Hmk. injection Hmk as <-. reflexivity.
Qed.

(** The user and the day of the events a session appends. *)
Lemma session_user_and_date (item_lookup : dict MenuItem.t)
    (all_item_ids : list string) (start_date : datetime.t)
    (user : UserProfile.t) (day_offset : Z)
    (events : list Event.t) (c : nat) (g : G)
    (events' : list Event.t) (c' : nat) (g' : G) :
  session set_to_list item_lookup all_item_ids start_date user day_offset
          events c g = inr ((events', c'), g') ->
  exists n,
    map user_and_date events'
    = (map user_and_date events
       ++ repeat (UserProfile.user_id user,
                  (datetime.ordinal start_date + day_offset)%Z) n)%list.
Proof.
  intro Hs.
  apply session_events in Hs
    as [_ [-> | (env & a & new & u & Hof & Hnew & ->)]].
  - exists 0%nat. simpl. now rewrite app_nil_r.
  - exists (length new).
    rewrite abandon_override_map by (intro e; now destruct e).
    rewrite map_app. f_equal.
    clear - Hof Hnew. induction Hnew as [|e new He Hnew IH]; [reflexivity|].
    simpl. rewrite IH. f_equal.
    exact (made_in_user_and_date _ _ _ _ _ _ _ _ _ Hof He).
Qed.

Lemma sessions_loop_date_order (item_lookup : dict MenuItem.t)
    (all_item_ids : list string) (start_date : datetime.t)
    (user : UserProfile.t) :
  forall order_dates events c g events' c' g',
    Sorted.StronglySorted Z.le order_dates ->
    ForallOrdPairs date_ordered (map user_and_date events) ->
    Forall (fun p => fst p = UserProfile.user_id user ->
                     Forall (fun d => (snd p <= datetime.ordinal start_date + d)%Z)
                            order_dates)
           (map user_and_date events) ->
    sessions_loop set_to_list item_lookup all_item_ids start_date user
                  order_dates events c g = inr ((events', c'), g') ->
    ForallOrdPairs date_ordered (map user_and_date events')
    /\ exists extra,
        map user_and_date events' = (map user_and_date events ++ extra)%list
        /\ Forall (fun p => fst p = UserProfile.user_id user) extra.
Proof.
  induction order_dates as [|d rest IH];
    intros events c g events' c' g' Hsorted Hord Hbound Hrun;
    cbn [sessions_loop] in Hrun.
  - unfold ret in Hrun. injection Hrun as <- _ _.
    split; [assumption|]. exists []. now rewrite app_nil_r.
  - apply bind_inr in Hrun as ([events1 c1] & g1 & Hs & Hrun).
    apply session_user_and_date in Hs as [n Htrace].
    inversion Hsorted as [|? ? Hrest Hd]; subst.
    apply IH in Hrun; [| assumption | |].
    + destruct Hrun as (Hord' & extra & Hextra & Hall).
      split; [assumption|].
      exists (repeat (UserProfile.user_id user,
                      (datetime.ordinal start_date + d)%Z) n ++ extra)%list.
      rewrite Hextra, Htrace, app_assoc. split; [reflexivity|].
      apply Forall_app. split; [|assumption].
      apply Forall_forall. intros x Hx. apply repeat_spec in Hx. now subst x.
    + rewrite Htrace. apply ordered_app_repeat; [assumption|].
      eapply Forall_impl; [|exact Hbound].
      intros p Hp Hfst. simpl in Hfst. specialize (Hp Hfst).
      inversion Hp; subst. simpl. assumption.
    + rewrite Htrace. apply Forall_app. split.
      * eapply Forall_impl; [|exact Hbound].
        intros p Hp Hfst. specialize (Hp Hfst). now inversion Hp.
      * apply Forall_forall. intros x Hx. apply repeat_spec in Hx. subst x.
        intros _. simpl. eapply Forall_impl; [|exact Hd].
        simpl. intros z Hz. lia.
Qed.

Lemma users_loop_date_order (item_lookup : dict MenuItem.t)
    (all_item_ids : list string) (n_days : Z) (start_date : datetime.t) :
  forall users seen events c g events' c' g',
    NoDup (map UserProfile.user_id (seen ++ users)%list) ->
    ForallOrdPairs date_ordered (map user_and_date events) ->
    Forall (fun p => In (fst p) (map UserProfile.user_id seen))
           (map user_and_date events) ->
    users_loop set_to_list item_lookup all_item_ids n_days start_date
               users events c g = inr ((events', c'), g') ->
    ForallOrdPairs date_ordered (map user_and_date events').
Proof.
  induction users as [|user rest IH];
    intros seen events c g events' c' g' Hnd Hord Hseen Hrun;
    cbn [users_loop] in Hrun.
  - unfold ret in Hrun. injection Hrun as <- _ _. assumption.
  - apply bind_inr in Hrun as (dates & g1 & _ & Hrun).
    apply bind_inr in Hrun as ([events1 c1] & g2 & Hs & Hrun).
    assert (Hfresh : ~ In (UserProfile.user_id user)
                          (map UserProfile.user_id seen)).
    { rewrite map_app in Hnd. simpl in Hnd.
      apply NoDup_remove_2 in Hnd. intro Hin. apply Hnd.
      apply in_or_app. now left. }
    apply sessions_loop_date_order in Hs;
      [| apply sorted_sorted | assumption |].
    + destruct Hs as (Hord1 & extra & Hextra & Hall).
      apply (IH (seen ++ [user])%list) in Hrun; try assumption.
      * now rewrite <- app_assoc.
      * rewrite Hextra. apply Forall_app. split.
        -- eapply Forall_impl; [|exact Hseen].
           intros p Hp. rewrite map_app. apply in_or_app. now left.
        -- eapply Forall_impl; [|exact Hall].
           intros p ->. rewrite map_app. apply in_or_app. right. now left.
    + eapply Forall_impl; [|exact Hseen].
      intros p Hp Hfst. cbv beta in Hp. rewrite Hfst in Hp. contradiction.
Qed.

(** X23. When the users passed in have different ids, the output lists
    the events of each user by day: of two events of the same user,
    the one that comes later in the output is not on an earlier day
    than the other. *)
Theorem user_events_in_date_order
    (users : list UserProfile.t) (catalog : list MenuItem.t) (n_days : Z)
    (start_date : datetime.t) (rng : option G) (events : list Event.t) :
  NoDup (map UserProfile.user_id users) ->
  generate_sessions set_to_list users catalog n_days start_date rng
  = inr events ->
  ForallOrdPairs (fun e1 e2 =>
                    Event.user_id e1 = Event.user_id e2 ->
                    (event_date e1 <= event_date e2)%Z)
                 events.
Proof.
  intros Hnd Hrun. unfold generate_sessions in Hrun.
  destruct (users_loop _ _ _ _ _ _ _ _ _) as [e | [[events' c'] gfin]] eqn:E;
    [discriminate|].
  injection Hrun as <-.
  apply (users_loop_date_order _ _ _ _ users []) in E;
    [| assumption | constructor | constructor].
  clear - E. induction events' as [|e events IH]; [constructor|].
  simpl in E. inversion E as [|? ? He Hrest]; subst.
  constructor; [|now apply IH].
  clear - He. induction events as [|e' events IH]; [constructor|].
  simpl in He. inversion He; subst. constructor; [assumption | now apply IH].
Qed.

End DateOrder.

Lemma user_events_in_date_order_witness :
  exists events,
    NoDup (map UserProfile.user_id [user_regular])
    /\ generate_sessions insertion_order [user_regular] small_catalog 30
                         start_2025 (Some tape_run) = inr events
    /\ length events = 9%nat
    /\ ForallOrdPairs (fun e1 e2 =>
                         Event.user_id e1 = Event.user_id e2 ->
                         (event_date e1 <= event_date e2)%Z)
                      events.
Proof.
  assert (Hnd : NoDup (map UserProfile.user_id [user_regular]))
    by (repeat constructor; simpl; tauto).
  destruct (generate_sessions insertion_order [user_regular] small_catalog 30
              start_2025 (Some tape_run)) as [e | events] eqn:Hrun;
    [vm_compute in Hrun; discriminate|].
  exists events. split; [exact Hnd|]. split; [reflexivity|]. split.
  - vm_compute in Hrun. injection Hrun as <-. reflexivity.
  - exact (user_events_in_date_order insertion_order [user_regular]
             small_catalog 30%Z start_2025 (Some tape_run) events Hnd Hrun).
Defined.

(** ** No order is lost *)

Section EveryOrder.

Context {G : Type} `{GeneratorLaws G}.
Context {Hchoice : ChoiceLaws G}.
Variable set_to_list : SetOrder.

Lemma session_emits_own_id (catalog : list MenuItem.t)
    (start_date : datetime.t) (user : UserProfile.t) (day_offset : Z)
    (events : list Event.t) (c : nat) (g : G)
    (events' : list Event.t) (c' : nat) (g' : G) :
  every_template_has_anchor catalog = true ->
  (2 <= length (dict_keys (build_item_lookup catalog)))%nat ->
  session set_to_list (build_item_lookup catalog)
          (dict_keys (build_item_lookup catalog)) start_date user
          day_offset events c g = inr ((events', c'), g') ->
  c' = S c
  /\ In ("S" ++ format_07d (S c))%string (map Event.session_id events')
  /\ incl (map Event.session_id events) (map Event.session_id events').
Proof.
  intros Hevery Hsize Hs.
  apply session_inv in Hs
    as (-> & ts & mt & name & t & g1 & Hpre & Hcase).
  split; [reflexivity|].
  apply session_prelude_inv in Hpre as [Hname ->].
  destruct Hcase as [(Hnil & _) | (_ & anchor_id & g2 & cart' & events1 & g3
                                     & _ & Hroles & -> & _)].
  - exfalso. unfold every_template_has_anchor in Hevery.
    rewrite forallb_forall in Hevery.
    apply dict_get_In in Hname. apply Hevery in Hname. simpl in Hname.
    now rewrite Hnil in Hname.
  - apply session_emits in Hroles as (new & -> & Hne & Hall);
      [| exact Hsize | exact (MEAL_TEMPLATES_ok _ _ Hname)].
    rewrite abandon_override_map by (intro e; now destruct e).
    rewrite map_app. split.
    + apply in_or_app. right.
      destruct new as [|e new]; [contradiction|].
      inversion Hall as [|? ? (Hid & _) _]; subst. left. exact Hid.
    + intros x Hx. apply in_or_app. now left.
Qed.

(** X24. No order is lost when every template has an anchor in the
    catalog and the catalog has two items or more, as is the case for
    the catalog of [build_menu_catalog]: every session then builds an
    event, so the session ids of the output are all of S0000001, ...,
    up to the total of the users' [num_orders]. *)
Theorem every_order_gives_a_session
    (users : list UserProfile.t) (catalog : list MenuItem.t) (n_days : Z)
    (start_date : datetime.t) (rng : option G) (events : list Event.t) :
  every_template_has_anchor catalog = true ->
  (2 <= length (dict_keys (build_item_lookup catalog)))%nat ->
  generate_sessions set_to_list users catalog n_days start_date rng
  = inr events ->
  (forall k, (1 <= k <= total_orders users)%nat ->
             In ("S" ++ format_07d k)%string (map Event.session_id events))
  /\ every_template_has_anchor build_menu_catalog = true
  /\ length (dict_keys (build_item_lookup build_menu_catalog)) = 58%nat.
Proof.
  intros Hevery Hsize Hrun.
  split; [|split; vm_compute; reflexivity].
  unfold generate_sessions in Hrun.
  destruct (users_loop _ _ _ _ _ _ _ _ _) as [e | [[events' c'] gfin]] eqn:E;
    [discriminate|].
  injection Hrun as <-.
  pose proof (users_loop_counter _ _ _ _ _ _ _ _ _ _ _ _ E) as Hc.
  simpl in Hc. subst c'.
  eapply (users_loop_state set_to_list
            (fun events c =>
               forall k, (1 <= k <= c)%nat ->
                 In ("S" ++ format_07d k)%string (map Event.session_id events))
            (fun _ => True)); [apply any_day | | | exact E].
  - intros user d ev k g ev' k' g' _ _ HP Hs j Hj.
    apply session_emits_own_id in Hs as (-> & Hown & Hincl); try assumption.
    destruct (Nat.eq_dec j (S k)) as [-> | Hne]; [exact Hown|].
    apply Hincl, HP. lia.
  - intros k Hk. lia.
Qed.

End EveryOrder.

Lemma every_order_gives_a_session_witness :
  exists events,
    every_template_has_anchor build_menu_catalog = true
    /\ (2 <= length (dict_keys (build_item_lookup build_menu_catalog)))%nat
    /\ generate_sessions insertion_order [user_regular] build_menu_catalog 30
                         start_2025 (Some (UnitTape tape_run)) = inr events
    /\ In "S0000001" (map Event.session_id events).
Proof.
  assert (Hevery : every_template_has_anchor build_menu_catalog = true)
    by (vm_compute; reflexivity).
  assert (Hsize : (2 <= length (dict_keys
                                  (build_item_lookup build_menu_catalog)))%nat)
    by (vm_compute; lia).
  destruct (generate_sessions insertion_order [user_regular]
              build_menu_catalog 30 start_2025 (Some (UnitTape tape_run)))
    as [e | events] eqn:Hrun; [vm_compute in Hrun; discriminate|].
  exists events. split; [exact Hevery|]. split; [exact Hsize|].
  split; [reflexivity|].
  destruct (every_order_gives_a_session insertion_order [user_regular]
              build_menu_catalog 30%Z start_2025 (Some (UnitTape tape_run))
              events Hevery Hsize Hrun) as [Hall _].
  apply (Hall 1%nat). simpl. lia.
Defined.

(** ** Whose session it is *)

Lemma session_owner_app_r (seen rest : list UserProfile.t) (k : nat) :
  (total_orders seen < k)%nat ->
  session_owner (seen ++ rest)%list k
  = session_owner rest (k - total_orders seen).
Proof.
  revert k. induction seen as [|u seen IH]; intros k Hk; simpl in *.
  - now rewrite Nat.sub_0_r.
  - destruct (Nat.leb_spec k (UserProfile.num_orders u)); [lia|].
    rewrite IH by lia. f_equal. lia.
Qed.

Section SessionOwner.

Context {G : Type} `{ChoiceLaws G}.
Variable set_to_list : SetOrder.

Lemma sessions_loop_owner (all_users : list UserProfile.t)
    (item_lookup : dict MenuItem.t) (all_item_ids : list string)
    (start_date : datetime.t) (user : UserProfile.t) :
  forall order_dates events c g events' c' g',
    (forall j, (c < j <= c + length order_dates)%nat ->
               session_owner all_users j = Some user) ->
    Forall (fun e => exists k u,
                Event.session_id e = ("S" ++ format_07d k)%string
                /\ session_owner all_users k = Some u
                /\ event_of_user u e) events ->
    sessions_loop set_to_list item_lookup all_item_ids start_date user
                  order_dates events c g = inr ((events', c'), g') ->
    Forall (fun e => exists k u,
                Event.session_id e = ("S" ++ format_07d k)%string
                /\ session_owner all_users k = Some u
                /\ event_of_user u e) events'.
Proof.
  induction order_dates as [|d rest IH];
    intros events c g events' c' g' Hown Hinv Hrun;
    cbn [sessions_loop] in Hrun.
  - unfold ret in Hrun. injection Hrun as <- _ _. assumption.
  - apply bind_inr in Hrun as ([events1 c1] & g1 & Hs & Hrun).
    apply session_events in Hs
      as [-> [-> | (env & a & new & u & Hof & Hnew & ->)]].
    + eapply IH; [|exact Hinv|exact Hrun].
      intros j Hj. apply Hown. simpl. lia.
    + eapply IH; [| |exact Hrun].
      * intros j Hj. apply Hown. simpl. lia.
      * apply abandon_override_Forall_closed.
        { intros e (k & u0 & Hid & Ho & He). exists k, u0. now destruct e. }
        apply Forall_app. split; [assumption|].
        eapply Forall_impl; [|exact Hnew]. intros e He.
        exists (S c), user.
        destruct Hof as (ts & name & t & ab & g0 & g2 & g3 & -> & _).
        split; [exact (proj1 (made_in_session set_to_list _ _ _ _ He He))|].
        split; [apply Hown; simpl; lia|].
        exact (proj1 (made_in_user set_to_list _ _ _ He)).
Qed.

Lemma users_loop_owner (item_lookup : dict MenuItem.t)
    (all_item_ids : list string) (n_days : Z) (start_date : datetime.t)
    (all_users : list UserProfile.t) :
  forall users seen events c g events' c' g',
    all_users = (seen ++ users)%list ->
    c = total_orders seen ->
    Forall (fun e => exists k u,
                Event.session_id e = ("S" ++ format_07d k)%string
                /\ session_owner all_users k = Some u
                /\ event_of_user u e) events ->
    users_loop set_to_list item_lookup all_item_ids n_days start_date
               users events c g = inr ((events', c'), g') ->
    Forall (fun e => exists k u,
                Event.session_id e = ("S" ++ format_07d k)%string
                /\ session_owner all_users k = Some u
                /\ event_of_user u e) events'.
Proof.
  induction users as [|user rest IH];
    intros seen events c g events' c' g' Hall Hc Hinv Hrun;
    cbn [users_loop] in Hrun.
  - unfold ret in Hrun. injection Hrun as <- _ _. assumption.
  - apply bind_inr in Hrun as (dates & g1 & Hdates & Hrun).
    apply bind_inr in Hrun as ([events1 c1] & g2 & Hs & Hrun).
    apply rng_choice_int_length in Hdates.
    pose proof (sessions_loop_counter set_to_list _ _ _ _ _ _ _ _ _ _ _ Hs)
      as Hc1.
    rewrite sorted_length, Hdates in Hc1.
    apply (IH (seen ++ [user])%list) in Hrun; [assumption | | |].
    + now rewrite <- app_assoc.
    + subst c c1. clear. induction seen as [|u seen IHs]; simpl; lia.
    + eapply sessions_loop_owner; [|exact Hinv|exact Hs].
      intros j Hj. rewrite sorted_length, Hdates in Hj.
      rewrite Hall, session_owner_app_r by lia. simpl.
      destruct (Nat.leb_spec (j - total_orders seen)
                             (UserProfile.num_orders user)); [reflexivity|lia].
Qed.

(** X25. Sessions are numbered user by user: the first [num_orders]
    session numbers are the first user's, the next ones the second
    user's, and so on.  So the number in the [session_id] of an event
    tells which of the users passed in the event belongs to, and the
    user fields of the event are that user's; a user gets as many
    session numbers as it has orders. *)
Theorem sessions_belong_to_users
    (users : list UserProfile.t) (catalog : list MenuItem.t) (n_days : Z)
    (start_date : datetime.t) (rng : option G) (events : list Event.t) :
  generate_sessions set_to_list users catalog n_days start_date rng
  = inr events ->
  Forall (fun e => exists k user,
              session_number (Event.session_id e) = Some k
              /\ session_owner users k = Some user
              /\ event_of_user user e) events.
Proof.
  intro Hrun. unfold generate_sessions in Hrun.
  destruct (users_loop _ _ _ _ _ _ _ _ _) as [e | [[events' c'] gfin]] eqn:E;
    [discriminate|].
  injection Hrun as <-.
  apply (users_loop_owner _ _ _ _ users users []) in E;
    [| reflexivity | reflexivity | constructor].
  eapply Forall_impl; [|exact E].
  intros e (k & u & Hid & Ho & He). exists k, u.
  rewrite Hid, session_number_format. auto.
Qed.

End SessionOwner.

Lemma sessions_belong_to_users_witness :
  exists events,
    generate_sessions insertion_order [user_vip; user_regular] small_catalog
                      30 start_2025 (Some (UnitTape (0.5 :: tape_skip
                                                     ++ tape_run)))
    = inr events
    /\ length events = 9%nat
    /\ Forall (fun e => exists k user,
                 session_number (Event.session_id e) = Some k
                 /\ session_owner [user_vip; user_regular] k = Some user
                 /\ event_of_user user e) events
    /\ map Event.session_id events = repeat "S0000002" 9.
Proof.
  destruct (generate_sessions insertion_order [user_vip; user_regular]
              small_catalog 30 start_2025
              (Some (UnitTape (0.5 :: tape_skip ++ tape_run))))
    as [e | events] eqn:Hrun; [vm_compute in Hrun; discriminate|].
  exists events. split; [reflexivity|]. split; [|split].
  - vm_compute in Hrun. injection Hrun as <-. reflexivity.
  - exact (sessions_belong_to_users insertion_order [user_vip; user_regular]
             small_catalog 30%Z start_2025
             (Some (UnitTape (0.5 :: tape_skip ++ tape_run))) events Hrun).
  - vm_compute in Hrun. injection Hrun as <-. reflexivity.
Defined.
